(** * Payment gateway: API surface and background workers

    A shallow embedding of [backend/src/index.js] (the HTTP handlers),
    [backend/src/worker.js] (the BullMQ workers) and the schema of
    [backend/init.sql], with the properties the specification states
    about them.

    Conventions.
    - A table with a primary key is a [gmap] from the key to the row; an
      [INSERT] on a key that is present violates the key, the driver throws
      and the handler's [catch] answers 500.
    - A BullMQ queue is the list of the jobs added and not yet consumed.
    - Values the code draws from its environment (the clock, random
      identifiers, [Math.random()], the answer of the merchant's endpoint)
      are arguments of the function that models the handler.
    - A JavaScript string is a [string]; its [length] is the number of its
      characters.
    - A handler or a worker gives way at each [await], and the code opens
      no transaction and takes no lock. The function named after a handler
      is the handler served with nothing in between. Where a property
      depends on what may come in between, the handler is also given in
      its parts, each on the state of its own moment ([create_refund_payment],
      [create_refund_amount], [create_refund_insert]; [retry_webhook_update];
      [webhookWorker_start], [webhookWorker_settle]), and the function
      served alone is their composition.
    - An id compared with a column of type [UUID] is read as a UUID, and
      the query throws when it has not the form of one ([uuid_param]). *)

From Stdlib Require Import ZArith QArith Ascii Permutation.
From stdpp Require Import gmap strings list fin_maps pretty.

Open Scope string_scope.
Open Scope Z_scope.

(** ** JavaScript values that cross a wire *)

Module Json.

(** The JSON fragment the service exchanges: numbers are the integers
    (amounts in minor units, unix seconds, status codes). An object is the
    list of its members in property order. *)
#[local] Unset Elimination Schemes.
Inductive json : Type :=
| JNull
| JBool (b : bool)
| JNum (n : Z)
| JStr (s : string)
| JArr (items : list json)
| JObj (members : list (string * json)).

#[local] Set Elimination Schemes.

Definition hex_digit (n : N) : Ascii.ascii :=
  match n with
  | 0%N => "0" | 1%N => "1" | 2%N => "2" | 3%N => "3" | 4%N => "4"
  | 5%N => "5" | 6%N => "6" | 7%N => "7" | 8%N => "8" | 9%N => "9"
  | 10%N => "a" | 11%N => "b" | 12%N => "c" | 13%N => "d" | 14%N => "e"
  | _ => "f"
  end%char.

Definition dquote : string := String (Ascii.ascii_of_N 34) "".

(** [JSON.stringify] on one character of a string: the quote, the
    backslash and the control characters are escaped, all others are
    copied. *)
Definition escape_char (c : Ascii.ascii) : string :=
  let n := Ascii.N_of_ascii c in
  if (n =? 34)%N then "\" +:+ dquote
  else if (n =? 92)%N then "\\"
  else if (n =? 8)%N then "\b"
  else if (n =? 9)%N then "\t"
  else if (n =? 10)%N then "\n"
  else if (n =? 12)%N then "\f"
  else if (n =? 13)%N then "\r"
  else if (n <? 32)%N then
    "\u00" +:+ String (hex_digit (n / 16)) (String (hex_digit (n mod 16)) "")
  else String c "".

Fixpoint escape (s : string) : string :=
  match s with
  | EmptyString => ""
  | String c r => escape_char c +:+ escape r
  end.

Definition quote (s : string) : string := dquote +:+ escape s +:+ dquote.

(** [JSON.stringify(value)] (no indentation, no replacer). *)
Fixpoint JSON_stringify (j : json) : string :=
  match j with
  | JNull => "null"
  | JBool true => "true"
  | JBool false => "false"
  | JNum n => pretty n
  | JStr s => quote s
  | JArr items =>
      "[" +:+
      (fix go (first : bool) (l : list json) : string :=
         match l with
         | [] => ""
         | x :: r => (if first then "" else ",") +:+ JSON_stringify x +:+ go false r
         end) true items
      +:+ "]"
  | JObj members =>
      "{" +:+
      (fix go (first : bool) (l : list (string * json)) : string :=
         match l with
         | [] => ""
         | (k, v) :: r =>
             (if first then "" else ",") +:+ quote k +:+ ":" +:+ JSON_stringify v
             +:+ go false r
         end) true members
      +:+ "}"
  end.

(** An object literal with optional members: a property whose value is
    [undefined], and a spread of [cond && {...}] whose condition is falsy,
    contribute nothing. *)
Definition opt_member (k : string) (v : option json) : list (string * json) :=
  match v with Some j => [(k, j)] | None => [] end.

Definition members_of (j : json) : list (string * json) :=
  match j with JObj l => l | _ => [] end.

(** *** A value stored in a [JSONB] column and read back

    [init.sql] declares [idempotency_keys.response] and
    [webhook_logs.payload] as [JSONB]. PostgreSQL keeps a jsonb object
    without its member order and without duplicate keys (the last value
    of a key wins): the members come back shorter keys first, keys of one
    length in byte order. The driver parses that text, so the order of
    the object the handler receives is this one. *)
Definition jsonb_key_lt (a b : string) : bool :=
  (String.length a <? String.length b)%nat
  || ((String.length a =? String.length b)%nat && String.ltb a b).

Fixpoint jsonb_insert (k : string) (v : json) (acc : list (string * json))
  : list (string * json) :=
  match acc with
  | [] => [(k, v)]
  | (k', v') :: r =>
      if String.eqb k k' then acc
      else if jsonb_key_lt k k' then (k, v) :: acc
      else (k', v') :: jsonb_insert k v r
  end.

Definition jsonb_members (l : list (string * json)) : list (string * json) :=
  foldr (fun kv acc => jsonb_insert kv.1 kv.2 acc) [] l.

Fixpoint jsonb (j : json) : json :=
  match j with
  | JArr items => JArr (map jsonb items)
  | JObj members =>
      JObj (jsonb_members (map (fun kv => match kv with (k, v) => (k, jsonb v) end) members))
  | _ => j
  end.

(** A value with no array or object inside; jsonb stores it as it is. *)
Definition is_scalar (j : json) : bool :=
  match j with
  | JNull | JBool _ | JNum _ | JStr _ => true
  | JArr _ | JObj _ => false
  end.

End Json.
Import Json.

(** ** The relational store ([init.sql]) and the queues *)

Inductive payment_status := Pending | Success | Failed.
Inductive refund_status := RefundPending | RefundProcessed.
Inductive webhook_status := WPending | WSuccess | WFailed.

Definition payment_status_string (s : payment_status) : string :=
  match s with Pending => "pending" | Success => "success" | Failed => "failed" end.

Definition refund_status_string (s : refund_status) : string :=
  match s with RefundPending => "pending" | RefundProcessed => "processed" end.

Record merchant := {
  m_webhook_url : option string;
  m_webhook_secret : option string
}.

Record order := {
  o_merchant_id : string;
  o_amount : Z;
  o_currency : string;
  o_receipt : option string;
  o_status : string;
  o_created_at : string
}.

Record payment := {
  p_order_id : string;
  p_merchant_id : string;
  p_amount : Z;
  p_currency : string;
  p_method : string;
  p_vpa : option string;
  p_card_last4 : option string;
  p_card_network : option string;
  p_status : payment_status;
  p_captured : bool;
  p_error_code : option string;
  p_error_description : option string;
  p_created_at : string;
  p_updated_at : string
}.

Record refund := {
  r_payment_id : string;
  r_merchant_id : string;
  r_amount : Z;
  r_reason : option string;
  r_status : refund_status;
  r_created_at : string;
  r_processed_at : option string
}.

(** [next_retry_at] is kept as the instant in epoch milliseconds that the
    worker renders with [toISOString]. *)
Record webhook_log := {
  w_merchant_id : string;
  w_event : string;
  w_payload : json;
  w_status : webhook_status;
  w_attempts : Z;
  w_last_attempt_at : option string;
  w_next_retry_at : option Z;
  w_response_code : option Z;
  w_response_body : option string
}.

(** [expires_at] in epoch milliseconds. The key of the table is
    [(key, merchant_id)]. *)
Record idempotency_record := {
  i_response : json;
  i_expires_at : Z
}.

Record webhook_job := {
  webhookLogId : option string;
  merchantId : string;
  event : string;
  payload : json
}.

(** The database and the three BullMQ queues. A job of [webhookQueue]
    carries the delay it was added with; the jobs of the two other queues
    are the [paymentId] and the [refundId]. *)
Record state := {
  merchants : gmap string merchant;
  orders : gmap string order;
  payments : gmap string payment;
  refunds : gmap string refund;
  webhook_logs : gmap string webhook_log;
  idempotency_keys : gmap (string * string) idempotency_record;
  paymentQueue : list string;
  refundQueue : list string;
  webhookQueue : list (webhook_job * Z)
}.

Definition set_payments (v : gmap string payment) (st : state) : state :=
  {| merchants := merchants st; orders := orders st; payments := v;
     refunds := refunds st; webhook_logs := webhook_logs st;
     idempotency_keys := idempotency_keys st; paymentQueue := paymentQueue st;
     refundQueue := refundQueue st; webhookQueue := webhookQueue st |}.

Definition set_refunds (v : gmap string refund) (st : state) : state :=
  {| merchants := merchants st; orders := orders st; payments := payments st;
     refunds := v; webhook_logs := webhook_logs st;
     idempotency_keys := idempotency_keys st; paymentQueue := paymentQueue st;
     refundQueue := refundQueue st; webhookQueue := webhookQueue st |}.

Definition set_webhook_logs (v : gmap string webhook_log) (st : state) : state :=
  {| merchants := merchants st; orders := orders st; payments := payments st;
     refunds := refunds st; webhook_logs := v;
     idempotency_keys := idempotency_keys st; paymentQueue := paymentQueue st;
     refundQueue := refundQueue st; webhookQueue := webhookQueue st |}.

Definition set_idempotency_keys (v : gmap (string * string) idempotency_record)
    (st : state) : state :=
  {| merchants := merchants st; orders := orders st; payments := payments st;
     refunds := refunds st; webhook_logs := webhook_logs st;
     idempotency_keys := v; paymentQueue := paymentQueue st;
     refundQueue := refundQueue st; webhookQueue := webhookQueue st |}.

Definition set_paymentQueue (v : list string) (st : state) : state :=
  {| merchants := merchants st; orders := orders st; payments := payments st;
     refunds := refunds st; webhook_logs := webhook_logs st;
     idempotency_keys := idempotency_keys st; paymentQueue := v;
     refundQueue := refundQueue st; webhookQueue := webhookQueue st |}.

Definition set_refundQueue (v : list string) (st : state) : state :=
  {| merchants := merchants st; orders := orders st; payments := payments st;
     refunds := refunds st; webhook_logs := webhook_logs st;
     idempotency_keys := idempotency_keys st; paymentQueue := paymentQueue st;
     refundQueue := v; webhookQueue := webhookQueue st |}.

Definition set_webhookQueue (v : list (webhook_job * Z)) (st : state) : state :=
  {| merchants := merchants st; orders := orders st; payments := payments st;
     refunds := refunds st; webhook_logs := webhook_logs st;
     idempotency_keys := idempotency_keys st; paymentQueue := paymentQueue st;
     refundQueue := refundQueue st; webhookQueue := v |}.

(** [queue.add(name, data, { delay })]: the job joins the queue. *)
Definition webhookQueue_add (job : webhook_job) (delay : Z) (st : state) : state :=
  set_webhookQueue (webhookQueue st ++ [(job, delay)]) st.

(** JavaScript truthiness of a value that is a string, [null] or
    [undefined]: only a non-empty string is truthy. *)
Definition truthy (v : option string) : bool :=
  match v with
  | Some s => negb (String.eqb s "")
  | None => false
  end.

(** [SELECT * FROM t WHERE id = $1 AND merchant_id = $2]: the row of that
    id when it belongs to the merchant, no row otherwise. *)
Definition select_scoped {A} (owner : A -> string) (table : gmap string A)
    (id merchant_id : string) : option A :=
  match table !! id with
  | Some row => if String.eqb (owner row) merchant_id then Some row else None
  | None => None
  end.

(** ** HTTP responses of the API ([res.status(..).json(..)]) *)

Record response := {
  status_code : Z;
  body : json
}.

Definition error_response (status : Z) (code description : string) : response :=
  {| status_code := status;
     body := JObj [("error", JObj [("code", JStr code); ("description", JStr description)])] |}.

(** The bytes of the body on the wire: Express's [res.json] sends
    [JSON.stringify(body)]. *)
Definition body_bytes (r : response) : string := JSON_stringify (body r).

(** [INSERT INTO t ...]: [None] when the primary key is taken (the driver
    throws a unique violation). *)
Definition pk_insert `{Countable K} {A} (k : K) (row : A) (t : gmap K A)
    : option (gmap K A) :=
  match t !! k with
  | Some _ => None
  | None => Some (<[k := row]> t)
  end.

(** *** Columns of type [UUID]

    [merchants.id] and [webhook_logs.id] are [UUID]. A text compared with
    such a column is read as a UUID first, and the query throws when it has
    not the form of one. PostgreSQL reads sixteen bytes of two hexadecimal
    digits each, in either case, with an optional hyphen after any group of
    four digits, the whole optionally in braces; it prints the digits in
    lower case, as 8-4-4-4-12. *)
Module Uuid.

Definition is_hex (c : ascii) : bool :=
  let n := N_of_ascii c in
  ((48 <=? n) && (n <=? 57) || (97 <=? n) && (n <=? 102) || (65 <=? n) && (n <=? 70))%N.

Definition lower (c : ascii) : ascii :=
  let n := N_of_ascii c in
  if ((65 <=? n) && (n <=? 70))%N then ascii_of_N (n + 32) else c.

(** The digits of the [remaining] bytes from byte [i] on, and what follows
    them. *)
Fixpoint read_bytes (remaining i : nat) (s : string) : option (list ascii * string) :=
  match remaining with
  | O => Some ([], s)
  | S k =>
      match s with
      | String a (String b r) =>
          if is_hex a && is_hex b then
            let r :=
              match r with
              | String h r' =>
                  if Ascii.eqb h "-" && Nat.odd i && (i <? 15)%nat then r' else r
              | EmptyString => r
              end in
            match read_bytes k (S i) r with
            | Some (digits, rest) => Some (lower a :: lower b :: digits, rest)
            | None => None
            end
          else None
      | _ => None
      end
  end.

Definition print (digits : list ascii) : string :=
  String.string_of_list_ascii
    (take 8 digits ++ ["-"%char] ++ take 4 (drop 8 digits) ++ ["-"%char]
     ++ take 4 (drop 12 digits) ++ ["-"%char] ++ take 4 (drop 16 digits) ++ ["-"%char]
     ++ drop 20 digits).

(** The UUID a text is read as, as PostgreSQL prints it; [None] when the
    text is refused. *)
Definition read (s : string) : option string :=
  let braces := match s with String c _ => Ascii.eqb c "{" | EmptyString => false end in
  let s := if braces then String.substring 1 (String.length s - 1) s else s in
  match read_bytes 16 0 s with
  | Some (digits, rest) =>
      if String.eqb rest (if braces then "}" else "") then Some (print digits) else None
  | None => None
  end.

End Uuid.

(** [WHERE id = $1] on a [UUID] column, for a parameter given as text: the
    key of the rows the parameter names, or [None] when the query throws.
    The table holds its ids as PostgreSQL prints them, so a text that is
    the id of a row as the table holds it names that row. *)
Definition uuid_param {A} (table : gmap string A) (id : string) : option string :=
  if decide (is_Some (table !! id)) then Some id else Uuid.read id.

(** A string stored in a [VARCHAR(n)] column: PostgreSQL refuses one of more
    than [n] characters, unless the excess is all spaces, which it cuts
    off; and what it does with a value that may be [NULL]. *)
Definition varchar (n : nat) (s : string) : option string :=
  if (String.length s <=? n)%nat then Some s
  else if forallb (Ascii.eqb " ")
            (String.list_ascii_of_string (String.substring n (String.length s - n) s))
       then Some (String.substring 0 n s)
       else None.

Definition varchar_or_null (n : nat) (v : option string) : option (option string) :=
  match v with
  | None => Some None
  | Some s => Some <$> varchar n s
  end.

(** ** [parseInt] and the pagination of the listings *)

Module Pagination.

(** The white space [parseInt] skips, on a string given by its UTF-8
    bytes: TAB, LF, VT, FF, CR and the space; U+00A0; U+1680, U+2000 to
    U+200A, U+2028, U+2029, U+202F, U+205F, U+3000 and U+FEFF. *)
Definition is_space (c : ascii) : bool :=
  let n := N_of_ascii c in ((9 <=? n) && (n <=? 13))%N || (n =? 32)%N.

Definition is_space2 (c1 c2 : ascii) : bool :=
  ((N_of_ascii c1 =? 194) && (N_of_ascii c2 =? 160))%N.

Definition is_space3 (c1 c2 c3 : ascii) : bool :=
  let a := N_of_ascii c1 in
  let b := N_of_ascii c2 in
  let c := N_of_ascii c3 in
  ((a =? 225) && (b =? 154) && (c =? 128)
   || (a =? 226) && (b =? 128)
      && ((128 <=? c) && (c <=? 138) || (c =? 168) || (c =? 169) || (c =? 175))
   || (a =? 226) && (b =? 129) && (c =? 159)
   || (a =? 227) && (b =? 128) && (c =? 128)
   || (a =? 239) && (b =? 187) && (c =? 191))%N.

Fixpoint skip_space (s : string) : string :=
  match s with
  | String c1 r1 =>
      if is_space c1 then skip_space r1
      else
        match r1 with
        | String c2 r2 =>
            if is_space2 c1 c2 then skip_space r2
            else
              match r2 with
              | String c3 r3 => if is_space3 c1 c2 c3 then skip_space r3 else s
              | EmptyString => s
              end
        | EmptyString => s
        end
  | EmptyString => s
  end.

Definition digit_value (radix : Z) (c : ascii) : option Z :=
  let n := Z.of_N (N_of_ascii c) in
  let d :=
    if (48 <=? n) && (n <=? 57) then Some (n - 48)
    else if (97 <=? n) && (n <=? 122) then Some (n - 87)
    else if (65 <=? n) && (n <=? 90) then Some (n - 55)
    else None in
  match d with
  | Some v => if v <? radix then Some v else None
  | None => None
  end.

(** The longest prefix of digits of the radix; [None] when it is empty. *)
Fixpoint parse_digits (radix : Z) (s : string) (acc : option Z) : option Z :=
  match s with
  | String c r =>
      match digit_value radix c with
      | Some d => parse_digits radix r (Some (radix * default 0 acc + d))
      | None => acc
      end
  | EmptyString => acc
  end.

Definition is_negative (s : string) : bool :=
  match s with
  | String c _ => Ascii.eqb c "-"
  | EmptyString => false
  end.

Definition strip_sign (s : string) : string :=
  match s with
  | String c r => if Ascii.eqb c "-" || Ascii.eqb c "+" then r else s
  | EmptyString => s
  end.

Definition has_hex_prefix (s : string) : bool :=
  match s with
  | String c (String x _) => Ascii.eqb c "0" && (Ascii.eqb x "x" || Ascii.eqb x "X")
  | _ => false
  end.

(** The number a JavaScript Number holds for the integer [n >= 0]: [n]
    itself below [2^53], beyond it the nearest number with 53 significant
    bits, the even one of two that are as near. From [2^1024 - 2^970] on
    that is [Infinity], written here as [2^1024], the value it stands for
    in the rounding: it is truthy and no [bigint]. *)
Definition double_infinity : Z := 2 ^ 1024.

Definition to_double (n : Z) : Z :=
  if n <? 2 ^ 53 then n
  else
    let shift := Z.log2 n - 52 in
    let q := Z.shiftr n shift in
    let r := n - Z.shiftl q shift in
    let half := Z.shiftl 1 (shift - 1) in
    let q := if (half <? r) || ((r =? half) && Z.odd q) then q + 1 else q in
    Z.min (Z.shiftl q shift) double_infinity.

(** [parseInt(v)] with no radix, on a value that is a string or
    [undefined]; [None] is [NaN]. Leading white space is skipped, a sign
    is read, [0x] selects radix 16, then the digits are read up to the
    first character that is not one, and their value is rounded to a
    Number. ([undefined] is converted to the string of its name, which
    starts with no digit.) *)
Definition parseInt (v : option string) : option Z :=
  match v with
  | None => None
  | Some s =>
      let s := skip_space s in
      let neg := is_negative s in
      let s := strip_sign s in
      let radix := if has_hex_prefix s then 16 else 10 in
      let s := if has_hex_prefix s then String.substring 2 (String.length s - 2) s else s in
      match parse_digits radix s None with
      | Some n => Some (if neg then - to_double n else to_double n)
      | None => None
      end
  end.

(** [parseInt(v) || d]: [NaN] and [0] are falsy. *)
Definition parseInt_or (v : option string) (d : Z) : Z :=
  match parseInt v with
  | Some n => if n =? 0 then d else n
  | None => d
  end.

(** The first two lines of the four listing handlers
    ([GET /api/v1/orders], [/payments], [/refunds], [/webhooks]): the
    values bound to [LIMIT $2 OFFSET $3] and echoed in the response. *)
Record page := { limit : Z; offset : Z }.

Definition pagination (query_limit query_offset : option string) : page :=
  {| limit := parseInt_or query_limit 10; offset := parseInt_or query_offset 0 |}.

(** A value that is not numeric for [parseInt]: [undefined], or a string
    that, after its leading white space (that of [skip_space]) and one
    sign, does not start with a decimal digit. *)
Definition is_decimal_digit (c : ascii) : bool :=
  let n := N_of_ascii c in ((48 <=? n) && (n <=? 57))%N.

Definition non_numeric (v : option string) : bool :=
  match v with
  | None => true
  | Some s =>
      match strip_sign (skip_space s) with
      | String c _ => negb (is_decimal_digit c)
      | EmptyString => true
      end
  end.

(** The decimal numeral of a list of digits, and its value. *)
Definition digit_char (d : Z) : ascii := ascii_of_N (Z.to_N (48 + d)).

Fixpoint numeral (ds : list Z) : string :=
  match ds with
  | [] => ""
  | d :: r => String (digit_char d) (numeral r)
  end.

Definition numeral_value (ds : list Z) : Z := fold_left (fun acc d => 10 * acc + d) ds 0.

Definition list_orders_page := pagination.
Definition list_payments_page := pagination.
Definition list_refunds_page := pagination.
Definition list_webhooks_page := pagination.

End Pagination.

(** ** The API handlers ([index.js]), after [authenticateMerchant]

    Each handler takes the id of the authenticated merchant
    ([req.merchant.id]). *)

Module Api.

Definition opt_json (v : option string) : json :=
  match v with Some s => JStr s | None => JNull end.


Definition truthy_member (k : string) (v : option string) : list (string * json) :=
  if truthy v then opt_member k (JStr <$> v) else [].

(** [GET /api/v1/payments/:paymentId] *)
Definition get_payment (st : state) (merchant_id paymentId : string) : response :=
  match select_scoped p_merchant_id (payments st) paymentId merchant_id with
  | None => error_response 404 "NOT_FOUND" "Payment not found"
  | Some payment =>
      {| status_code := 200;
         body := JObj ([("id", JStr paymentId); ("order_id", JStr (p_order_id payment));
                        ("amount", JNum (p_amount payment));
                        ("currency", JStr (p_currency payment));
                        ("method", JStr (p_method payment))]
                       ++ truthy_member "vpa" (p_vpa payment)
                       ++ truthy_member "card_last4" (p_card_last4 payment)
                       ++ truthy_member "card_network" (p_card_network payment)
                       ++ [("status", JStr (payment_status_string (p_status payment)));
                           ("captured", JBool (p_captured payment))]
                       ++ truthy_member "error_code" (p_error_code payment)
                       ++ truthy_member "error_description" (p_error_description payment)
                       ++ [("created_at", JStr (p_created_at payment));
                           ("updated_at", JStr (p_updated_at payment))]) |}
  end.

Definition set_captured (now : string) (p : payment) : payment :=
  {| p_order_id := p_order_id p; p_merchant_id := p_merchant_id p;
     p_amount := p_amount p; p_currency := p_currency p; p_method := p_method p;
     p_vpa := p_vpa p; p_card_last4 := p_card_last4 p;
     p_card_network := p_card_network p; p_status := p_status p;
     p_captured := true; p_error_code := p_error_code p;
     p_error_description := p_error_description p;
     p_created_at := p_created_at p; p_updated_at := now |}.

(** [POST /api/v1/payments/:paymentId/capture] (the [amount] of the body
    is read and not used). *)
Definition capture_payment (st : state) (merchant_id paymentId : string) (now : string)
    : response * state :=
  match select_scoped p_merchant_id (payments st) paymentId merchant_id with
  | None => (error_response 404 "NOT_FOUND" "Payment not found", st)
  | Some payment =>
      match p_status payment with
      | Success =>
          if p_captured payment then
            (error_response 400 "BAD_REQUEST_ERROR" "Payment already captured", st)
          else
            ({| status_code := 200;
                body := JObj [("id", JStr paymentId);
                              ("order_id", JStr (p_order_id payment));
                              ("amount", JNum (p_amount payment));
                              ("currency", JStr (p_currency payment));
                              ("method", JStr (p_method payment));
                              ("status", JStr (payment_status_string (p_status payment)));
                              ("captured", JBool true);
                              ("created_at", JStr (p_created_at payment));
                              ("updated_at", JStr now)] |},
             set_payments (alter (set_captured now) paymentId (payments st)) st)
      | _ => (error_response 400 "BAD_REQUEST_ERROR" "Payment not in capturable state", st)
      end
  end.

(** [SELECT COALESCE(SUM(amount), 0) FROM refunds WHERE payment_id = $1] *)
Definition total_refunded (t : gmap string refund) (paymentId : string) : Z :=
  map_fold (fun _ r acc => if String.eqb (r_payment_id r) paymentId
                           then acc + r_amount r else acc) 0 t.

(** The body of a create-refund request: [amount] is a JSON integer or is
    missing. *)
Record refund_request := {
  rq_amount : option Z;
  rq_reason : option string
}.

(** [POST /api/v1/payments/:paymentId/refunds]. The handler awaits three
    queries one after another, with no transaction around them: the
    payment, the sum of its refunds, the insert. Other requests and the
    workers are served between them, so each query has its own state.

    The first query: the answer, or the payment of a request that goes
    on. *)
Definition create_refund_payment (st : state) (merchant_id paymentId : string)
    : response + payment :=
  match select_scoped p_merchant_id (payments st) paymentId merchant_id with
  | None => inl (error_response 404 "NOT_FOUND" "Payment not found")
  | Some payment =>
      match p_status payment with
      | Success => inr payment
      | _ => inl (error_response 400 "BAD_REQUEST_ERROR"
                    "Only successful payments can be refunded")
      end
  end.

(** The second query, the sum of the refunds of the payment, and the checks
    of the amount against it: the answer, or the amount of a request that
    goes on. *)
Definition create_refund_amount (st : state) (paymentId : string) (payment : payment)
    (req : refund_request) : response + Z :=
  let totalRefunded := total_refunded (refunds st) paymentId in
  let availableAmount := p_amount payment - totalRefunded in
  match rq_amount req with
  | None => inl (error_response 400 "BAD_REQUEST_ERROR" "Invalid refund amount")
  | Some amount =>
      if (amount =? 0) || (amount <=? 0) then
        inl (error_response 400 "BAD_REQUEST_ERROR" "Invalid refund amount")
      else if availableAmount <? amount then
        inl (error_response 400 "BAD_REQUEST_ERROR" "Refund amount exceeds available amount")
      else inr amount
  end.

(** The insert, the job and the answer; [refundId] is the value of
    [generateRefundId()] and [now] the clock reading. *)
Definition create_refund_insert (st : state) (merchant_id paymentId : string)
    (req : refund_request) (amount : Z) (refundId now : string) : response * state :=
  match pk_insert refundId
          {| r_payment_id := paymentId; r_merchant_id := merchant_id;
             r_amount := amount; r_reason := rq_reason req;
             r_status := RefundPending; r_created_at := now;
             r_processed_at := None |} (refunds st) with
  | None => (error_response 500 "INTERNAL_ERROR" "Failed to create refund", st)
  | Some refunds' =>
      ({| status_code := 201;
          body := JObj ([("id", JStr refundId);
                         ("payment_id", JStr paymentId);
                         ("amount", JNum amount)]
                        ++ opt_member "reason" (JStr <$> rq_reason req)
                        ++ [("status", JStr "pending");
                            ("created_at", JStr now)]) |},
       set_refundQueue (refundQueue st ++ [refundId])
         (set_refunds refunds' st))
  end.

(** The handler served alone: nothing else is written between its three
    queries, which then see one state. *)
Definition create_refund (st : state) (merchant_id paymentId : string)
    (req : refund_request) (refundId now : string) : response * state :=
  match select_scoped p_merchant_id (payments st) paymentId merchant_id with
  | None => (error_response 404 "NOT_FOUND" "Payment not found", st)
  | Some payment =>
      match p_status payment with
      | Success =>
          let totalRefunded := total_refunded (refunds st) paymentId in
          let availableAmount := p_amount payment - totalRefunded in
          match rq_amount req with
          | None => (error_response 400 "BAD_REQUEST_ERROR" "Invalid refund amount", st)
          | Some amount =>
              if (amount =? 0) || (amount <=? 0) then
                (error_response 400 "BAD_REQUEST_ERROR" "Invalid refund amount", st)
              else if availableAmount <? amount then
                (error_response 400 "BAD_REQUEST_ERROR"
                   "Refund amount exceeds available amount", st)
              else
                match pk_insert refundId
                        {| r_payment_id := paymentId; r_merchant_id := merchant_id;
                           r_amount := amount; r_reason := rq_reason req;
                           r_status := RefundPending; r_created_at := now;
                           r_processed_at := None |} (refunds st) with
                | None => (error_response 500 "INTERNAL_ERROR" "Failed to create refund", st)
                | Some refunds' =>
                    ({| status_code := 201;
                        body := JObj ([("id", JStr refundId);
                                       ("payment_id", JStr paymentId);
                                       ("amount", JNum amount)]
                                      ++ opt_member "reason" (JStr <$> rq_reason req)
                                      ++ [("status", JStr "pending");
                                          ("created_at", JStr now)]) |},
                     set_refundQueue (refundQueue st ++ [refundId])
                       (set_refunds refunds' st))
                end
          end
      | _ => (error_response 400 "BAD_REQUEST_ERROR"
                "Only successful payments can be refunded", st)
      end
  end.

(** [GET /api/v1/refunds/:refundId] *)
Definition get_refund (st : state) (merchant_id refundId : string) : response :=
  match select_scoped r_merchant_id (refunds st) refundId merchant_id with
  | None => error_response 404 "NOT_FOUND" "Refund not found"
  | Some refund =>
      {| status_code := 200;
         body := JObj ([("id", JStr refundId); ("payment_id", JStr (r_payment_id refund));
                        ("amount", JNum (r_amount refund));
                        ("reason", opt_json (r_reason refund));
                        ("status", JStr (refund_status_string (r_status refund)));
                        ("created_at", JStr (r_created_at refund))]
                       ++ truthy_member "processed_at" (r_processed_at refund)) |}
  end.

Definition reset_log (db_now : Z) (w : webhook_log) : webhook_log :=
  {| w_merchant_id := w_merchant_id w; w_event := w_event w; w_payload := w_payload w;
     w_status := WPending; w_attempts := 0;
     w_last_attempt_at := w_last_attempt_at w; w_next_retry_at := Some db_now;
     w_response_code := w_response_code w; w_response_body := w_response_body w |}.

(** [POST /api/v1/webhooks/:webhookId/retry], up to its [UPDATE]: the
    answer when the handler stops there, or the state after the update
    with the job the handler goes on to add. [db_now] is the database's
    [NOW()]. The [SELECT] throws, and the handler answers 500, when
    [webhookId] has not the form of a UUID. A log is never deleted and
    keeps its merchant, so the [SELECT] finds at the time of the update
    what it found before it. *)
Definition retry_webhook_update (st : state) (merchant_id webhookId : string) (db_now : Z)
    : response + state * webhook_job :=
  match uuid_param (webhook_logs st) webhookId with
  | None => inl (error_response 500 "INTERNAL_ERROR" "Failed to retry webhook")
  | Some id =>
      match select_scoped w_merchant_id (webhook_logs st) id merchant_id with
      | None => inl (error_response 404 "NOT_FOUND" "Webhook log not found")
      | Some webhook =>
          inr (set_webhook_logs (alter (reset_log db_now) id (webhook_logs st)) st,
               {| webhookLogId := Some id; merchantId := merchant_id;
                  event := w_event webhook; payload := w_payload webhook |})
      end
  end.

(** The handler served with nothing between its update and its
    [webhookQueue.add]. *)
Definition retry_webhook (st : state) (merchant_id webhookId : string) (db_now : Z)
    : response * state :=
  match retry_webhook_update st merchant_id webhookId db_now with
  | inl answer => (answer, st)
  | inr (st1, job) =>
      ({| status_code := 200;
          body := JObj [("id", JStr (default "" (webhookLogId job)));
                        ("status", JStr "pending");
                        ("message", JStr "Webhook retry scheduled")] |},
       webhookQueue_add job 0 st1)
  end.

(** The body of a create-payment request; a field is a string or is
    missing. *)
Record payment_request := {
  order_id : option string;
  method : option string;
  vpa : option string;
  card_number : option string;
  card_expiry : option string;
  card_cvv : option string
}.

(** [card_number.slice(-4)] *)
Definition slice_last4 (s : string) : string :=
  let n := String.length s in
  String.substring (n - 4)%nat 4 s.

(** [s.startsWith(p)] *)
Definition startsWith (s p : string) : bool := String.prefix p s.

Definition card_network_of (card_number : string) : string :=
  if startsWith card_number "4" then "visa"
  else if startsWith card_number "5" then "mastercard"
  else "unknown".

(** What a create-payment request reads from its environment:
    [generatePaymentId()], [new Date().toISOString()], [Date.now()] at
    the write of the idempotency record, and the database's [NOW()] at
    its read. *)
Record payment_env := {
  e_paymentId : string;
  e_now : string;
  e_date_now : Z;
  e_db_now : Z
}.

(** The idempotency read: a record of the key and the merchant that has
    not expired. *)
Definition idempotency_hit (st : state) (merchant_id : string)
    (idempotencyKey : option string) (db_now : Z) : option idempotency_record :=
  if truthy idempotencyKey then
    match idempotency_keys st !! (default "" idempotencyKey, merchant_id) with
    | Some r => if db_now <? i_expires_at r then Some r else None
    | None => None
    end
  else None.

(** [DELETE FROM idempotency_keys WHERE key = $1 AND merchant_id = $2],
    which the handler runs after a [SELECT] that found no live record. *)
Definition delete_idempotency_key (st : state) (merchant_id : string)
    (idempotencyKey : option string) : state :=
  if truthy idempotencyKey then
    set_idempotency_keys
      (delete (default "" idempotencyKey, merchant_id) (idempotency_keys st)) st
  else st.

Definition bad_request (description : string) : response :=
  error_response 400 "BAD_REQUEST_ERROR" description.

(** [POST /api/v1/payments]; [idempotencyKey] is the value of the
    [Idempotency-Key] header, [None] when the header is missing. An insert
    throws when its primary key is taken and when [vpa] or the key does
    not fit its column, [VARCHAR(255)]; the handler then answers 500 with
    what it has written before left in place. *)
Definition create_payment (st : state) (merchant_id : string)
    (idempotencyKey : option string) (req : payment_request) (env : payment_env)
    : response * state :=
  match idempotency_hit st merchant_id idempotencyKey (e_db_now env) with
  | Some cached => ({| status_code := 201; body := i_response cached |}, st)
  | None =>
      let st := delete_idempotency_key st merchant_id idempotencyKey in
      if negb (truthy (order_id req)) || negb (truthy (method req)) then
        (bad_request "Missing required fields", st)
      else
        let order_id := default "" (order_id req) in
        let method := default "" (method req) in
        match select_scoped o_merchant_id (orders st) order_id merchant_id with
        | None => (bad_request "Order not found", st)
        | Some order =>
            if negb (String.eqb method "upi" || String.eqb method "card") then
              (bad_request "Invalid payment method", st)
            else if String.eqb method "upi" && negb (truthy (vpa req)) then
              (bad_request "VPA is required for UPI payments", st)
            else if String.eqb method "card"
                    && (negb (truthy (card_number req)) || negb (truthy (card_expiry req))
                        || negb (truthy (card_cvv req))) then
              (bad_request "Card details are required for card payments", st)
            else
              let paymentId := e_paymentId env in
              let now := e_now env in
              let cardLast4 :=
                if String.eqb method "card"
                then Some (slice_last4 (default "" (card_number req))) else None in
              let cardNetwork :=
                if String.eqb method "card"
                then Some (card_network_of (default "" (card_number req))) else None in
              let failed := error_response 500 "INTERNAL_ERROR" "Failed to create payment" in
              match varchar_or_null 255 (vpa req) with
              | None => (failed, st)
              | Some stored_vpa =>
              match pk_insert paymentId
                      {| p_order_id := order_id; p_merchant_id := merchant_id;
                         p_amount := o_amount order; p_currency := o_currency order;
                         p_method := method; p_vpa := stored_vpa;
                         p_card_last4 := cardLast4; p_card_network := cardNetwork;
                         p_status := Pending; p_captured := false;
                         p_error_code := None; p_error_description := None;
                         p_created_at := now; p_updated_at := now |} (payments st) with
              | None => (failed, st)
              | Some payments' =>
                  let st := set_payments payments' st in
                  let st := set_paymentQueue (paymentQueue st ++ [paymentId]) st in
                  let response :=
                    JObj ([("id", JStr paymentId); ("order_id", JStr order_id);
                           ("amount", JNum (o_amount order));
                           ("currency", JStr (o_currency order));
                           ("method", JStr method)]
                          ++ (if String.eqb method "upi"
                              then opt_member "vpa" (JStr <$> vpa req) else [])
                          ++ (if String.eqb method "card"
                              then opt_member "card_last4" (JStr <$> cardLast4)
                                   ++ opt_member "card_network" (JStr <$> cardNetwork)
                              else [])
                          ++ [("status", JStr "pending"); ("created_at", JStr now)]) in
                  if truthy idempotencyKey then
                    let expiresAt := e_date_now env + 24 * 60 * 60 * 1000 in
                    match varchar 255 (default "" idempotencyKey) with
                    | None => (failed, st)
                    | Some stored_key =>
                        match pk_insert (stored_key, merchant_id)
                                {| i_response := jsonb response; i_expires_at := expiresAt |}
                                (idempotency_keys st) with
                        | None => (failed, st)
                        | Some keys' =>
                            ({| status_code := 201; body := response |},
                             set_idempotency_keys keys' st)
                        end
                    end
                  else ({| status_code := 201; body := response |}, st)
              end
              end
        end
  end.

(** [POST /api/v1/merchants/webhook/test]; [date_now] is [Date.now()]. *)
Definition test_webhook (st : state) (merchant_id : string) (webhook_url : option string)
    (date_now : Z) : response * state :=
  if negb (truthy webhook_url) then
    (bad_request "Webhook URL not configured", st)
  else
    let testPayload :=
      JObj [("event", JStr "test.webhook"); ("timestamp", JNum (date_now / 1000));
            ("data", JObj [("message", JStr "This is a test webhook")])] in
    ({| status_code := 200; body := JObj [("message", JStr "Test webhook scheduled")] |},
     webhookQueue_add {| webhookLogId := None; merchantId := merchant_id;
                         event := "test.webhook"; payload := testPayload |} 0 st).

End Api.

(** ** The workers ([worker.js]) *)

Module Worker.

(** The environment variables read when the worker starts. *)
Record config := {
  TEST_MODE : bool;
  TEST_PAYMENT_SUCCESS : bool;
  WEBHOOK_RETRY_INTERVALS_TEST : bool
}.

Definition PRODUCTION_RETRY_INTERVALS : list Z := [0; 60000; 300000; 1800000; 7200000].
Definition TEST_RETRY_INTERVALS : list Z := [0; 5000; 10000; 15000; 20000].

Definition getRetryIntervals (cfg : config) : list Z :=
  if WEBHOOK_RETRY_INTERVALS_TEST cfg then TEST_RETRY_INTERVALS
  else PRODUCTION_RETRY_INTERVALS.

(** How a run of a job processor ends: it returns, or it throws and
    BullMQ marks the job failed. *)
Inductive job_result := Completed | Thrown.

(** [enqueueWebhook(merchantId, event, data)]; [date_now] is [Date.now()]. *)
Definition enqueueWebhook (merchantId event : string) (data : json) (date_now : Z)
    (st : state) : state :=
  let payload :=
    JObj [("event", JStr event); ("timestamp", JNum (date_now / 1000)); ("data", data)] in
  webhookQueue_add {| webhookLogId := None; merchantId := merchantId;
                      event := event; payload := payload |} 0 st.

(** *** Payment worker *)

(** What a run reads from its environment: the value of [Math.random()]
    that decides the outcome, [new Date().toISOString()] and the
    [Date.now()] of [enqueueWebhook]. *)
Record payment_worker_env := {
  pw_random : Q;
  pw_now : string;
  pw_date_now : Z
}.

Definition mark_success (now : string) (p : payment) : payment :=
  {| p_order_id := p_order_id p; p_merchant_id := p_merchant_id p;
     p_amount := p_amount p; p_currency := p_currency p; p_method := p_method p;
     p_vpa := p_vpa p; p_card_last4 := p_card_last4 p;
     p_card_network := p_card_network p; p_status := Success;
     p_captured := p_captured p; p_error_code := p_error_code p;
     p_error_description := p_error_description p;
     p_created_at := p_created_at p; p_updated_at := now |}.

Definition mark_failed (now : string) (p : payment) : payment :=
  {| p_order_id := p_order_id p; p_merchant_id := p_merchant_id p;
     p_amount := p_amount p; p_currency := p_currency p; p_method := p_method p;
     p_vpa := p_vpa p; p_card_last4 := p_card_last4 p;
     p_card_network := p_card_network p; p_status := Failed;
     p_captured := p_captured p; p_error_code := Some "PAYMENT_FAILED";
     p_error_description := Some "Payment processing failed";
     p_created_at := p_created_at p; p_updated_at := now |}.

(** The numbers the literals [0.9] and [0.95] denote: the nearest
    doubles. *)
Definition double_0_9 : Q := (8106479329266893 # 9007199254740992)%Q.
Definition double_0_95 : Q := (4278419646001971 # 4503599627370496)%Q.

(** The outcome of the simulated acquirer; [random] is the double that
    [Math.random()] returned. *)
Definition isSuccess (cfg : config) (payment : payment) (random : Q) : bool :=
  if TEST_MODE cfg then TEST_PAYMENT_SUCCESS cfg
  else
    let successRate :=
      if String.eqb (p_method payment) "upi" then double_0_9 else double_0_95 in
    negb (Qle_bool successRate random).

(** The processor of the [payment-processing] queue, on a job
    [{ paymentId }]. The query joins the payment with its merchant. *)
Definition paymentWorker (cfg : config) (st : state) (paymentId : string)
    (env : payment_worker_env) : job_result * state :=
  match payments st !! paymentId with
  | None => (Completed, st)
  | Some payment =>
      match merchants st !! p_merchant_id payment with
      | None => (Completed, st)
      | Some m =>
          let now := pw_now env in
          let common :=
            [("id", JStr paymentId); ("order_id", JStr (p_order_id payment));
             ("amount", JNum (p_amount payment)); ("currency", JStr (p_currency payment));
             ("method", JStr (p_method payment))] in
          if isSuccess cfg payment (pw_random env) then
            let st := set_payments (alter (mark_success now) paymentId (payments st)) st in
            if truthy (m_webhook_url m) then
              (Completed,
               enqueueWebhook (p_merchant_id payment) "payment.success"
                 (JObj [("payment",
                         JObj (common ++ Api.truthy_member "vpa" (p_vpa payment)
                               ++ [("status", JStr "success");
                                   ("created_at", JStr (p_created_at payment))]))])
                 (pw_date_now env) st)
            else (Completed, st)
          else
            let st := set_payments (alter (mark_failed now) paymentId (payments st)) st in
            if truthy (m_webhook_url m) then
              (Completed,
               enqueueWebhook (p_merchant_id payment) "payment.failed"
                 (JObj [("payment",
                         JObj (common
                               ++ [("status", JStr "failed");
                                   ("error_code", JStr "PAYMENT_FAILED");
                                   ("error_description", JStr "Payment processing failed");
                                   ("created_at", JStr (p_created_at payment))]))])
                 (pw_date_now env) st)
            else (Completed, st)
      end
  end.

(** *** Webhook worker *)

(** The request [axios.post] sends and what comes back: the promise
    resolves on a 2xx status, and rejects with an error that carries the
    response (another status) or none (time-out, connection error). *)
Record http_request := {
  rq_url : string;
  rq_content_type : string;
  rq_signature : string;
  rq_body : string
}.

Inductive http_outcome :=
| Resolved (status : Z) (data : json)
| Rejected (response_status : option Z) (message : string).

(** What a run reads from its environment: the id the database gives a
    new log ([gen_random_uuid()]), [new Date().toISOString()] before the
    request and [Date.now()] when a retry is scheduled. *)
Record webhook_worker_env := {
  ww_uuid : string;
  ww_now : string;
  ww_date_now : Z
}.

Record delivery := {
  d_result : job_result;
  d_state : state;
  d_sent : option http_request
}.

(** What a run holds while its request is out: the job, the row of the
    log as it read or inserted it ([undefined] when the id matched no
    row), the request and [now]. *)
Record flight := {
  fl_job : webhook_job;
  fl_log : option (string * webhook_log);
  fl_request : http_request;
  fl_now : string
}.

(** Where a run stands once its queries before the request are done: it
    has returned, it has thrown, or its request is out. *)
Inductive started :=
| Returned (st : state)
| Threw (st : state)
| Sent (st : state) (f : flight).

(** [intervals[attempts] || intervals[intervals.length - 1]] *)
Definition nextRetryDelay (intervals : list Z) (attempts : Z) : Z :=
  let fallback := default 0 (intervals !! (length intervals - 1)%nat) in
  match (if 0 <=? attempts then intervals !! Z.to_nat attempts else None) with
  | Some d => if d =? 0 then fallback else d
  | None => fallback
  end.

Definition log_success (now : string) (status : Z) (response_body : string)
    (w : webhook_log) : webhook_log :=
  {| w_merchant_id := w_merchant_id w; w_event := w_event w; w_payload := w_payload w;
     w_status := WSuccess; w_attempts := w_attempts w + 1;
     w_last_attempt_at := Some now; w_next_retry_at := w_next_retry_at w;
     w_response_code := Some status; w_response_body := Some response_body |}.

Definition log_failed (attempts : Z) (now : string) (responseCode : Z)
    (responseBody : string) (w : webhook_log) : webhook_log :=
  {| w_merchant_id := w_merchant_id w; w_event := w_event w; w_payload := w_payload w;
     w_status := WFailed; w_attempts := attempts;
     w_last_attempt_at := Some now; w_next_retry_at := w_next_retry_at w;
     w_response_code := Some responseCode; w_response_body := Some responseBody |}.

Definition log_retry (attempts : Z) (now : string) (nextRetryAt : Z) (responseCode : Z)
    (responseBody : string) (w : webhook_log) : webhook_log :=
  {| w_merchant_id := w_merchant_id w; w_event := w_event w; w_payload := w_payload w;
     w_status := WPending; w_attempts := attempts;
     w_last_attempt_at := Some now; w_next_retry_at := Some nextRetryAt;
     w_response_code := Some responseCode; w_response_body := Some responseBody |}.

Section Delivery.

(** [crypto.createHmac('sha256', key).update(message).digest('hex')],
    of Node's library: the lowercase hex HMAC-SHA256 of the message. *)
Variable hmac_sha256_hex : string -> string -> string.

(** The body axios sends for a [data] that is not an object: this
    depends on the version of the library. For an object or an array
    every version sends [JSON.stringify(data)]. *)
Variable axios_scalar_body : json -> string.

Definition generateSignature (payload secret : string) : string :=
  hmac_sha256_hex secret payload.

Definition axios_body (data : json) : string :=
  match data with
  | JObj _ | JArr _ => JSON_stringify data
  | _ => axios_scalar_body data
  end.

(** The log of the job: the one of its [webhookLogId] ([undefined] when
    the id matches no row), or a new one, which holds the merchant's id
    as the table of merchants has it. [None] when the query throws: a
    [webhookLogId] that has not the form of a UUID, an event name that
    does not fit its column, [VARCHAR(50)], or an insert that is
    refused. *)
Definition get_or_create_log (st : state) (job : webhook_job) (uuid : string)
    : option (state * option (string * webhook_log)) :=
  if truthy (webhookLogId job) then
    match uuid_param (webhook_logs st) (default "" (webhookLogId job)) with
    | None => None
    | Some id => Some (st, (fun w => (id, w)) <$> webhook_logs st !! id)
    end
  else
    match varchar 50 (event job) with
    | None => None
    | Some stored_event =>
        let row := {| w_merchant_id := default (merchantId job)
                                         (uuid_param (merchants st) (merchantId job));
                      w_event := stored_event;
                      w_payload := jsonb (payload job); w_status := WPending;
                      w_attempts := 0; w_last_attempt_at := None;
                      w_next_retry_at := None; w_response_code := None;
                      w_response_body := None |} in
        match pk_insert uuid row (webhook_logs st) with
        | None => None
        | Some logs' => Some (set_webhook_logs logs' st, Some (uuid, row))
        end
    end.

(** The request of a delivery: the signature is computed over
    [JSON.stringify(payload)], and [payload] itself is handed to axios
    as the data of the POST. *)
Definition webhook_request (merchant : merchant) (secret : string) (job : webhook_job)
    : http_request :=
  let payloadString := JSON_stringify (payload job) in
  let signature := generateSignature payloadString secret in
  {| rq_url := default "" (m_webhook_url merchant);
     rq_content_type := "application/json";
     rq_signature := signature;
     rq_body := axios_body (payload job) |}.

(** The run up to its request: the merchant, the log, the signature. The
    query of the merchant throws when [merchantId] has not the form of a
    UUID; [createHmac] throws on a null key. *)
Definition webhookWorker_start (st : state) (job : webhook_job) (uuid now : string)
    : started :=
  match uuid_param (merchants st) (merchantId job) with
  | None => Threw st
  | Some merchant_key =>
      match merchants st !! merchant_key with
      | None => Returned st
      | Some merchant =>
          if negb (truthy (m_webhook_url merchant)) then Returned st
          else
            match get_or_create_log st job uuid with
            | None => Threw st
            | Some (st, webhookLog) =>
                match m_webhook_secret merchant with
                | None => Threw st
                | Some secret =>
                    Sent st {| fl_job := job; fl_log := webhookLog;
                               fl_request := webhook_request merchant secret job;
                               fl_now := now |}
                end
            end
      end
  end.

(** The run from the answer of the endpoint on, in the state of that
    moment: its update of the log, and the job it then adds to the queue,
    if any. After a failure the count it writes is the one of the row it
    holds, plus one; after a success the database adds one to the count of
    the row as it is. With no row, both branches read a property of
    [undefined] and the run throws. *)
Definition webhookWorker_settle (cfg : config) (st : state) (f : flight)
    (outcome : http_outcome) (date_now : Z)
    : job_result * state * option (webhook_job * Z) :=
  match fl_log f with
  | None => (Thrown, st, None)
  | Some (id, log) =>
      let now := fl_now f in
      match outcome with
      | Resolved status data =>
          let response_body := String.substring 0 1000 (JSON_stringify data) in
          (Completed,
           set_webhook_logs
             (alter (log_success now status response_body) id (webhook_logs st)) st,
           None)
      | Rejected response_status message =>
          let attempts := w_attempts log + 1 in
          let responseCode :=
            match response_status with
            | Some c => c
            | None => 0
            end in
          let responseBody := message in
          if 5 <=? attempts then
            (Completed,
             set_webhook_logs
               (alter (log_failed attempts now responseCode responseBody) id
                  (webhook_logs st)) st,
             None)
          else
            let intervals := getRetryIntervals cfg in
            let delay := nextRetryDelay intervals attempts in
            let nextRetryAt := date_now + delay in
            (Completed,
             set_webhook_logs
               (alter (log_retry attempts now nextRetryAt responseCode responseBody) id
                  (webhook_logs st)) st,
             Some ({| webhookLogId := Some id; merchantId := merchantId (fl_job f);
                      event := event (fl_job f); payload := payload (fl_job f) |},
                   delay))
      end
  end.

(** The processor of the [webhook-delivery] queue, run with nothing in
    between. [post] is the merchant's endpoint as axios sees it. *)
Definition webhookWorker (cfg : config) (post : http_request -> http_outcome)
    (st : state) (job : webhook_job) (env : webhook_worker_env) : delivery :=
  match webhookWorker_start st job (ww_uuid env) (ww_now env) with
  | Returned st => {| d_result := Completed; d_state := st; d_sent := None |}
  | Threw st => {| d_result := Thrown; d_state := st; d_sent := None |}
  | Sent st f =>
      let '(result, st, next) :=
        webhookWorker_settle cfg st f (post (fl_request f)) (ww_date_now env) in
      {| d_result := result;
         d_state := match next with
                    | Some (job, delay) => webhookQueue_add job delay st
                    | None => st
                    end;
         d_sent := Some (fl_request f) |}
  end.

End Delivery.

End Worker.

(** The backoff table of the specification (section 4.8), in milliseconds,
    by the number of the attempt about to be tried; it has five rows. *)
Definition backoff_table (test : bool) (next_attempt : Z) : option Z :=
  match next_attempt with
  | 1 => Some 0
  | 2 => Some (if test then 5000 else 60000)
  | 3 => Some (if test then 10000 else 300000)
  | 4 => Some (if test then 15000 else 1800000)
  | 5 => Some (if test then 20000 else 7200000)
  | _ => None
  end.

(** ** The delivery system: queue, runs of the worker and manual retry *)

Module System.
Import Worker.

(** The log a queued job will load: its [webhookLogId] when truthy. *)
Definition job_log (job : webhook_job) : option string :=
  if truthy (webhookLogId job) then webhookLogId job else None.

(** The worker takes the job at position [i] off the queue. *)
Definition take_job (i : nat) (st : state) : option (webhook_job * state) :=
  match webhookQueue st !! i with
  | Some (job, _) => Some (job, set_webhookQueue (delete i (webhookQueue st)) st)
  | None => None
  end.

(** What is under way besides the queued jobs: a run of the worker whose
    request is out, and a job about to be added to the queue, by a run
    after its update of the log or by the retry handler after its
    update. *)
Inductive activity :=
| Delivering (f : flight)
| Enqueueing (job : webhook_job) (delay : Z).

Record system := {
  store : state;
  active : list activity
}.

(** The log an activity works on. *)
Definition activity_log (a : activity) : option string :=
  match a with
  | Delivering f => fst <$> fl_log f
  | Enqueueing job _ => job_log job
  end.

(** The logs that are worked on, one entry for each queued job that names
    a log and each activity that has one. *)
Definition engaged (sys : system) : list string :=
  omap (fun jd : webhook_job * Z => job_log jd.1) (webhookQueue (store sys))
  ++ omap activity_log (active sys).

Section Steps.
Variable hmac_sha256_hex : string -> string -> string.
Variable axios_scalar_body : json -> string.
Variable cfg : config.

(** One run of the webhook worker on the job at position [i], with
    nothing in between. *)
Definition deliver (i : nat) (post : http_request -> http_outcome)
    (env : webhook_worker_env) (st : state) : state :=
  match take_job i st with
  | Some (job, st1) =>
      d_state (webhookWorker hmac_sha256_hex axios_scalar_body cfg post st1 job env)
  | None => st
  end.

(** The steps that touch the webhook logs or the delivery queue. A run of
    the worker and the retry handler give way at each of their awaits, so
    neither is one step: a step is what one of them does between two
    awaits, and any other step may come in between.
    - An event is fanned out ([enqueueWebhook], the test webhook): a job
      with no log id joins the queue.
    - The worker takes a job and the run ends before its query of the
      log: no merchant, no URL, or the query of the merchant throws.
    - The worker takes a job, reads or inserts its log and sends its
      request, whatever the row of the merchant, read before, made of the
      request.
    - The answer of a request arrives, any answer at any time, and the run
      updates the log.
    - A job is added to the queue, by a run after its update or by the
      retry handler after its update.
    - A run or a handler ends before its next step, because a query or the
      queue fails.
    - A merchant retries a log by hand, up to the update: here only a log
      that is not worked on, by a queued job or by anything under way.
    - Any other operation, which leaves the logs and the delivery queue as
      they are. *)
Inductive step : system -> system -> Prop :=
| step_fanout sys job delay :
    webhookLogId job = None ->
    step sys {| store := webhookQueue_add job delay (store sys); active := active sys |}
| step_take sys i job st1 :
    take_job i (store sys) = Some (job, st1) ->
    step sys {| store := st1; active := active sys |}
| step_start sys i job st1 uuid st2 f :
    take_job i (store sys) = Some (job, st1) ->
    get_or_create_log st1 job uuid = Some (st2, fl_log f) ->
    fl_job f = job ->
    step sys {| store := st2; active := active sys ++ [Delivering f] |}
| step_settle sys k f outcome date_now result st1 next :
    active sys !! k = Some (Delivering f) ->
    webhookWorker_settle cfg (store sys) f outcome date_now = (result, st1, next) ->
    step sys {| store := st1;
                active := delete k (active sys)
                          ++ match next with
                             | Some (job, delay) => [Enqueueing job delay]
                             | None => []
                             end |}
| step_enqueue sys k job delay :
    active sys !! k = Some (Enqueueing job delay) ->
    step sys {| store := webhookQueue_add job delay (store sys);
                active := delete k (active sys) |}
| step_drop sys k :
    step sys {| store := store sys; active := delete k (active sys) |}
| step_retry sys merchant_id webhookId db_now st1 job :
    (forall id, uuid_param (webhook_logs (store sys)) webhookId = Some id ->
                id ∉ engaged sys) ->
    Api.retry_webhook_update (store sys) merchant_id webhookId db_now = inr (st1, job) ->
    step sys {| store := st1; active := active sys ++ [Enqueueing job 0] |}
| step_other sys st' :
    webhook_logs st' = webhook_logs (store sys) ->
    webhookQueue st' = webhookQueue (store sys) ->
    step sys {| store := st'; active := active sys |}.


(** Several steps in a row. *)
Inductive steps : system -> system -> Prop :=
| steps_refl sys : steps sys sys
| steps_step sys sys1 sys2 : step sys sys1 -> steps sys1 sys2 -> steps sys sys2.

End Steps.



End System.

(** ** Sample data for the examples *)

Module Sample.
Import Worker.

Definition merchant_a : string := "a0eebc99-9c0b-4ef8-bb6d-6bb9bd380a11".
Definition merchant_b : string := "b1ffcd00-1d2c-4af9-8c7e-7cc0ce491b22".

(** The id the database gives the first webhook log. *)
Definition log_id : string := "6f9619ff-8b86-d011-b42d-00c04fc964ff".

Definition with_url : merchant :=
  {| m_webhook_url := Some "http://localhost:4000/webhook";
     m_webhook_secret := Some "whsec_test_abc123" |}.

Definition order_x : order :=
  {| o_merchant_id := merchant_a; o_amount := 50000; o_currency := "INR";
     o_receipt := None; o_status := "created";
     o_created_at := "2024-01-15T10:00:00.000Z" |}.

Definition pay_x (s : payment_status) : payment :=
  {| p_order_id := "order_X"; p_merchant_id := merchant_a; p_amount := 50000;
     p_currency := "INR"; p_method := "upi"; p_vpa := Some "a@bank";
     p_card_last4 := None; p_card_network := None; p_status := s;
     p_captured := false; p_error_code := None; p_error_description := None;
     p_created_at := "2024-01-15T10:00:01.000Z";
     p_updated_at := "2024-01-15T10:00:01.000Z" |}.

(** Merchant A with a webhook endpoint, merchant B, an order of A and a
    payment of that order in the given status. *)
Definition shop (s : payment_status) : state :=
  {| merchants := {[ merchant_a := with_url; merchant_b := with_url ]};
     orders := {[ "order_X" := order_x ]};
     payments := {[ "pay_X" := pay_x s ]};
     refunds := ∅; webhook_logs := ∅; idempotency_keys := ∅;
     paymentQueue := []; refundQueue := []; webhookQueue := [] |}.

(** The payment captured and refunded 20000 of its 50000. *)
Definition shop_refunded : state :=
  set_refunds {[ "rfnd_1" := {| r_payment_id := "pay_X"; r_merchant_id := merchant_a;
                                r_amount := 20000; r_reason := None;
                                r_status := RefundProcessed;
                                r_created_at := "2024-01-15T10:01:00.000Z";
                                r_processed_at := Some "2024-01-15T10:01:01.000Z" |} ]}
    (shop Success).

(** The two requests of the idempotency scenario: the same key, and a
    second body with another [vpa]. *)
Definition pay_request (vpa : string) : Api.payment_request :=
  {| Api.order_id := Some "order_X"; Api.method := Some "upi"; Api.vpa := Some vpa;
     Api.card_number := None; Api.card_expiry := None; Api.card_cvv := None |}.

Definition at_time (paymentId now : string) (ms : Z) : Api.payment_env :=
  {| Api.e_paymentId := paymentId; Api.e_now := now; Api.e_date_now := ms;
     Api.e_db_now := ms |}.

Definition first_call : response * state :=
  Api.create_payment (shop Pending) merchant_a (Some "k1") (pay_request "a@bank")
    (at_time "pay_K1" "2024-01-15T10:05:00.000Z" 1705313100000).

Definition second_call : response * state :=
  Api.create_payment first_call.2 merchant_a (Some "k1") (pay_request "a@bank")
    (at_time "pay_K2" "2024-01-15T10:05:01.000Z" 1705313101000).

Definition production : config :=
  {| TEST_MODE := false; TEST_PAYMENT_SUCCESS := true;
     WEBHOOK_RETRY_INTERVALS_TEST := false |}.

Definition test_mode : config :=
  {| TEST_MODE := true; TEST_PAYMENT_SUCCESS := true;
     WEBHOOK_RETRY_INTERVALS_TEST := true |}.

Definition roll (r : Q) : payment_worker_env :=
  {| pw_random := r; pw_now := "2024-01-15T10:00:08.000Z"; pw_date_now := 1705312808000 |}.

(** A stand-in for the HMAC of the examples, and for what axios sends
    for a scalar. *)
Definition sample_hmac (key message : string) : string := key +:+ "/" +:+ message.
Definition sample_scalar (j : json) : string := JSON_stringify j.

Definition always_500 (_ : http_request) : http_outcome :=
  Rejected (Some 500) "Request failed with status code 500".

(** A merchant whose webhook URL has a scheme of a thousand letters, and
    axios on such a URL: it rejects with a message that names the
    scheme. *)
Definition long_scheme : string := String.string_of_list_ascii (replicate 1000 "a"%char).

Definition with_long_scheme : merchant :=
  {| m_webhook_url := Some (long_scheme +:+ "://merchant.example/hook");
     m_webhook_secret := Some "whsec_test_abc123" |}.

Definition shop_long_scheme : state :=
  {| merchants := {[ merchant_a := with_long_scheme ]};
     orders := ∅; payments := ∅; refunds := ∅; webhook_logs := ∅; idempotency_keys := ∅;
     paymentQueue := []; refundQueue := []; webhookQueue := [] |}.

Fixpoint scheme_of (url : string) : string :=
  match url with
  | String c r => if Ascii.eqb c ":" then ":" else String c (scheme_of r)
  | EmptyString => ""
  end.

Definition unsupported_protocol (rq : http_request) : http_outcome :=
  Rejected None ("Unsupported protocol " +:+ scheme_of (rq_url rq)).

Definition event_job : webhook_job :=
  {| webhookLogId := None; merchantId := merchant_a; event := "payment.success";
     payload := JObj [("event", JStr "payment.success"); ("timestamp", JNum 1705312808);
                      ("data", JObj [])] |}.

Definition tick (uuid : string) : webhook_worker_env :=
  {| ww_uuid := uuid; ww_now := "2024-01-15T10:00:09.000Z"; ww_date_now := 1705312809000 |}.

(** A delivery that fails, of the job at position [i] of the queue. *)
Definition fail_at (i : nat) (uuid : string) (st : state) : state :=
  System.deliver sample_hmac sample_scalar test_mode i always_500 (tick uuid) st.

(** One event, a failed first delivery, then a manual retry of the log
    while its retry job is still queued. *)
Definition first_failure : state :=
  fail_at 0 log_id
    (enqueueWebhook merchant_a "payment.success" (JObj []) 1705312808000 (shop Success)).



(** Four failed deliveries of one event, then the fifth run up to its
    request. *)
Definition four_failures : state :=
  fail_at 0 "" (fail_at 0 "" (fail_at 0 "" first_failure)).

Definition fifth_request_out : started :=
  match System.take_job 0 four_failures with
  | Some (job, st) =>
      webhookWorker_start sample_hmac sample_scalar st job "" "2024-01-15T10:00:49.000Z"
  | None => Returned four_failures
  end.

(** A manual retry while that request is out, the failure of the request,
    and the failed delivery of the job of the retry. *)
Definition retried_during_request : state :=
  match fifth_request_out with
  | Sent st f =>
      let st := (Api.retry_webhook st merchant_a log_id 1705312850000).2 in
      let '(_, st, _) :=
        webhookWorker_settle test_mode st f (always_500 (fl_request f)) 1705312851000 in
      fail_at 0 "" st
  | Returned st | Threw st => st
  end.

End Sample.

From Stdlib Require Import Qround.
From Stdlib Require Import Sorted.

(** ** Identifiers ([index.js], the four generators) *)

Module Ids.

Definition chars : string :=
  "ABCDEFGHIJKLMNOPQRSTUVWXYZabcdefghijklmnopqrstuvwxyz0123456789".

(** [s.charAt(i)]: the character at position [i], the empty string when
    there is none. *)
Definition charAt (s : string) (i : Z) : string :=
  if i <? 0 then ""
  else match String.get (Z.to_nat i) s with
       | Some c => String c ""
       | None => ""
       end.

(** [Math.floor(r * n)] for [r] a value of [Math.random()]. *)
Definition random_index (r : Q) (n : Z) : Z := Qfloor (r * inject_Z n).

(** The loop [for (let i = 0; i < count; i++) result += chars.charAt(...)];
    [rand i] is the value of the call of [Math.random()] number [i]. *)
Fixpoint generate_loop (count : nat) (rand : nat -> Q) (i : nat) (result : string)
  : string :=
  match count with
  | O => result
  | S k =>
      generate_loop k rand (S i)
        (result +:+ charAt chars (random_index (rand i) (Z.of_nat (String.length chars))))
  end.

Definition generatePaymentId (rand : nat -> Q) : string := generate_loop 16 rand 0 "pay_".
Definition generateOrderId (rand : nat -> Q) : string := generate_loop 16 rand 0 "order_".
Definition generateRefundId (rand : nat -> Q) : string := generate_loop 16 rand 0 "rfnd_".
Definition generateWebhookSecret (rand : nat -> Q) : string :=
  generate_loop 24 rand 0 "whsec_".

Definition alphanumeric (c : ascii) : bool :=
  let n := N_of_ascii c in
  ((48 <=? n) && (n <=? 57) || (65 <=? n) && (n <=? 90) || (97 <=? n) && (n <=? 122))%N.

End Ids.

(** ** More of the API ([index.js]) *)

Definition set_merchants (v : gmap string merchant) (st : state) : state :=
  {| merchants := v; orders := orders st; payments := payments st;
     refunds := refunds st; webhook_logs := webhook_logs st;
     idempotency_keys := idempotency_keys st; paymentQueue := paymentQueue st;
     refundQueue := refundQueue st; webhookQueue := webhookQueue st |}.

Definition set_orders (v : gmap string order) (st : state) : state :=
  {| merchants := merchants st; orders := v; payments := payments st;
     refunds := refunds st; webhook_logs := webhook_logs st;
     idempotency_keys := idempotency_keys st; paymentQueue := paymentQueue st;
     refundQueue := refundQueue st; webhookQueue := webhookQueue st |}.

Module ApiMore.
Import Api.

(** *** [authenticateMerchant]

    The columns of [merchants] the middleware reads. [api_key] is
    [UNIQUE], so the query returns at most one row. *)
Record credentials := {
  c_merchant_id : string;
  c_api_key : string;
  c_api_secret : string
}.

(** The middleware on the two headers: the 401 it answers, or the id of
    the merchant it puts in [req.merchant] before calling [next()]. *)
Definition authenticateMerchant (rows : list credentials) (apiKey apiSecret : option string)
    : response + string :=
  if negb (truthy apiKey) || negb (truthy apiSecret) then
    inl (error_response 401 "UNAUTHORIZED" "Missing API credentials")
  else
    match List.find (fun c => String.eqb (c_api_key c) (default "" apiKey)
                              && String.eqb (c_api_secret c) (default "" apiSecret)) rows with
    | None => inl (error_response 401 "UNAUTHORIZED" "Invalid API credentials")
    | Some c => inr (c_merchant_id c)
    end.

(** *** [POST /api/v1/orders] *)

(** The body of a create-order request: [amount] is a JSON integer or is
    missing, [currency] and [receipt] are strings or are missing. *)
Record order_request := {
  oq_amount : option Z;
  oq_currency : option string;
  oq_receipt : option string
}.

(** The largest value of an [INTEGER] column, the largest [bigint], which a
    [LIMIT] or an [OFFSET] is read as, and [Number.MAX_SAFE_INTEGER], up to
    which a JavaScript number is the integer written. *)
Definition int4_max : Z := 2147483647.
Definition int8_max : Z := 9223372036854775807.
Definition MAX_SAFE_INTEGER : Z := 9007199254740991.

(** [orderId] is the value of [generateOrderId()] and [now] the clock
    reading. The insert throws when the id is taken and when a value does
    not fit its column ([amount INTEGER], [currency VARCHAR(10)],
    [receipt VARCHAR(255)]). *)
Definition create_order (st : state) (merchant_id : string) (req : order_request)
    (orderId now : string) : response * state :=
  match oq_amount req with
  | None => (bad_request "Invalid amount", st)
  | Some amount =>
      if (amount =? 0) || (amount <=? 0) then (bad_request "Invalid amount", st)
      else
        let currency := default "INR" (oq_currency req) in
        let failed := error_response 500 "INTERNAL_ERROR" "Failed to create order" in
        if int4_max <? amount then (failed, st)
        else
          match varchar 10 currency, varchar_or_null 255 (oq_receipt req) with
          | Some stored_currency, Some stored_receipt =>
              match pk_insert orderId
                      {| o_merchant_id := merchant_id; o_amount := amount;
                         o_currency := stored_currency; o_receipt := stored_receipt;
                         o_status := "created"; o_created_at := now |} (orders st) with
              | None => (failed, st)
              | Some orders' =>
                  ({| status_code := 201;
                      body := JObj ([("id", JStr orderId); ("amount", JNum amount);
                                     ("currency", JStr currency)]
                                    ++ opt_member "receipt" (JStr <$> oq_receipt req)
                                    ++ [("status", JStr "created");
                                        ("created_at", JStr now)]) |},
                   set_orders orders' st)
              end
          | _, _ => (failed, st)
          end
  end.

(** *** The listings

    [SELECT * FROM t WHERE merchant_id = $1 ORDER BY created_at DESC
     LIMIT $2 OFFSET $3]. The timestamps are the ISO strings the handlers
    write, all of one format, so their order is the order of the strings.
    PostgreSQL refuses a negative [LIMIT] or [OFFSET] and one that is no
    [bigint]: the query throws. *)
Fixpoint insert_desc {A} (created : A -> string) (x : string * A) (l : list (string * A))
  : list (string * A) :=
  match l with
  | [] => [x]
  | y :: r =>
      if String.leb (created y.2) (created x.2) then x :: l
      else y :: insert_desc created x r
  end.

Definition order_by_desc {A} (created : A -> string) (l : list (string * A))
  : list (string * A) :=
  foldr (insert_desc created) [] l.

Definition rows_of {A} (owner : A -> string) (table : gmap string A) (merchant_id : string)
  : list (string * A) :=
  filter (fun kv => owner kv.2 = merchant_id) (map_to_list table).

Definition select_page {A} (owner created : A -> string) (table : gmap string A)
    (merchant_id : string) (limit offset : Z) : option (list (string * A)) :=
  if (limit <? 0) || (offset <? 0) || (int8_max <? limit) || (int8_max <? offset)
  then None
  else Some (take (Z.to_nat limit)
               (drop (Z.to_nat offset) (order_by_desc created (rows_of owner table merchant_id)))).

(** [SELECT COUNT( * ) FROM t WHERE merchant_id = $1] *)
Definition count_rows {A} (owner : A -> string) (table : gmap string A) (merchant_id : string)
  : Z :=
  Z.of_nat (length (rows_of owner table merchant_id)).

(** The common shape of the three listing handlers modelled here; [item]
    is the projection of a row in [data]. *)
Definition listing {A} (owner created : A -> string) (item : string * A -> json)
    (failure : string) (table : gmap string A) (merchant_id : string)
    (page : Pagination.page) : response :=
  match select_page owner created table merchant_id
          (Pagination.limit page) (Pagination.offset page) with
  | None => error_response 500 "INTERNAL_ERROR" failure
  | Some rows =>
      {| status_code := 200;
         body := JObj [("data", JArr (map item rows));
                       ("total", JNum (count_rows owner table merchant_id));
                       ("limit", JNum (Pagination.limit page));
                       ("offset", JNum (Pagination.offset page))] |}
  end.

Definition order_item (kv : string * order) : json :=
  JObj [("id", JStr kv.1); ("amount", JNum (o_amount kv.2));
        ("currency", JStr (o_currency kv.2)); ("receipt", opt_json (o_receipt kv.2));
        ("status", JStr (o_status kv.2)); ("created_at", JStr (o_created_at kv.2))].

Definition payment_item (kv : string * payment) : json :=
  JObj [("id", JStr kv.1); ("order_id", JStr (p_order_id kv.2));
        ("amount", JNum (p_amount kv.2)); ("currency", JStr (p_currency kv.2));
        ("method", JStr (p_method kv.2));
        ("status", JStr (payment_status_string (p_status kv.2)));
        ("captured", JBool (p_captured kv.2)); ("created_at", JStr (p_created_at kv.2))].

Definition refund_item (kv : string * refund) : json :=
  JObj [("id", JStr kv.1); ("payment_id", JStr (r_payment_id kv.2));
        ("amount", JNum (r_amount kv.2)); ("reason", opt_json (r_reason kv.2));
        ("status", JStr (refund_status_string (r_status kv.2)));
        ("created_at", JStr (r_created_at kv.2));
        ("processed_at", opt_json (r_processed_at kv.2))].

(** [GET /api/v1/orders], [GET /api/v1/payments], [GET /api/v1/refunds] *)
Definition list_orders (st : state) (merchant_id : string) (ql qo : option string)
    : response :=
  listing o_merchant_id o_created_at order_item "Failed to list orders" (orders st)
    merchant_id (Pagination.list_orders_page ql qo).

Definition list_payments (st : state) (merchant_id : string) (ql qo : option string)
    : response :=
  listing p_merchant_id p_created_at payment_item "Failed to list payments" (payments st)
    merchant_id (Pagination.list_payments_page ql qo).

Definition list_refunds (st : state) (merchant_id : string) (ql qo : option string)
    : response :=
  listing r_merchant_id r_created_at refund_item "Failed to list refunds" (refunds st)
    merchant_id (Pagination.list_refunds_page ql qo).

(** *** The merchant's webhook settings *)

Definition set_webhook_url (url : option string) (m : merchant) : merchant :=
  {| m_webhook_url := url; m_webhook_secret := m_webhook_secret m |}.

Definition set_webhook_secret (secret : option string) (m : merchant) : merchant :=
  {| m_webhook_url := m_webhook_url m; m_webhook_secret := secret |}.

(** [PUT /api/v1/merchants/webhook]; [webhook_url] is the field of the body,
    a string or missing (then stored as [NULL]). *)
Definition update_webhook (st : state) (merchant_id : string) (webhook_url : option string)
    : response * state :=
  ({| status_code := 200;
      body := JObj ([("message", JStr "Webhook URL updated successfully")]
                    ++ opt_member "webhook_url" (JStr <$> webhook_url)) |},
   set_merchants (alter (set_webhook_url webhook_url) merchant_id (merchants st)) st).

(** [POST /api/v1/merchants/webhook/regenerate-secret]; [rand] are the
    values of [Math.random()] that [generateWebhookSecret()] draws. *)
Definition regenerate_secret (st : state) (merchant_id : string) (rand : nat -> Q)
    : response * state :=
  let newSecret := Ids.generateWebhookSecret rand in
  ({| status_code := 200; body := JObj [("webhook_secret", JStr newSecret)] |},
   set_merchants (alter (set_webhook_secret (Some newSecret)) merchant_id (merchants st)) st).


End ApiMore.

(** ** The refund worker ([worker.js]) *)

Module WorkerMore.
Import Worker.

Definition mark_processed (now : string) (r : refund) : refund :=
  {| r_payment_id := r_payment_id r; r_merchant_id := r_merchant_id r;
     r_amount := r_amount r; r_reason := r_reason r; r_status := RefundProcessed;
     r_created_at := r_created_at r; r_processed_at := Some now |}.

(** The processor of the [refund-processing] queue, on a job
    [{ refundId }]. The query joins the refund with its payment and its
    merchant; [now] is [new Date().toISOString()] and [date_now] the
    [Date.now()] of [enqueueWebhook]. *)
Definition refundWorker (st : state) (refundId : string) (now : string) (date_now : Z)
    : job_result * state :=
  match refunds st !! refundId with
  | None => (Completed, st)
  | Some refund =>
      match payments st !! r_payment_id refund, merchants st !! r_merchant_id refund with
      | Some payment, Some m =>
          match p_status payment with
          | Success =>
              let st := set_refunds (alter (mark_processed now) refundId (refunds st)) st in
              if truthy (m_webhook_url m) then
                (Completed,
                 enqueueWebhook (r_merchant_id refund) "refund.processed"
                   (JObj [("refund",
                           JObj [("id", JStr refundId);
                                 ("payment_id", JStr (r_payment_id refund));
                                 ("amount", JNum (r_amount refund));
                                 ("reason", Api.opt_json (r_reason refund));
                                 ("status", JStr "processed");
                                 ("created_at", JStr (r_created_at refund));
                                 ("processed_at", JStr now)])])
                   date_now st)
              else (Completed, st)
          | _ => (Completed, st)
          end
      | _, _ => (Completed, st)
      end
  end.

End WorkerMore.

(** ** The test merchant's receiver ([test/webhook-receiver.js]) *)

Module Receiver.
Import Worker.

Section Endpoints.

Variable hmac_sha256_hex : string -> string -> string.

(** [JSON.parse] of the body, done by [express.json()]. *)
Variable JSON_parse : string -> json.

(** [verifyWebhookSignature(payload, signature, secret)]; the header is a
    string or is missing. *)
Definition verifyWebhookSignature (payload : string) (signature : option string)
    (secret : string) : bool :=
  match signature with
  | Some s => String.eqb s (hmac_sha256_hex secret payload)
  | None => false
  end.

Definition member (k : string) (j : json) : option json :=
  snd <$> List.find (fun kv : string * json => String.eqb kv.1 k) (members_of j).

(** [POST /webhook]: the status and the body of the answer, and the list
    [receivedWebhooks] after the push. *)
Definition post_webhook (secret : string) (receivedWebhooks : list json)
    (signature : option string) (rawBody : string) (timestamp : string)
    : (Z * json) * list json :=
  let reqBody := JSON_parse rawBody in
  if verifyWebhookSignature rawBody signature secret then
    ((200, JObj ([("received", JBool true)] ++ opt_member "event" (member "event" reqBody))),
     (receivedWebhooks
      ++ [JObj ([("timestamp", JStr timestamp)] ++ opt_member "event" (member "event" reqBody)
                ++ [("valid", JBool true)] ++ opt_member "data" (member "data" reqBody))])%list)
  else
    ((401, JObj [("error", JStr "Invalid signature")]),
     (receivedWebhooks
      ++ [JObj ([("timestamp", JStr timestamp)] ++ opt_member "event" (member "event" reqBody)
                ++ [("valid", JBool false); ("error", JStr "Invalid signature")])])%list).

End Endpoints.

(** [POST /webhook/fail]: the answer and the counter [failCount] after it. *)
Definition post_webhook_fail (failCount : Z) : (Z * json) * Z :=
  let failCount := failCount + 1 in
  if failCount <? 3 then ((500, JObj [("error", JStr "Simulated failure")]), failCount)
  else ((200, JObj [("received", JBool true)]), 0).

(** How axios settles an answer: the promise resolves on a status from 200
    to 299 and rejects on any other, with the message that names the
    status. *)
Definition axios_settle (answer : Z * json) : http_outcome :=
  if (200 <=? answer.1) && (answer.1 <? 300) then Resolved answer.1 answer.2
  else Rejected (Some answer.1) ("Request failed with status code " +:+ pretty answer.1).

(** The two endpoints as axios sees them, when [express.json()] accepts the
    body and the answer comes within the time-out: [POST /webhook] with the
    list as it is when the request arrives, and [POST /webhook/fail] with
    the counter, which it also returns. *)
Definition endpoint (hmac_sha256_hex : string -> string -> string)
    (JSON_parse : string -> json) (secret : string) (receivedWebhooks : list json)
    (timestamp : string) (rq : http_request) : http_outcome :=
  axios_settle (post_webhook hmac_sha256_hex JSON_parse secret receivedWebhooks
                  (Some (rq_signature rq)) (rq_body rq) timestamp).1.

Definition fail_endpoint (failCount : Z) : http_outcome * Z :=
  (axios_settle (post_webhook_fail failCount).1, (post_webhook_fail failCount).2).

End Receiver.

(** ** Effects of create-payment, for the statements about it *)

(** The row create-payment inserts for the order [o] of id [oid]. *)
Definition new_payment (merchant_id oid : string) (o : order) (meth : string)
    (req : Api.payment_request) (env : Api.payment_env) : payment :=
  {| p_order_id := oid; p_merchant_id := merchant_id;
     p_amount := o_amount o; p_currency := o_currency o;
     p_method := meth; p_vpa := default None (varchar_or_null 255 (Api.vpa req));
     p_card_last4 :=
       if String.eqb meth "card"
       then Some (Api.slice_last4 (default "" (Api.card_number req))) else None;
     p_card_network :=
       if String.eqb meth "card"
       then Some (Api.card_network_of (default "" (Api.card_number req))) else None;
     p_status := Pending; p_captured := false;
     p_error_code := None; p_error_description := None;
     p_created_at := Api.e_now env; p_updated_at := Api.e_now env |}.

(** Everything but the payments, their queue and the idempotency records
    is as before. *)
Definition payment_frame (st st' : state) : Prop :=
  merchants st' = merchants st /\ orders st' = orders st
  /\ refunds st' = refunds st /\ webhook_logs st' = webhook_logs st
  /\ webhookQueue st' = webhookQueue st /\ refundQueue st' = refundQueue st.

Definition payment_created (st : state) (merchant_id : string) (req : Api.payment_request)
    (env : Api.payment_env) (result : response * state) : Prop :=
  status_code result.1 = 201
  /\ exists oid o meth,
       Api.order_id req = Some oid /\ Api.method req = Some meth
       /\ select_scoped o_merchant_id (orders st) oid merchant_id = Some o
       /\ ((meth = "upi" /\ truthy (Api.vpa req) = true)
           \/ (meth = "card" /\ truthy (Api.card_number req) = true))
       /\ payments st !! Api.e_paymentId env = None
       /\ payments result.2
          = <[Api.e_paymentId env := new_payment merchant_id oid o meth req env]> (payments st)
       /\ paymentQueue result.2 = (paymentQueue st ++ [Api.e_paymentId env])%list.

Definition payment_rejected (st : state) (result : response * state) : Prop :=
  (status_code result.1 = 400 \/ status_code result.1 = 500)
  /\ payments result.2 = payments st
  /\ paymentQueue result.2 = paymentQueue st.

(** The payment is stored and its job is queued, but the idempotency
    record could not be written and the answer is 500. *)
Definition payment_unrecorded (st : state) (merchant_id : string)
    (req : Api.payment_request) (env : Api.payment_env) (result : response * state) : Prop :=
  status_code result.1 = 500
  /\ exists oid o meth,
       Api.order_id req = Some oid /\ Api.method req = Some meth
       /\ select_scoped o_merchant_id (orders st) oid merchant_id = Some o
       /\ ((meth = "upi" /\ truthy (Api.vpa req) = true)
           \/ (meth = "card" /\ truthy (Api.card_number req) = true))
       /\ payments st !! Api.e_paymentId env = None
       /\ payments result.2
          = <[Api.e_paymentId env := new_payment merchant_id oid o meth req env]> (payments st)
       /\ paymentQueue result.2 = (paymentQueue st ++ [Api.e_paymentId env])%list.

(** ** Consistency of the store *)

(** Orders have a positive amount; a payment carries the merchant, the
    amount and the currency of an order that exists; a refund has a
    positive amount and names a payment of its merchant. *)
Definition store_consistent (st : state) : Prop :=
  (forall oid o, orders st !! oid = Some o -> 0 < o_amount o)
  /\ (forall pid p, payments st !! pid = Some p ->
        exists o, orders st !! p_order_id p = Some o
                  /\ o_merchant_id o = p_merchant_id p
                  /\ o_amount o = p_amount p /\ o_currency o = p_currency p)
  /\ (forall rid r, refunds st !! rid = Some r ->
        0 < r_amount r
        /\ exists p, payments st !! r_payment_id r = Some p
                     /\ p_merchant_id p = r_merchant_id r).


(** ** More sample data *)

Module SampleMore.
Import Sample.

Definition card_request : Api.payment_request :=
  {| Api.order_id := Some "order_X"; Api.method := Some "card"; Api.vpa := None;
     Api.card_number := Some "4111111111111111"; Api.card_expiry := Some "12/30";
     Api.card_cvv := Some "123" |}.

Definition card_call : response * state :=
  Api.create_payment (shop Pending) merchant_a None card_request
    (at_time "pay_C1" "2024-01-15T10:06:00.000Z" 1705313160000).

(** The record of the key [k1] has expired. *)
Definition shop_expired_key : state :=
  set_idempotency_keys
    {[ ("k1", merchant_a) := {| i_response := JObj [("id", JStr "pay_old")];
                                i_expires_at := 1705000000000 |} ]}
    (shop Pending).

End SampleMore.

(** A refund has its [processed_at] exactly when it is processed. *)
Definition refunds_stamped (st : state) : Prop :=
  forall rid r, refunds st !! rid = Some r ->
    (r_status r = RefundProcessed <-> is_Some (r_processed_at r)).

(** ** What a listing answers *)

(** The order of a listing: a row is followed by rows created no later. *)
Definition newest_first {A} (created : A -> string) (x y : string * A) : Prop :=
  String.leb (created y.2) (created x.2) = true.

(** The answer [r] of a listing of [table] for a merchant and a page: 500
    for a page with a negative number; otherwise, for numbers that
    JavaScript holds exactly, the rows in [data] are rows of the merchant
    in the table, each once, newest first, as many as the page and the
    count allow, and all of them on a first page that is large enough. *)
Definition listing_answer {A} (owner created : A -> string) (item : string * A -> json)
    (table : gmap string A) (merchant_id : string) (pg : Pagination.page) (r : response)
  : Prop :=
  let limit := Pagination.limit pg in
  let offset := Pagination.offset pg in
  let total := ApiMore.count_rows owner table merchant_id in
  if (limit <? 0) || (offset <? 0) then status_code r = 500
  else
    limit <= ApiMore.MAX_SAFE_INTEGER -> offset <= ApiMore.MAX_SAFE_INTEGER ->
    exists rows,
      r = {| status_code := 200;
             body := JObj [("data", JArr (map item rows)); ("total", JNum total);
                           ("limit", JNum limit); ("offset", JNum offset)] |}
      /\ (forall id row, (id, row) ∈ rows ->
            table !! id = Some row /\ owner row = merchant_id)
      /\ NoDup rows.*1
      /\ Sorted (newest_first created) rows
      /\ Z.of_nat (length rows) = Z.min limit (Z.max 0 (total - offset))
      /\ (offset = 0 -> total <= limit ->
          forall id row, table !! id = Some row -> owner row = merchant_id ->
                         (id, row) ∈ rows).

(** ** Payloads of the delivery system *)

Definition is_object (j : json) : Prop := exists members, j = JObj members.

(** Every stored and every queued payload is a JSON object. *)
Definition payloads_are_objects (st : state) : Prop :=
  (forall id w, webhook_logs st !! id = Some w -> is_object (w_payload w))
  /\ (forall jd : webhook_job * Z, jd ∈ webhookQueue st -> is_object (payload jd.1)).

(** ** Notions of the specification *)


(** The refund invariant of the data model: for every payment, the refunds
    recorded against it sum to at most its amount. *)
Definition refunds_within_amount (st : state) : Prop :=
  forall paymentId p,
    payments st !! paymentId = Some p ->
    Api.total_refunded (refunds st) paymentId <= p_amount p.

(** What may happen after a request with an idempotency key, up to a
    later request with it: requests of the merchant with this key, served
    one at a time before the record expires, and anything that leaves the
    record of the key as it is. Every other handler and every worker does,
    and so does a create-payment request with another key or of another
    merchant, at each of its queries. *)
Inductive later (merchant_id key : string) (expires_at : Z) : state -> state -> Prop :=
| later_now st : later merchant_id key expires_at st st
| later_same_key st st1 req env :
    later merchant_id key expires_at st st1 ->
    Api.e_db_now env < expires_at ->
    later merchant_id key expires_at st
      (Api.create_payment st1 merchant_id (Some key) req env).2
| later_other st st1 st2 :
    later merchant_id key expires_at st st1 ->
    idempotency_keys st2 !! (key, merchant_id) = idempotency_keys st1 !! (key, merchant_id) ->
    later merchant_id key expires_at st st2.

(** An object of scalar members with distinct names, as the body of a
    created payment is. *)
Definition flat_object (j : json) : Prop :=
  exists l, j = JObj l /\ NoDup l.*1
            /\ Forall (fun kv : string * json => is_scalar kv.2 = true) l.

(** The pagination of the four listing endpoints. *)
Definition listing_pages : list (option string -> option string -> Pagination.page) :=
  [Pagination.list_orders_page; Pagination.list_payments_page;
   Pagination.list_refunds_page; Pagination.list_webhooks_page].

(** * Properties *)

Import Worker.

(** ** Columns *)

(** A value no longer than its column is stored as it is. *)
Lemma varchar_fits n s : (String.length s <= n)%nat -> varchar n s = Some s.
Proof. intros H. unfold varchar. apply Nat.leb_le in H. by rewrite H. Qed.

(** ** Parameters of type [UUID] *)

(** The id of a row, as the table holds it, names that row. *)
Lemma uuid_param_found {A} (table : gmap string A) id row :
  table !! id = Some row -> uuid_param table id = Some id.
Proof.
  intros H. unfold uuid_param. destruct (decide (is_Some (table !! id))) as [_|n].
  - reflexivity.
  - destruct n. by eexists.
Qed.

(** A text that names no row as it stands is read as a UUID. *)
Lemma uuid_param_other {A} (table : gmap string A) id :
  table !! id = None -> uuid_param table id = Uuid.read id.
Proof.
  intros H. unfold uuid_param. destruct (decide (is_Some (table !! id))) as [[x Hx]|_].
  - congruence.
  - reflexivity.
Qed.

(** On a table whose ids are UUIDs as PostgreSQL prints them, the
    parameter is read as PostgreSQL reads it. *)
Lemma uuid_param_canonical {A} (table : gmap string A) id :
  (forall key, is_Some (table !! key) -> Uuid.read key = Some key) ->
  uuid_param table id = Uuid.read id.
Proof.
  intros Hkeys. unfold uuid_param. destruct (decide (is_Some (table !! id))) as [Hin|_].
  - symmetry. by apply Hkeys.
  - reflexivity.
Qed.

Lemma uuid_read_forms :
  Uuid.read "a0eebc99-9c0b-4ef8-bb6d-6bb9bd380a11" = Some "a0eebc99-9c0b-4ef8-bb6d-6bb9bd380a11"
  /\ Uuid.read "A0EEBC999C0B4EF8BB6D6BB9BD380A11" = Some "a0eebc99-9c0b-4ef8-bb6d-6bb9bd380a11"
  /\ Uuid.read "{a0eebc99-9c0b4ef8-bb6d6bb9-bd380a11}"
     = Some "a0eebc99-9c0b-4ef8-bb6d-6bb9bd380a11"
  /\ Uuid.read "log-1" = None
  /\ Uuid.read "" = None
  /\ Uuid.read "a0eebc99-9c0b-4ef8-bb6d-6bb9bd380a1" = None
  /\ Uuid.read "a0eebc999-c0b-4ef8-bb6d-6bb9bd380a11" = None.
Proof. vm_compute. repeat split. Qed.

(** ** Payment worker *)

(** C10. A job whose [paymentId] matches no payment row makes the payment
    worker return normally (it does not throw, so the queue does not retry
    it) with the database and the queues as they were: no payment is
    updated and no webhook job is enqueued. *)
Theorem payment_worker_unknown_payment cfg st paymentId env :
  payments st !! paymentId = None ->
  paymentWorker cfg st paymentId env = (Completed, st).
Proof.
  intros Hnone. unfold paymentWorker. by rewrite Hnone.
Qed.

Lemma payment_worker_unknown_payment_witness :
  payments (Sample.shop Pending) !! "pay_missing" = None
  /\ paymentWorker Sample.production (Sample.shop Pending) "pay_missing" (Sample.roll (1 # 2))
     = (Completed, Sample.shop Pending).
Proof.
  assert (H : payments (Sample.shop Pending) !! "pay_missing" = None) by (vm_compute; reflexivity).
  split; [exact H | exact (payment_worker_unknown_payment _ _ _ _ H)].
Defined.

(** The status a run of the payment worker leaves on the payment of the
    job: the outcome decided in this run. *)
Lemma payment_worker_payments cfg st paymentId env p m :
  payments st !! paymentId = Some p ->
  merchants st !! p_merchant_id p = Some m ->
  payments (paymentWorker cfg st paymentId env).2
  = alter (if isSuccess cfg p (pw_random env)
           then mark_success (pw_now env) else mark_failed (pw_now env))
      paymentId (payments st).
Proof.
  intros Hp Hm. unfold paymentWorker. rewrite Hp, Hm.
  destruct (isSuccess cfg p (pw_random env)); destruct (truthy (m_webhook_url m)); reflexivity.
Qed.

(** C1 (as the code has it). The update of step 4 does not look at the
    current status: after a run on an existing payment the status is the
    outcome decided in that run, ['success'] or ['failed'] and never
    ['pending'], whatever it was before, and no other payment changes. So a
    re-run keeps a terminal status exactly when it decides the same
    outcome. *)
Theorem payment_worker_writes_outcome cfg st paymentId env p m :
  payments st !! paymentId = Some p ->
  merchants st !! p_merchant_id p = Some m ->
  let st' := (paymentWorker cfg st paymentId env).2 in
  let outcome := if isSuccess cfg p (pw_random env) then Success else Failed in
  p_status <$> payments st' !! paymentId = Some outcome
  /\ outcome <> Pending
  /\ (p_status <$> payments st' !! paymentId = Some (p_status p) <-> p_status p = outcome)
  /\ (forall other, other <> paymentId -> payments st' !! other = payments st !! other).
Proof.
  intros Hp Hm st' outcome. subst st'.
  rewrite (payment_worker_payments _ _ _ _ _ _ Hp Hm).
  assert (Hst : p_status <$> alter (if isSuccess cfg p (pw_random env)
                   then mark_success (pw_now env) else mark_failed (pw_now env))
                   paymentId (payments st) !! paymentId = Some outcome).
  { rewrite lookup_alter_eq, Hp. subst outcome.
    destruct (isSuccess cfg p (pw_random env)); reflexivity. }
  split; [exact Hst|]. split.
  { subst outcome. destruct (isSuccess cfg p (pw_random env)); discriminate. }
  split.
  { rewrite Hst. split; [intros [= ->]; reflexivity | intros ->; reflexivity]. }
  intros other Hne. by rewrite lookup_alter_ne.
Qed.

Lemma payment_worker_writes_outcome_witness :
  p_status <$> payments (paymentWorker Sample.test_mode (Sample.shop Pending) "pay_X"
                           (Sample.roll (1 # 2))).2 !! "pay_X" = Some Success.
Proof.
  assert (Hp : payments (Sample.shop Pending) !! "pay_X" = Some (Sample.pay_x Pending))
    by (vm_compute; reflexivity).
  assert (Hm : merchants (Sample.shop Pending) !! p_merchant_id (Sample.pay_x Pending)
               = Some Sample.with_url) by (vm_compute; reflexivity).
  exact (proj1 (payment_worker_writes_outcome Sample.test_mode _ _ (Sample.roll (1 # 2))
                  _ _ Hp Hm)).
Defined.

(** C1, refuted as stated: in production mode a payment that a first run
    left ['failed'] (roll 0.99) is made ['success'] by a second run of the
    same job (roll 0.10). *)
Lemma payment_worker_overwrites_terminal :
  let st1 := (paymentWorker Sample.production (Sample.shop Pending) "pay_X"
                (Sample.roll (99 # 100))).2 in
  let st2 := (paymentWorker Sample.production st1 "pay_X" (Sample.roll (1 # 10))).2 in
  p_status <$> payments st1 !! "pay_X" = Some Failed
  /\ p_status <$> payments st2 !! "pay_X" = Some Success.
Proof. vm_compute. split; reflexivity. Qed.

(** ** Webhook worker *)

Section DeliveryFacts.

Variable hmac : string -> string -> string.
Variable ax : json -> string.

(** The log the worker works on is in the table, and looking it up or
    creating it touches nothing but the table of logs. *)
Lemma get_or_create_log_found st job uuid st1 id log :
  get_or_create_log st job uuid = Some (st1, Some (id, log)) ->
  webhook_logs st1 !! id = Some log
  /\ webhookQueue st1 = webhookQueue st
  /\ merchants st1 = merchants st
  /\ ((exists named, System.job_log job = Some named
                      /\ uuid_param (webhook_logs st) named = Some id /\ st1 = st)
      \/ (System.job_log job = None /\ id = uuid /\ webhook_logs st !! uuid = None
          /\ webhook_logs st1 = <[uuid := log]> (webhook_logs st)
          /\ w_attempts log = 0 /\ w_status log = WPending)).
Proof.
  unfold get_or_create_log, System.job_log, pk_insert.
  destruct (truthy (webhookLogId job)) eqn:Ht.
  - destruct (webhookLogId job) as [i|] eqn:Hi; [|discriminate Ht]. simpl.
    destruct (uuid_param (webhook_logs st) i) as [k|] eqn:Hk; [|discriminate].
    destruct (webhook_logs st !! k) as [w|] eqn:Hw; simpl; intros [= <- <- <-].
    repeat split; auto. left. exists i. auto.
  - destruct (varchar 50 (event job)) as [stored_event|]; [|discriminate].
    destruct (webhook_logs st !! uuid) eqn:Hu; [discriminate|].
    intros [= <- <- <-]. simpl. rewrite lookup_insert_eq.
    repeat split; auto. right. repeat split; auto.
Qed.

(** The worker's run, once the merchant, its endpoint, its secret and the
    log are there. *)
Lemma webhookWorker_ready cfg post st job env m secret st1 id log :
  merchants st !! merchantId job = Some m ->
  truthy (m_webhook_url m) = true ->
  m_webhook_secret m = Some secret ->
  get_or_create_log st job (ww_uuid env) = Some (st1, Some (id, log)) ->
  webhookWorker hmac ax cfg post st job env
  = let request := webhook_request hmac ax m secret job in
    match post request with
    | Resolved status data =>
        {| d_result := Completed;
           d_state := set_webhook_logs
                        (alter (log_success (ww_now env) status
                                  (String.substring 0 1000 (JSON_stringify data))) id
                           (webhook_logs st1)) st1;
           d_sent := Some request |}
    | Rejected rs message =>
        let attempts := w_attempts log + 1 in
        let code := match rs with Some c => c | None => 0 end in
        if 5 <=? attempts then
          {| d_result := Completed;
             d_state := set_webhook_logs
                          (alter (log_failed attempts (ww_now env) code message) id
                             (webhook_logs st1)) st1;
             d_sent := Some request |}
        else
          let delay := nextRetryDelay (getRetryIntervals cfg) attempts in
          {| d_result := Completed;
             d_state :=
               webhookQueue_add
                 {| webhookLogId := Some id; merchantId := merchantId job;
                    event := event job; payload := payload job |} delay
                 (set_webhook_logs
                    (alter (log_retry attempts (ww_now env) (ww_date_now env + delay) code
                              message) id (webhook_logs st1)) st1);
             d_sent := Some request |}
    end.
Proof.
  intros Hm Hu Hs Hl. unfold webhookWorker, webhookWorker_start.
  rewrite (uuid_param_found _ _ _ Hm), Hm, Hu, Hl, Hs. simpl.
  unfold webhookWorker_settle. cbn [fl_log fl_request fl_now fl_job].
  destruct (post (webhook_request hmac ax m secret job)); [reflexivity|].
  cbv zeta. destruct (5 <=? w_attempts log + 1); reflexivity.
Qed.

(** The array of the code and the table of the specification agree: the
    entry read after [attempts'] attempts is the row of attempt
    [attempts' + 1]. *)
Lemma nextRetryDelay_table cfg attempts' :
  1 <= attempts' <= 4 ->
  backoff_table (WEBHOOK_RETRY_INTERVALS_TEST cfg) (attempts' + 1)
  = Some (nextRetryDelay (getRetryIntervals cfg) attempts').
Proof.
  intros H. unfold getRetryIntervals.
  assert (Hc : attempts' = 1 \/ attempts' = 2 \/ attempts' = 3 \/ attempts' = 4) by lia.
  destruct (WEBHOOK_RETRY_INTERVALS_TEST cfg);
    destruct Hc as [-> | [-> | [-> | ->]]]; reflexivity.
Qed.

(** The first row of the table: the first attempt is queued with no delay
    when the event is fanned out. *)
Lemma fanout_delay_is_first_row cfg merchantId event data date_now st :
  exists job,
    webhookQueue (enqueueWebhook merchantId event data date_now st)
    = (webhookQueue st ++ [(job, 0)])%list
    /\ backoff_table (WEBHOOK_RETRY_INTERVALS_TEST cfg) 1 = Some 0.
Proof. eexists. split; reflexivity. Qed.

(** C6. When a delivery attempt fails and the incremented count
    [attempts'] is below 5, the log is set to ['pending'] with
    [attempts = attempts'] and [next_retry_at] the clock reading plus the
    backoff delay, and one delivery job for that log joins the queue with
    exactly that delay. The delay is the row of the backoff table for the
    attempt about to be tried, [attempts' + 1]: 60000, 300000, 1800000,
    7200000 ms in production and 5000, 10000, 15000, 20000 ms in test
    mode. *)
Theorem webhook_failure_schedules_retry cfg post st job env m secret st1 id log rs message :
  merchants st !! merchantId job = Some m ->
  truthy (m_webhook_url m) = true ->
  m_webhook_secret m = Some secret ->
  get_or_create_log st job (ww_uuid env) = Some (st1, Some (id, log)) ->
  post (webhook_request hmac ax m secret job) = Rejected rs message ->
  0 <= w_attempts log ->
  w_attempts log + 1 < 5 ->
  let attempts' := w_attempts log + 1 in
  let st' := d_state (webhookWorker hmac ax cfg post st job env) in
  exists delay,
    backoff_table (WEBHOOK_RETRY_INTERVALS_TEST cfg) (attempts' + 1) = Some delay
    /\ (exists w', webhook_logs st' !! id = Some w'
          /\ w_status w' = WPending
          /\ w_attempts w' = attempts'
          /\ w_next_retry_at w' = Some (ww_date_now env + delay))
    /\ webhookQueue st'
       = (webhookQueue st
          ++ [({| webhookLogId := Some id; merchantId := merchantId job;
                  event := event job; payload := payload job |}, delay)])%list.
Proof.
  intros Hm Hu Hs Hl Hpost H0 H5 attempts' st'. subst st'.
  rewrite (webhookWorker_ready cfg post st job env m secret st1 id log Hm Hu Hs Hl).
  cbv zeta. rewrite Hpost.
  destruct (5 <=? w_attempts log + 1) eqn:Hle; [apply Z.leb_le in Hle; lia|].
  destruct (get_or_create_log_found _ _ _ _ _ _ Hl) as (Hlog & Hq & _ & _).
  exists (nextRetryDelay (getRetryIntervals cfg) attempts').
  split; [apply nextRetryDelay_table; subst attempts'; lia|].
  split.
  - eexists. simpl. rewrite lookup_alter_eq, Hlog. simpl. repeat split; reflexivity.
  - simpl. rewrite Hq. reflexivity.
Qed.

(** C4. Every request the worker sends for a payload that is a JSON object
    carries as [X-Webhook-Signature] the HMAC, keyed with the
    [webhook_secret] of the merchant the job names, of exactly the body it
    transmits: both are [JSON.stringify] of the job's payload. *)
Theorem webhook_signature_over_sent_body cfg post st job env members rq :
  payload job = JObj members ->
  d_sent (webhookWorker hmac ax cfg post st job env) = Some rq ->
  exists key m secret,
    uuid_param (merchants st) (merchantId job) = Some key
    /\ merchants st !! key = Some m
    /\ m_webhook_secret m = Some secret
    /\ rq_body rq = JSON_stringify (payload job)
    /\ rq_signature rq = hmac secret (rq_body rq).
Proof.
  intros Hobj. revert rq. unfold webhookWorker, webhookWorker_start.
  destruct (uuid_param (merchants st) (merchantId job)) as [key|]; [|discriminate].
  destruct (merchants st !! key) as [m|] eqn:Hm; [|discriminate].
  destruct (negb (truthy (m_webhook_url m))); [discriminate|].
  destruct (get_or_create_log st job (ww_uuid env)) as [[st1 wl]|]; [|discriminate].
  destruct (m_webhook_secret m) as [secret|] eqn:Hs; [|discriminate].
  destruct (webhookWorker_settle _ _ _ _ _) as [[result st2] next].
  cbn [d_sent fl_request]. intros r [= <-]. exists key, m, secret.
  unfold webhook_request, generateSignature, axios_body.
  rewrite Hobj. simpl. auto.
Qed.

End DeliveryFacts.

Lemma webhook_failure_schedules_retry_witness :
  let job := {| webhookLogId := None; merchantId := Sample.merchant_a;
                event := "payment.success"; payload := JObj [("event", JStr "payment.success")] |} in
  let st' := d_state (webhookWorker Sample.sample_hmac Sample.sample_scalar Sample.test_mode
                        Sample.always_500 (Sample.shop Success) job (Sample.tick Sample.log_id)) in
  exists delay,
    backoff_table true 2 = Some delay
    /\ webhookQueue st'
       = [({| webhookLogId := Some Sample.log_id; merchantId := Sample.merchant_a;
              event := "payment.success"; payload := JObj [("event", JStr "payment.success")] |},
           delay)].
Proof.
  intros job st'.
  destruct (webhook_failure_schedules_retry Sample.sample_hmac Sample.sample_scalar
              Sample.test_mode Sample.always_500 (Sample.shop Success) job
              (Sample.tick Sample.log_id) Sample.with_url "whsec_test_abc123"
              _ _ _ (Some 500) "Request failed with status code 500"
              ltac:(vm_compute; reflexivity) ltac:(reflexivity) ltac:(reflexivity)
              ltac:(reflexivity) ltac:(reflexivity) ltac:(simpl; lia) ltac:(simpl; lia))
    as (delay & Htable & _ & Hqueue).
  exists delay. split; [exact Htable | exact Hqueue].
Defined.

Lemma webhook_signature_over_sent_body_witness :
  let job := {| webhookLogId := None; merchantId := Sample.merchant_a;
                event := "payment.success"; payload := JObj [("event", JStr "payment.success")] |} in
  exists rq,
    d_sent (webhookWorker Sample.sample_hmac Sample.sample_scalar Sample.test_mode
              Sample.always_500 (Sample.shop Success) job (Sample.tick Sample.log_id)) = Some rq
    /\ rq_signature rq = Sample.sample_hmac "whsec_test_abc123" (rq_body rq).
Proof.
  intros job. eexists. split; [vm_compute; reflexivity|].
  destruct (webhook_signature_over_sent_body Sample.sample_hmac Sample.sample_scalar
              Sample.test_mode Sample.always_500 (Sample.shop Success) job
              (Sample.tick Sample.log_id) _ _ eq_refl ltac:(vm_compute; reflexivity))
    as (key & m & secret & Hkey & Hm & Hs & _ & Hsig).
  vm_compute in Hkey. injection Hkey as <-.
  vm_compute in Hm. injection Hm as <-. injection Hs as <-. exact Hsig.
Defined.

(** The success update stores at most 1000 characters. *)
Lemma substring_length_le n s : (String.length (String.substring 0 n s) <= n)%nat.
Proof.
  revert s. induction n as [|n IH]; intros [|c s]; simpl; try lia.
  specialize (IH s). lia.
Qed.

Lemma webhook_success_body_truncated (hmac : string -> string -> string) (ax : json -> string)
    cfg post st job env m secret st1 id log status data :
  merchants st !! merchantId job = Some m ->
  truthy (m_webhook_url m) = true ->
  m_webhook_secret m = Some secret ->
  get_or_create_log st job (ww_uuid env) = Some (st1, Some (id, log)) ->
  post (webhook_request hmac ax m secret job) = Resolved status data ->
  exists w' b,
    webhook_logs (d_state (webhookWorker hmac ax cfg post st job env)) !! id = Some w'
    /\ w_response_body w' = Some b /\ (String.length b <= 1000)%nat.
Proof.
  intros Hm Hu Hs Hl Hpost.
  rewrite (webhookWorker_ready hmac ax cfg post st job env m secret st1 id log Hm Hu Hs Hl).
  cbv zeta. rewrite Hpost. simpl.
  destruct (get_or_create_log_found _ _ _ _ _ _ Hl) as (Hlog & _).
  rewrite lookup_alter_eq, Hlog. simpl. do 2 eexists. split; [reflexivity|].
  split; [reflexivity|]. apply substring_length_le.
Qed.

(** The failure updates store [error.message] as it is. *)
Lemma webhook_failure_body_is_message (hmac : string -> string -> string) (ax : json -> string)
    cfg post st job env m secret st1 id log rs message :
  merchants st !! merchantId job = Some m ->
  truthy (m_webhook_url m) = true ->
  m_webhook_secret m = Some secret ->
  get_or_create_log st job (ww_uuid env) = Some (st1, Some (id, log)) ->
  post (webhook_request hmac ax m secret job) = Rejected rs message ->
  exists w',
    webhook_logs (d_state (webhookWorker hmac ax cfg post st job env)) !! id = Some w'
    /\ w_response_body w' = Some message.
Proof.
  intros Hm Hu Hs Hl Hpost.
  rewrite (webhookWorker_ready hmac ax cfg post st job env m secret st1 id log Hm Hu Hs Hl).
  cbv zeta. rewrite Hpost.
  destruct (get_or_create_log_found _ _ _ _ _ _ Hl) as (Hlog & _).
  destruct (5 <=? w_attempts log + 1); simpl; rewrite lookup_alter_eq, Hlog; simpl;
    eexists; split; reflexivity.
Qed.

(** C9, at the failing input: the merchant's webhook URL has a scheme of a
    thousand letters, axios rejects with a message that names it, and the
    failure update stores the 1022 characters of that message; the success
    update would have cut the body at 1000. *)
Theorem webhook_failure_body_exceeds_1000 :
  let st' := d_state (webhookWorker Sample.sample_hmac Sample.sample_scalar Sample.production
                        Sample.unsupported_protocol Sample.shop_long_scheme Sample.event_job
                        (Sample.tick Sample.log_id)) in
  (String.length <$> (webhook_logs st' !! Sample.log_id ≫= w_response_body)) = Some 1022%nat
  /\ (1000 < 1022)%nat.
Proof. split; [vm_compute; reflexivity | lia]. Qed.

(** ** Pagination and the empty idempotency key *)

Import Pagination.

Example parseInt_examples :
  parseInt (Some "42") = Some 42 /\ parseInt (Some " 12abc") = Some 12
  /\ parseInt (Some "abc") = None /\ parseInt (Some "") = None
  /\ parseInt (Some "0x1A") = Some 26 /\ parseInt (Some "-5") = Some (-5)
  /\ parseInt (Some "+7") = Some 7 /\ parseInt None = None.
Proof. repeat split; reflexivity. Qed.

Lemma digit_value_not_decimal c :
  is_decimal_digit c = false -> digit_value 10 c = None.
Proof.
  unfold is_decimal_digit, digit_value. intros H.
  set (n := N_of_ascii c) in *.
  assert (Hn : ~ (48 <= Z.of_N n <= 57)).
  { intros [H1 H2]. apply andb_false_iff in H.
    destruct H as [H|H]; apply N.leb_gt in H; lia. }
  destruct ((48 <=? Z.of_N n) && (Z.of_N n <=? 57)) eqn:E1.
  { apply andb_true_iff in E1. destruct E1 as [E1 E2].
    apply Z.leb_le in E1. apply Z.leb_le in E2. lia. }
  destruct ((97 <=? Z.of_N n) && (Z.of_N n <=? 122)) eqn:E2.
  { apply andb_true_iff in E2. destruct E2 as [E2 E3]. apply Z.leb_le in E2.
    destruct (Z.of_N n - 87 <? 10) eqn:E4; [apply Z.ltb_lt in E4; lia | reflexivity]. }
  destruct ((65 <=? Z.of_N n) && (Z.of_N n <=? 90)) eqn:E3; [|reflexivity].
  apply andb_true_iff in E3. destruct E3 as [E3 E4]. apply Z.leb_le in E3.
  destruct (Z.of_N n - 55 <? 10) eqn:E5; [apply Z.ltb_lt in E5; lia | reflexivity].
Qed.

Lemma not_decimal_no_hex_prefix c r :
  is_decimal_digit c = false -> has_hex_prefix (String c r) = false.
Proof.
  intros H. unfold has_hex_prefix. destruct r as [|x r]; [reflexivity|].
  destruct (Ascii.eqb_spec c "0") as [->|]; [discriminate H | reflexivity].
Qed.

(** A value that is not numeric parses to [NaN]. *)
Lemma parseInt_non_numeric v : non_numeric v = true -> parseInt v = None.
Proof.
  destruct v as [s|]; [|reflexivity]. unfold non_numeric, parseInt. cbv zeta.
  destruct (strip_sign (skip_space s)) as [|c r] eqn:Hs; [reflexivity|].
  intros H. apply negb_true_iff in H.
  rewrite (not_decimal_no_hex_prefix _ _ H). simpl.
  rewrite (digit_value_not_decimal _ H). reflexivity.
Qed.

Lemma digit_value_digit_char d : 0 <= d <= 9 -> digit_value 10 (digit_char d) = Some d.
Proof.
  intros H.
  assert (Hc : d = 0 \/ d = 1 \/ d = 2 \/ d = 3 \/ d = 4 \/ d = 5 \/ d = 6 \/ d = 7
               \/ d = 8 \/ d = 9) by lia.
  repeat (destruct Hc as [-> | Hc]; [reflexivity|]). subst d. reflexivity.
Qed.

Lemma digit_char_plain d :
  0 <= d <= 9 ->
  is_space (digit_char d) = false /\ Ascii.eqb (digit_char d) "-" = false
  /\ Ascii.eqb (digit_char d) "+" = false.
Proof.
  intros H.
  assert (Hc : d = 0 \/ d = 1 \/ d = 2 \/ d = 3 \/ d = 4 \/ d = 5 \/ d = 6 \/ d = 7
               \/ d = 8 \/ d = 9) by lia.
  repeat (destruct Hc as [-> | Hc]; [repeat split; reflexivity|]).
  subst d. repeat split; reflexivity.
Qed.

Lemma digit_char_not_x d :
  0 <= d <= 9 ->
  Ascii.eqb (digit_char d) "x" || Ascii.eqb (digit_char d) "X" = false.
Proof.
  intros H.
  assert (Hc : d = 0 \/ d = 1 \/ d = 2 \/ d = 3 \/ d = 4 \/ d = 5 \/ d = 6 \/ d = 7
               \/ d = 8 \/ d = 9) by lia.
  repeat (destruct Hc as [-> | Hc]; [reflexivity|]). subst d. reflexivity.
Qed.

Lemma parse_digits_numeral ds acc :
  Forall (fun d => 0 <= d <= 9) ds ->
  parse_digits 10 (numeral ds) acc
  = match ds with
    | [] => acc
    | _ => Some (fold_left (fun a d => 10 * a + d) ds (default 0 acc))
    end.
Proof.
  intros H. revert acc. induction H as [|d ds Hd Hds IH]; intros acc; [reflexivity|].
  simpl. rewrite (digit_value_digit_char _ Hd), IH.
  destruct ds; reflexivity.
Qed.

Lemma numeral_no_hex_prefix ds :
  Forall (fun d => 0 <= d <= 9) ds -> has_hex_prefix (numeral ds) = false.
Proof.
  intros H. destruct H as [|d ds Hd Hds]; [reflexivity|].
  destruct Hds as [|d' ds' Hd' _]; [reflexivity|].
  simpl. rewrite (digit_char_not_x _ Hd'). apply andb_false_r.
Qed.

(** A string that starts with a minus sign starts with no white space. *)
Lemma skip_space_minus r : skip_space (String "-" r) = String "-" r.
Proof. destruct r as [|c2 [|c3 r3]]; reflexivity. Qed.

(** Rounding to a Number keeps the integers up to [2^53], and keeps a
    positive integer positive. *)
Lemma to_double_exact n : n <= 2 ^ 53 -> to_double n = n.
Proof.
  intros H. unfold to_double. destruct (Z.ltb_spec n (2 ^ 53)) as [_|Hge]; [reflexivity|].
  assert (n = 2 ^ 53) as -> by lia. reflexivity.
Qed.

Lemma to_double_pos n : 0 < n -> 0 < to_double n.
Proof.
  intros Hpos. unfold to_double. destruct (Z.ltb_spec n (2 ^ 53)) as [_|Hge]; [exact Hpos|].
  cbv zeta.
  assert (H53 : 53 <= Z.log2 n) by (apply Z.log2_le_pow2; lia).
  set (shift := Z.log2 n - 52).
  assert (Hshift : 0 <= shift <= Z.log2 n) by (subst shift; lia).
  assert (Hq : 0 < Z.shiftr n shift).
  { rewrite Z.shiftr_div_pow2 by lia. apply Z.div_str_pos. split.
    - apply Z.pow_pos_nonneg; lia.
    - etrans; [apply Z.pow_le_mono_r; [lia | apply Hshift]|].
      apply Z.log2_spec. exact Hpos. }
  apply Z.min_glb_lt; [|reflexivity].
  rewrite Z.shiftl_mul_pow2 by lia. apply Z.mul_pos_pos.
  - destruct (_ || _); lia.
  - apply Z.pow_pos_nonneg; lia.
Qed.

Lemma numeral_value_nonneg ds : Forall (fun d => 0 <= d <= 9) ds -> 0 <= numeral_value ds.
Proof.
  unfold numeral_value. intros H.
  assert (G : forall acc, 0 <= acc -> 0 <= fold_left (fun a d => 10 * a + d) ds acc).
  { induction H as [|d ds Hd _ IH]; intros acc Hacc; [exact Hacc|]. simpl. apply IH. lia. }
  by apply G.
Qed.

(** A minus sign and a decimal numeral parse to the negated Number. *)
Lemma parseInt_negative_numeral ds :
  ds <> [] ->
  Forall (fun d => 0 <= d <= 9) ds ->
  parseInt (Some (String "-" (numeral ds))) = Some (- to_double (numeral_value ds)).
Proof.
  intros Hne H. unfold parseInt. cbv zeta. rewrite skip_space_minus.
  change (is_negative (String "-" (numeral ds))) with true.
  change (strip_sign (String "-" (numeral ds))) with (numeral ds).
  rewrite (numeral_no_hex_prefix _ H), (parse_digits_numeral _ _ H).
  destruct ds; [contradiction|]. reflexivity.
Qed.

Lemma parseInt_or_non_numeric v d : non_numeric v = true -> parseInt_or v d = d.
Proof. intros H. unfold parseInt_or. by rewrite (parseInt_non_numeric _ H). Qed.

Lemma parseInt_or_negative ds d :
  ds <> [] -> Forall (fun d => 0 <= d <= 9) ds -> numeral_value ds <> 0 ->
  parseInt_or (Some (String "-" (numeral ds))) d = - to_double (numeral_value ds)
  /\ 0 < to_double (numeral_value ds).
Proof.
  intros Hne H Hv. unfold parseInt_or. rewrite (parseInt_negative_numeral _ Hne H).
  pose proof (numeral_value_nonneg _ H) as H0.
  pose proof (to_double_pos (numeral_value ds) ltac:(lia)) as Hpos.
  split; [|exact Hpos].
  destruct (Z.eqb_spec (- to_double (numeral_value ds)) 0); [lia | reflexivity].
Qed.

(** C8 (as the code has it). On each of the four listings a [limit] or
    [offset] that is not numeric (missing, or not starting with a decimal
    digit after white space, that of Unicode included, and a sign) falls
    back to the default, 10 and 0; a minus sign followed by a decimal
    numeral of value [n <> 0] does not: the handler uses the negative
    Number that [parseInt] returns, which is [-n] for [n] up to [2^53] and
    the nearest double beyond. An empty [Idempotency-Key] header is
    treated as a missing one. *)
Theorem pagination_fallback_and_empty_key :
  Forall (fun page_of : option string -> option string -> page =>
            forall ql qo,
              (non_numeric ql = true -> limit (page_of ql qo) = 10)
              /\ (non_numeric qo = true -> offset (page_of ql qo) = 0)
              /\ (forall ds, ds <> [] -> Forall (fun d => 0 <= d <= 9) ds ->
                    numeral_value ds <> 0 ->
                    let n := to_double (numeral_value ds) in
                    limit (page_of (Some (String "-" (numeral ds))) qo) = - n
                    /\ offset (page_of ql (Some (String "-" (numeral ds)))) = - n
                    /\ 0 < n
                    /\ (numeral_value ds <= 2 ^ 53 -> n = numeral_value ds)))
    listing_pages
  /\ (forall st merchant_id req env,
        Api.create_payment st merchant_id (Some "") req env
        = Api.create_payment st merchant_id None req env).
Proof.
  split.
  - assert (H : forall ql qo,
              (non_numeric ql = true -> limit (pagination ql qo) = 10)
              /\ (non_numeric qo = true -> offset (pagination ql qo) = 0)
              /\ (forall ds, ds <> [] -> Forall (fun d => 0 <= d <= 9) ds ->
                    numeral_value ds <> 0 ->
                    let n := to_double (numeral_value ds) in
                    limit (pagination (Some (String "-" (numeral ds))) qo) = - n
                    /\ offset (pagination ql (Some (String "-" (numeral ds)))) = - n
                    /\ 0 < n
                    /\ (numeral_value ds <= 2 ^ 53 -> n = numeral_value ds))).
    { intros ql qo. split; [|split].
      - intros Hn. simpl. by apply parseInt_or_non_numeric.
      - intros Hn. simpl. by apply parseInt_or_non_numeric.
      - intros ds Hne Hd Hv n. subst n.
        destruct (parseInt_or_negative ds 10 Hne Hd Hv) as [Hl Hpos].
        destruct (parseInt_or_negative ds 0 Hne Hd Hv) as [Ho _].
        split; [exact Hl|]. split; [exact Ho|]. split; [exact Hpos|].
        apply to_double_exact. }
    unfold listing_pages.
    do 4 (constructor; [exact H|]). constructor.
  - intros st merchant_id req env. reflexivity.
Qed.

Lemma pagination_fallback_and_empty_key_witness :
  limit (list_webhooks_page (Some "ten") None) = 10
  /\ offset (list_webhooks_page (Some "ten") (Some " -")) = 0
  /\ limit (list_webhooks_page (Some "-25") None) = -25.
Proof.
  pose proof (proj1 pagination_fallback_and_empty_key) as H.
  unfold listing_pages in H.
  apply Forall_cons in H as [_ H]. apply Forall_cons in H as [_ H].
  apply Forall_cons in H as [_ H]. apply Forall_cons in H as [H _].
  split; [|split].
  - exact (proj1 (H (Some "ten") None) eq_refl).
  - exact (proj1 (proj2 (H (Some "ten") (Some " -"))) eq_refl).
  - exact (proj1 (proj2 (proj2 (H None None)) [2; 5] ltac:(discriminate)
                    ltac:(repeat constructor; lia) ltac:(vm_compute; discriminate))).
Defined.

(** Beyond [2^53] the value is the nearest double, and white space of
    Unicode is skipped as that of ASCII is: U+00A0 before a numeral. *)
Lemma parseInt_rounds_and_skips :
  parseInt (Some "-9007199254740993") = Some (-9007199254740992)
  /\ parseInt (Some "9007199254740995") = Some 9007199254740996
  /\ parseInt (Some (String (ascii_of_N 194) (String (ascii_of_N 160) "5"))) = Some 5
  /\ non_numeric (Some (String (ascii_of_N 194) (String (ascii_of_N 160) "5"))) = false.
Proof. repeat split; vm_compute; reflexivity. Qed.

(** C8, refuted as stated: [?limit=-5&offset=-1] on the list of orders
    gives the handler [limit = -5] and [offset = -1], not the defaults. *)
Lemma negative_pagination_is_kept :
  list_orders_page (Some "-5") (Some "-1") = {| limit := -5; offset := -1 |}
  /\ list_orders_page (Some "-5") (Some "-1") <> {| limit := 10; offset := 0 |}.
Proof. split; [reflexivity | discriminate]. Qed.

(** ** Merchant scoping *)

Import Api.







(** ** Refunds *)

(** The sum after one more refund row. *)
Lemma total_refunded_insert t refundId r paymentId :
  t !! refundId = None ->
  total_refunded (<[refundId := r]> t) paymentId
  = if String.eqb (r_payment_id r) paymentId
    then total_refunded t paymentId + r_amount r
    else total_refunded t paymentId.
Proof.
  intros Hfresh. unfold total_refunded.
  rewrite map_fold_insert_L; [reflexivity| |exact Hfresh].
  intros j1 j2 z1 z2 y _ _ _.
  destruct (String.eqb (r_payment_id z1) paymentId),
           (String.eqb (r_payment_id z2) paymentId); lia.
Qed.

Lemma select_scoped_Some {A} (owner : A -> string) table id merchant_id row :
  select_scoped owner table id merchant_id = Some row ->
  table !! id = Some row /\ owner row = merchant_id.
Proof.
  unfold select_scoped. destruct (table !! id) as [r|]; [|discriminate].
  destruct (String.eqb_spec (owner r) merchant_id); [|discriminate].
  intros [= ->]. auto.
Qed.


(** The handler served alone is its three queries on one state. *)
Lemma create_refund_alone st merchant_id paymentId req refundId now :
  create_refund st merchant_id paymentId req refundId now
  = match create_refund_payment st merchant_id paymentId with
    | inl answer => (answer, st)
    | inr payment =>
        match create_refund_amount st paymentId payment req with
        | inl answer => (answer, st)
        | inr amount => create_refund_insert st merchant_id paymentId req amount refundId now
        end
    end.
Proof.
  unfold create_refund, create_refund_payment, create_refund_amount, create_refund_insert.
  destruct (select_scoped p_merchant_id (payments st) paymentId merchant_id) as [payment|];
    [|reflexivity].
  destruct (p_status payment); try reflexivity. cbv zeta.
  destruct (rq_amount req) as [amount|]; [|reflexivity].
  destruct ((amount =? 0) || (amount <=? 0)); [reflexivity|].
  destruct (_ <? amount); reflexivity.
Qed.

(** The insert of a request keeps the bound when the sum the request read
    is still the sum of the refunds of the payment. *)
Lemma create_refund_insert_within st st_sum merchant_id paymentId payment req amount
    refundId now :
  refunds_within_amount st ->
  (forall current, payments st !! paymentId = Some current ->
                   p_amount current = p_amount payment) ->
  create_refund_amount st_sum paymentId payment req = inr amount ->
  total_refunded (refunds st) paymentId = total_refunded (refunds st_sum) paymentId ->
  refunds_within_amount
    (create_refund_insert st merchant_id paymentId req amount refundId now).2.
Proof.
  intros Hinv Hsame Hcheck Hsum. unfold create_refund_amount in Hcheck.
  destruct (rq_amount req) as [a|]; [|discriminate].
  destruct ((a =? 0) || (a <=? 0)); [discriminate|].
  destruct (Z.ltb_spec (p_amount payment - total_refunded (refunds st_sum) paymentId) a)
    as [|Hav]; [discriminate|].
  injection Hcheck as ->.
  unfold create_refund_insert, pk_insert.
  destruct (refunds st !! refundId) eqn:Hfresh; [exact Hinv|].
  intros pid p Hp. cbn [snd payments refunds set_refunds set_refundQueue] in Hp |- *.
  rewrite (total_refunded_insert _ _ _ _ Hfresh). cbn [r_payment_id r_amount].
  destruct (String.eqb_spec paymentId pid) as [<-|Hne]; [|by apply Hinv].
  rewrite (Hsame _ Hp). lia.
Qed.


Lemma shop_refunded_within_amount : refunds_within_amount Sample.shop_refunded.
Proof.
  intros pid p Hp. change (payments Sample.shop_refunded)
    with ({[ "pay_X" := Sample.pay_x Success ]} : gmap string payment) in Hp.
  apply lookup_singleton_Some in Hp as [<- <-]. vm_compute. discriminate.
Defined.



(** ** Idempotency *)

(** *** The jsonb normal form keeps the members of an object *)

Lemma jsonb_insert_perm k v acc :
  k ∉ acc.*1 -> Permutation (jsonb_insert k v acc) ((k, v) :: acc).
Proof.
  induction acc as [|[k' v'] r IH]; intros Hk; [reflexivity|].
  simpl. apply not_elem_of_cons in Hk as [Hne Hr].
  destruct (String.eqb_spec k k') as [->|_]; [contradiction|].
  destruct (jsonb_key_lt k k'); [reflexivity|].
  rewrite (IH Hr). apply perm_swap.
Qed.

Lemma jsonb_members_perm l : NoDup l.*1 -> Permutation (jsonb_members l) l.
Proof.
  induction l as [|[k v] r IH]; intros Hnd; [reflexivity|].
  apply NoDup_cons in Hnd as [Hk Hr]. specialize (IH Hr).
  change (jsonb_members ((k, v) :: r)) with (jsonb_insert k v (jsonb_members r)).
  rewrite jsonb_insert_perm; [by rewrite IH|].
  intros Hin. apply Hk. by rewrite <- IH.
Qed.

Lemma jsonb_scalar_object l :
  Forall (fun kv : string * json => is_scalar kv.2 = true) l ->
  jsonb (JObj l) = JObj (jsonb_members l).
Proof.
  intros H. simpl. do 2 f_equal.
  induction H as [|[k v] r Hv _ IH]; [reflexivity|].
  simpl. rewrite IH. destruct v; try discriminate Hv; reflexivity.
Qed.

Lemma jsonb_flat_object j :
  flat_object j -> Permutation (members_of (jsonb j)) (members_of j).
Proof.
  intros (l & -> & Hnd & Hsc). rewrite (jsonb_scalar_object _ Hsc). simpl.
  by apply jsonb_members_perm.
Qed.

Lemma truthy_nonempty key : key <> "" -> truthy (Some key) = true.
Proof. intros H. simpl. by destruct (String.eqb_spec key ""). Qed.

(** A create-payment request with a key that fits its column, no cached
    answer and the answer 201 has created the payment: its body is a flat
    object and the idempotency record holds the jsonb form of that body
    for 24 hours. *)
Lemma create_payment_records_response st merchant_id key req env resp st1 :
  key <> "" ->
  (String.length key <= 255)%nat ->
  idempotency_hit st merchant_id (Some key) (e_db_now env) = None ->
  create_payment st merchant_id (Some key) req env = (resp, st1) ->
  status_code resp = 201 ->
  flat_object (body resp)
  /\ idempotency_keys st1 !! (key, merchant_id)
     = Some {| i_response := jsonb (body resp);
               i_expires_at := e_date_now env + 24 * 60 * 60 * 1000 |}.
Proof.
  intros Hkey Hlen Hhit Hcreate H201. pose proof (truthy_nonempty _ Hkey) as Ht.
  unfold create_payment, delete_idempotency_key in Hcreate. rewrite Hhit, Ht in Hcreate.
  cbv zeta in Hcreate. unfold pk_insert in Hcreate.
  change (default "" (Some key)) with key in Hcreate.
  rewrite (varchar_fits _ _ Hlen) in Hcreate.
  destruct (negb (truthy (order_id req)) || negb (truthy (method req)));
    [injection Hcreate as <- <-; discriminate H201|].
  destruct (select_scoped _ _ _ _) as [o|];
    [|injection Hcreate as <- <-; discriminate H201].
  destruct (negb (_ || _)); [injection Hcreate as <- <-; discriminate H201|].
  destruct (String.eqb _ "upi" && negb _) eqn:Hvpa;
    [injection Hcreate as <- <-; discriminate H201|].
  destruct (String.eqb _ "card" && _) eqn:Hcard;
    [injection Hcreate as <- <-; discriminate H201|].
  destruct (varchar_or_null 255 (vpa req)) as [stored_vpa|];
    [|injection Hcreate as <- <-; discriminate H201].
  destruct (payments _ !! e_paymentId env);
    [injection Hcreate as <- <-; discriminate H201|].
  cbn [idempotency_keys set_paymentQueue set_payments set_idempotency_keys] in Hcreate.
  rewrite lookup_delete_eq in Hcreate.
  injection Hcreate as <- <-.
  split; [|cbn [idempotency_keys set_idempotency_keys body]; apply lookup_insert_eq].
  cbn [body]. eexists. split; [reflexivity|].
  destruct (String.eqb (default "" (method req)) "upi") eqn:Hupi;
    destruct (String.eqb (default "" (method req)) "card") eqn:Hc;
    destruct (vpa req) as [v|]; try discriminate Hvpa;
    (split; [simpl; apply (bool_decide_unpack _); vm_compute; exact I
            | simpl; repeat constructor]).
Qed.

(** A request with the key of a record that has not expired is answered
    from the record and changes nothing. *)
Lemma create_payment_replays st merchant_id key record req env :
  key <> "" ->
  idempotency_keys st !! (key, merchant_id) = Some record ->
  e_db_now env < i_expires_at record ->
  create_payment st merchant_id (Some key) req env
  = ({| status_code := 201; body := i_response record |}, st).
Proof.
  intros Hkey Hrec Httl. unfold create_payment, delete_idempotency_key, idempotency_hit.
  rewrite (truthy_nonempty _ Hkey). change (default "" (Some key)) with key.
  rewrite Hrec. destruct (Z.ltb_spec (e_db_now env) (i_expires_at record)); [reflexivity | lia].
Qed.

(** The record of a key stays as it is up to a later request. *)
Lemma later_keeps_record merchant_id key record st1 st2 :
  key <> "" ->
  idempotency_keys st1 !! (key, merchant_id) = Some record ->
  later merchant_id key (i_expires_at record) st1 st2 ->
  idempotency_keys st2 !! (key, merchant_id) = Some record.
Proof.
  intros Hkey Hrec Hlater. induction Hlater as [st | st st' req env _ IH Httl | st st' st'' _ IH E].
  - exact Hrec.
  - specialize (IH Hrec). by rewrite (create_payment_replays _ _ _ _ _ _ Hkey IH Httl).
  - rewrite E. by apply IH.
Qed.

(** What comes between two requests with the key leaves the record alone:
    a create-payment request of another merchant or with another key, and
    every other handler and worker, which do not write the table. *)
Lemma create_payment_other_key st merchant_id key record mid' key' req env :
  idempotency_keys st !! (key, merchant_id) = Some record ->
  (default "" key', mid') <> (key, merchant_id) ->
  idempotency_keys (create_payment st mid' key' req env).2 !! (key, merchant_id)
  = Some record.
Proof.
  intros Hrec Hne. unfold create_payment, delete_idempotency_key.
  destruct (idempotency_hit st mid' key' (e_db_now env)); [exact Hrec|].
  cbv zeta.
  set (st0 := if truthy key' then _ else st).
  assert (H0 : idempotency_keys st0 !! (key, merchant_id) = Some record).
  { subst st0. destruct (truthy key'); [|exact Hrec]. simpl.
    by rewrite lookup_delete_ne. }
  clearbody st0. unfold pk_insert.
  destruct (negb _ || negb _); [exact H0|].
  destruct (select_scoped _ _ _ _) as [o|]; [|exact H0].
  destruct (negb (_ || _)); [exact H0|].
  destruct (String.eqb _ "upi" && negb _); [exact H0|].
  destruct (String.eqb _ "card" && _); [exact H0|].
  destruct (varchar_or_null 255 (vpa req)) as [stored_vpa|]; [|exact H0].
  destruct (payments st0 !! e_paymentId env); [exact H0|].
  destruct (truthy key'); [|exact H0].
  destruct (varchar 255 (default "" key')) as [stored_key|]; [|exact H0].
  cbn [idempotency_keys set_paymentQueue set_payments].
  destruct (idempotency_keys st0 !! (stored_key, mid')) eqn:Hl; [exact H0|].
  cbn [snd idempotency_keys set_idempotency_keys].
  rewrite lookup_insert_ne; [exact H0|]. intros [= -> ->]. congruence.
Qed.

Lemma other_operations_keep_idempotency_keys (hmac : string -> string -> string)
    (ax : json -> string) st :
  (forall mid req oid now,
     idempotency_keys (ApiMore.create_order st mid req oid now).2 = idempotency_keys st)
  /\ (forall mid pid now,
        idempotency_keys (capture_payment st mid pid now).2 = idempotency_keys st)
  /\ (forall mid pid req rid now,
        idempotency_keys (create_refund st mid pid req rid now).2 = idempotency_keys st)
  /\ (forall mid id db_now,
        idempotency_keys (retry_webhook st mid id db_now).2 = idempotency_keys st)
  /\ (forall mid url date_now,
        idempotency_keys (test_webhook st mid url date_now).2 = idempotency_keys st)
  /\ (forall mid url,
        idempotency_keys (ApiMore.update_webhook st mid url).2 = idempotency_keys st)
  /\ (forall mid rand,
        idempotency_keys (ApiMore.regenerate_secret st mid rand).2 = idempotency_keys st)
  /\ (forall cfg pid env,
        idempotency_keys (paymentWorker cfg st pid env).2 = idempotency_keys st)
  /\ (forall rid now date_now,
        idempotency_keys (WorkerMore.refundWorker st rid now date_now).2
        = idempotency_keys st)
  /\ (forall cfg post job env,
        idempotency_keys (d_state (webhookWorker hmac ax cfg post st job env))
        = idempotency_keys st).
Proof.
  repeat split; intros;
    unfold ApiMore.create_order, ApiMore.update_webhook, ApiMore.regenerate_secret,
      capture_payment, create_refund, retry_webhook,
      retry_webhook_update, test_webhook, paymentWorker, WorkerMore.refundWorker,
      webhookWorker, webhookWorker_start, webhookWorker_settle, get_or_create_log,
      enqueueWebhook, pk_insert;
    repeat match goal with
           | |- context [match ?x with _ => _ end] =>
               lazymatch x with
               | context [match _ with _ => _ end] => fail
               | _ => destruct x; simpl; try reflexivity
               end
           end.
Qed.

(** C5 (as the code has it). After a create-payment request with a
    non-empty key of at most 255 characters that created the payment (no
    cached answer, status 201), every later request of the merchant with
    that key before the record expires, 24 hours later, is answered 201
    with the stored response whatever its own body is, and changes nothing:
    in every state reached from the first answer by requests with this
    key, served one at a time, and by anything else, which leaves the
    record alone. The stored response is the jsonb form of the first body:
    the same members, in jsonb's order. *)
Theorem idempotent_replay_returns_stored st merchant_id key req env resp st1 :
  key <> "" ->
  (String.length key <= 255)%nat ->
  idempotency_hit st merchant_id (Some key) (e_db_now env) = None ->
  create_payment st merchant_id (Some key) req env = (resp, st1) ->
  status_code resp = 201 ->
  forall st2,
    later merchant_id key (e_date_now env + 24 * 60 * 60 * 1000) st1 st2 ->
    forall req2 env2,
      e_db_now env2 < e_date_now env + 24 * 60 * 60 * 1000 ->
      create_payment st2 merchant_id (Some key) req2 env2
      = ({| status_code := 201; body := jsonb (body resp) |}, st2)
      /\ Permutation (members_of (jsonb (body resp))) (members_of (body resp)).
Proof.
  intros Hkey Hlen Hhit Hcreate H201 st2 Hlater req2 env2 Httl.
  destruct (create_payment_records_response _ _ _ _ _ _ _ Hkey Hlen Hhit Hcreate H201)
    as (Hflat & Hrec).
  split; [|by apply jsonb_flat_object].
  pose proof (later_keeps_record _ _ _ _ _ Hkey Hrec Hlater) as Hrec2.
  by rewrite (create_payment_replays _ _ _ _ req2 env2 Hkey Hrec2 Httl).
Qed.

Lemma idempotent_replay_returns_stored_witness :
  let st2 := (paymentWorker Sample.test_mode Sample.first_call.2 "pay_K1"
                (Sample.roll (1 # 2))).2 in
  create_payment st2 Sample.merchant_a (Some "k1") (Sample.pay_request "other@bank")
    (Sample.at_time "pay_K3" "2024-01-15T10:05:02.000Z" 1705313102000)
  = ({| status_code := 201; body := jsonb (body Sample.first_call.1) |}, st2).
Proof.
  intros st2.
  refine (proj1 (idempotent_replay_returns_stored (Sample.shop Pending) Sample.merchant_a "k1"
                   (Sample.pay_request "a@bank")
                   (Sample.at_time "pay_K1" "2024-01-15T10:05:00.000Z" 1705313100000)
                   Sample.first_call.1 Sample.first_call.2
                   ltac:(discriminate) ltac:(vm_compute; lia) ltac:(vm_compute; reflexivity)
                   ltac:(vm_compute; reflexivity) ltac:(vm_compute; reflexivity)
                   st2 _
                   (Sample.pay_request "other@bank")
                   (Sample.at_time "pay_K3" "2024-01-15T10:05:02.000Z" 1705313102000)
                   ltac:(vm_compute; reflexivity))).
  apply (later_other _ _ _ _ Sample.first_call.2 st2); [apply later_now|].
  vm_compute. reflexivity.
Defined.

(** C5, refuted as stated: the same request is sent twice with the key
    [k1]; both answers are 201 for the payment [pay_K1], the second is the
    cached one, and their bodies differ byte for byte, because the members
    of the cached body come back in jsonb's order. *)
Lemma idempotent_replay_not_byte_identical :
  status_code Sample.first_call.1 = 201
  /\ status_code Sample.second_call.1 = 201
  /\ (members_of (body Sample.first_call.1)).*1
     = ["id"; "order_id"; "amount"; "currency"; "method"; "vpa"; "status"; "created_at"]
  /\ (members_of (body Sample.second_call.1)).*1
     = ["id"; "vpa"; "amount"; "method"; "status"; "currency"; "order_id"; "created_at"]
  /\ body_bytes Sample.first_call.1 <> body_bytes Sample.second_call.1.
Proof. vm_compute. repeat split. discriminate. Qed.

(** Nothing is recorded for a request that fails: a first request with the
    key and no [vpa] is answered 400, and the next one with the key is
    processed afresh and answered 201. *)
Lemma idempotency_key_of_failed_request_is_free :
  let failed := create_payment (Sample.shop Pending) Sample.merchant_a (Some "k1")
                  {| order_id := Some "order_X"; method := Some "upi"; vpa := None;
                     card_number := None; card_expiry := None; card_cvv := None |}
                  (Sample.at_time "pay_K0" "2024-01-15T10:04:00.000Z" 1705313040000) in
  status_code failed.1 = 400
  /\ status_code (create_payment failed.2 Sample.merchant_a (Some "k1")
                    (Sample.pay_request "a@bank")
                    (Sample.at_time "pay_K1" "2024-01-15T10:05:00.000Z" 1705313100000)).1
     = 201.
Proof. vm_compute. split; reflexivity. Qed.

(** Requests with the key must not overlap the first one: a request with
    the key that was being served when the first one stored its answer had
    found no record, and its [DELETE] then removes the record of the first;
    the next request with the key is processed afresh and creates a second
    payment. *)
Lemma overlapping_request_deletes_record :
  let st := delete_idempotency_key Sample.first_call.2 Sample.merchant_a (Some "k1") in
  let third := create_payment st Sample.merchant_a (Some "k1") (Sample.pay_request "a@bank")
                 (Sample.at_time "pay_K3" "2024-01-15T10:05:02.000Z" 1705313102000) in
  idempotency_keys st !! ("k1", Sample.merchant_a) = None
  /\ status_code third.1 = 201
  /\ is_Some (payments third.2 !! "pay_K1")
  /\ is_Some (payments third.2 !! "pay_K3").
Proof. vm_compute. repeat split; by eexists. Qed.

(** ** The bound on delivery attempts *)

Import System.













Section DeliverySystem.

Variable cfg : config.


End DeliverySystem.

Section Reachable.

Variable cfg : config.



Lemma steps_one sys sys' : step cfg sys sys' -> steps cfg sys sys'.
Proof. intros H. eapply steps_step; [exact H | apply steps_refl]. Qed.

Lemma steps_trans sys sys1 sys2 :
  steps cfg sys sys1 -> steps cfg sys1 sys2 -> steps cfg sys sys2.
Proof.
  intros H1 H2. induction H1 as [sys | sys sys' sys1 Hstep _ IH]; [exact H2|].
  eapply steps_step; [exact Hstep | by apply IH].
Qed.

End Reachable.

(** The operations of the repository are steps of the system: the
    handlers and the payment worker either leave the logs and the delivery
    queue alone or fan one event out; a run of the webhook worker and a
    manual retry, served with nothing in between, are their steps in a
    row. *)
Section Coverage.

Variable hmac : string -> string -> string.
Variable ax : json -> string.
Variable cfg : config.

Lemma enqueueWebhook_is_step merchantId event data date_now st acts :
  step cfg {| store := st; active := acts |}
    {| store := enqueueWebhook merchantId event data date_now st; active := acts |}.
Proof. by apply (step_fanout cfg {| store := st; active := acts |}). Qed.

Lemma test_webhook_is_step st acts merchant_id url date_now :
  step cfg {| store := st; active := acts |}
    {| store := (Api.test_webhook st merchant_id url date_now).2; active := acts |}.
Proof.
  unfold Api.test_webhook. destruct (negb (truthy url)); simpl.
  - by apply (step_other cfg {| store := st; active := acts |}).
  - by apply (step_fanout cfg {| store := st; active := acts |}).
Qed.

Lemma create_payment_is_step st acts merchant_id key req env :
  step cfg {| store := st; active := acts |}
    {| store := (Api.create_payment st merchant_id key req env).2; active := acts |}.
Proof.
  apply (step_other cfg {| store := st; active := acts |}); simpl;
    unfold Api.create_payment, Api.delete_idempotency_key, pk_insert;
    repeat match goal with
           | |- context [match ?x with _ => _ end] => destruct x; simpl; try reflexivity
           end.
Qed.

Lemma create_refund_is_step st acts merchant_id paymentId req refundId now :
  step cfg {| store := st; active := acts |}
    {| store := (Api.create_refund st merchant_id paymentId req refundId now).2;
       active := acts |}.
Proof.
  apply (step_other cfg {| store := st; active := acts |}); simpl;
    unfold Api.create_refund, pk_insert;
    repeat match goal with
           | |- context [match ?x with _ => _ end] => destruct x; simpl; try reflexivity
           end.
Qed.

Lemma capture_payment_is_step st acts merchant_id paymentId now :
  step cfg {| store := st; active := acts |}
    {| store := (Api.capture_payment st merchant_id paymentId now).2; active := acts |}.
Proof.
  apply (step_other cfg {| store := st; active := acts |}); simpl;
    unfold Api.capture_payment;
    repeat match goal with
           | |- context [match ?x with _ => _ end] => destruct x; simpl; try reflexivity
           end.
Qed.

(** A run of the payment worker is the update of the payment followed, when
    the merchant has an endpoint, by one fan-out. *)
Lemma paymentWorker_is_steps st acts paymentId env :
  steps cfg {| store := st; active := acts |}
    {| store := (paymentWorker cfg st paymentId env).2; active := acts |}.
Proof.
  unfold paymentWorker.
  destruct (payments st !! paymentId) as [p|]; [|apply steps_refl].
  destruct (merchants st !! p_merchant_id p) as [m|]; [|apply steps_refl].
  destruct (isSuccess cfg p (pw_random env)); destruct (truthy (m_webhook_url m)); simpl;
    match goal with
    | |- context [enqueueWebhook _ _ _ _ ?mid] =>
        apply (steps_step cfg _ {| store := mid; active := acts |});
          [by apply (step_other cfg {| store := st; active := acts |})
          |apply steps_one, enqueueWebhook_is_step]
    | |- _ =>
        apply steps_one; by apply (step_other cfg {| store := st; active := acts |})
    end.
Qed.

(** So is a run of the refund worker: the update of the refund, then one
    fan-out. *)
Lemma refundWorker_is_steps st acts refundId now date_now :
  steps cfg {| store := st; active := acts |}
    {| store := (WorkerMore.refundWorker st refundId now date_now).2; active := acts |}.
Proof.
  unfold WorkerMore.refundWorker.
  destruct (refunds st !! refundId) as [r|]; [|apply steps_refl].
  destruct (payments st !! r_payment_id r) as [p|]; [|apply steps_refl].
  destruct (merchants st !! r_merchant_id r) as [m|]; [|apply steps_refl].
  destruct (p_status p); try apply steps_refl.
  destruct (truthy (m_webhook_url m)); simpl.
  - match goal with
    | |- context [enqueueWebhook _ _ _ _ ?mid] =>
        apply (steps_step cfg _ {| store := mid; active := acts |});
          [by apply (step_other cfg {| store := st; active := acts |})
          |apply steps_one, enqueueWebhook_is_step]
    end.
  - apply steps_one. by apply (step_other cfg {| store := st; active := acts |}).
Qed.

(** Create-order and the two handlers of the merchant's webhook settings
    leave the logs and the delivery queue alone. *)
Lemma settings_are_steps st acts merchant_id :
  (forall req orderId now,
     step cfg {| store := st; active := acts |}
       {| store := (ApiMore.create_order st merchant_id req orderId now).2;
          active := acts |})
  /\ (forall url,
        step cfg {| store := st; active := acts |}
          {| store := (ApiMore.update_webhook st merchant_id url).2; active := acts |})
  /\ (forall rand,
        step cfg {| store := st; active := acts |}
          {| store := (ApiMore.regenerate_secret st merchant_id rand).2; active := acts |}).
Proof.
  repeat split; intros;
    apply (step_other cfg {| store := st; active := acts |}); simpl;
    unfold ApiMore.create_order, pk_insert;
    repeat match goal with
           | |- context [match ?x with _ => _ end] =>
               lazymatch x with
               | context [match _ with _ => _ end] => fail
               | _ => destruct x; simpl; try reflexivity
               end
           end; reflexivity.
Qed.



(** A manual retry of a log that is not worked on, served with nothing in
    between, is its update and its enqueue. *)
Lemma retry_webhook_is_steps st acts merchant_id webhookId db_now :
  (forall id, uuid_param (webhook_logs st) webhookId = Some id ->
              id ∉ engaged {| store := st; active := acts |}) ->
  steps cfg {| store := st; active := acts |}
    {| store := (Api.retry_webhook st merchant_id webhookId db_now).2; active := acts |}.
Proof.
  intros Hguard. unfold Api.retry_webhook.
  destruct (Api.retry_webhook_update st merchant_id webhookId db_now)
    as [answer | [st1 job]] eqn:Hupd; [apply steps_refl|]. simpl.
  eapply steps_step.
  { exact (step_retry cfg {| store := st; active := acts |} merchant_id webhookId db_now
             st1 job Hguard Hupd). }
  apply steps_one.
  pose proof (step_enqueue cfg {| store := st1; active := acts ++ [Enqueueing job 0] |}
                (length acts) job 0) as Henq.
  simpl in Henq. rewrite delete_middle, app_nil_r in Henq.
  apply Henq. by apply list_lookup_middle.
Qed.

End Coverage.





(** The same with no job queued at the time of the retry: after four
    failed deliveries the fifth run has taken the job and its request is
    out; the merchant retries the log by hand; the request fails and the
    run writes the count it read plus one, 5, and ['failed']; the job of
    the retry then fails and writes 6. *)
Lemma retry_during_request_exceeds_five :
  (match Sample.fifth_request_out with
   | Sent st f => webhookQueue st = [] /\ w_attempts <$> (snd <$> fl_log f) = Some 4
   | _ => False
   end)
  /\ w_status <$> webhook_logs Sample.retried_during_request
                   !! Sample.log_id = Some WFailed
  /\ w_attempts <$> webhook_logs Sample.retried_during_request
                     !! Sample.log_id = Some 6
  /\ webhookQueue Sample.retried_during_request = [].
Proof. vm_compute. repeat split. Qed.

(** * Further properties of the handlers and the workers *)

(** ** Identifiers *)

Lemma string_app_assoc (s1 s2 s3 : string) : (s1 +:+ s2) +:+ s3 = s1 +:+ (s2 +:+ s3).
Proof.
  induction s1 as [|c s1 IH]; [reflexivity|].
  change (String c ((s1 +:+ s2) +:+ s3) = String c (s1 +:+ (s2 +:+ s3))). by rewrite IH.
Qed.

Lemma string_app_nil_r (s : string) : s +:+ "" = s.
Proof.
  induction s as [|c s IH]; [reflexivity|].
  change (String c (s +:+ "") = String c s). by rewrite IH.
Qed.

Lemma string_length_app (s1 s2 : string) :
  String.length (s1 +:+ s2) = (String.length s1 + String.length s2)%nat.
Proof. induction s1 as [|c s1 IH]; simpl; [reflexivity | f_equal; exact IH]. Qed.

Lemma random_index_range (r : Q) :
  (0 <= r)%Q -> (r < 1)%Q -> 0 <= Ids.random_index r 62 < 62.
Proof.
  intros H0 H1. unfold Ids.random_index. split.
  - change 0 with (Qfloor 0). apply Qfloor_resp_le.
    apply Qmult_le_0_compat; [exact H0 | discriminate].
  - rewrite Zlt_Qlt. eapply Qle_lt_trans; [apply Qfloor_le|].
    apply (Qmult_lt_r r 1 (inject_Z 62)) in H1; [|reflexivity].
    rewrite Qmult_1_l in H1. exact H1.
Qed.

Lemma chars_get (n : nat) :
  (n < 62)%nat ->
  exists c, String.get n Ids.chars = Some c /\ Ids.alphanumeric c = true.
Proof.
  intros H.
  do 62 (destruct n as [|n]; [eexists; split; reflexivity|]). lia.
Qed.

Lemma charAt_chars (i : Z) :
  0 <= i < 62 ->
  exists c, Ids.charAt Ids.chars i = String c "" /\ Ids.alphanumeric c = true.
Proof.
  intros H. unfold Ids.charAt. destruct (Z.ltb_spec i 0); [lia|].
  destruct (chars_get (Z.to_nat i)) as (c & Hc & Ha); [lia|].
  rewrite Hc. eauto.
Qed.

(** The loop appends one alphanumeric character for each draw. *)
Lemma generate_loop_spec (rand : nat -> Q) count i result :
  (forall j, (i <= j < i + count)%nat -> (0 <= rand j)%Q /\ (rand j < 1)%Q) ->
  exists suffix,
    Ids.generate_loop count rand i result = result +:+ suffix
    /\ String.length suffix = count
    /\ forallb Ids.alphanumeric (String.list_ascii_of_string suffix) = true.
Proof.
  revert i result. induction count as [|k IH]; intros i result Hr.
  - exists "". by rewrite string_app_nil_r.
  - destruct (Hr i ltac:(lia)) as [H0 H1].
    destruct (charAt_chars _ (random_index_range _ H0 H1)) as (c & Hc & Ha).
    change (Ids.generate_loop (S k) rand i result)
      with (Ids.generate_loop k rand (S i)
              (result +:+ Ids.charAt Ids.chars (Ids.random_index (rand i) 62))).
    rewrite Hc.
    destruct (IH (S i) (result +:+ String c "")) as (suffix & Heq & Hlen & Hall).
    { intros j Hj. apply Hr. lia. }
    exists (String c suffix). rewrite Heq, string_app_assoc.
    split; [reflexivity|]. split; [simpl; by rewrite Hlen|].
    simpl. by rewrite Ha, Hall.
Qed.

(** X1. Whatever [Math.random()] returns (values in [0, 1)), each generator
    gives its prefix followed by exactly 16 alphanumeric characters, 24 for
    the webhook secret. *)
Theorem generated_ids_are_prefixed (rand : nat -> Q) :
  (forall j, (0 <= rand j)%Q /\ (rand j < 1)%Q) ->
  forall gen prefix count,
    (gen, prefix, count) ∈ [(Ids.generatePaymentId, "pay_", 16%nat);
                            (Ids.generateOrderId, "order_", 16%nat);
                            (Ids.generateRefundId, "rfnd_", 16%nat);
                            (Ids.generateWebhookSecret, "whsec_", 24%nat)] ->
    exists suffix,
      gen rand = prefix +:+ suffix
      /\ String.length suffix = count
      /\ forallb Ids.alphanumeric (String.list_ascii_of_string suffix) = true.
Proof.
  intros Hr gen prefix count Hin.
  repeat (apply elem_of_cons in Hin as [[= -> -> ->] | Hin];
          [apply generate_loop_spec; intros j _; apply Hr|]).
  inversion Hin.
Qed.

Lemma generated_ids_are_prefixed_witness :
  exists suffix,
    Ids.generatePaymentId (fun _ => (1 # 2)%Q) = "pay_" +:+ suffix
    /\ String.length suffix = 16%nat
    /\ forallb Ids.alphanumeric (String.list_ascii_of_string suffix) = true.
Proof.
  apply (generated_ids_are_prefixed (fun _ => (1 # 2)%Q)
           ltac:(intros j; split; [discriminate | reflexivity])
           Ids.generatePaymentId "pay_" 16%nat).
  apply elem_of_cons. by left.
Defined.

(** ** Authentication *)

Import ApiMore.

(** X2. The middleware lets a request through only with the id of a
    merchant whose key and secret are the two headers, both non-empty; any
    other request is answered 401. With [api_key] unique, the headers of a
    merchant's own row always let that merchant through. *)
Theorem authenticate_matches_credentials rows apiKey apiSecret :
  match authenticateMerchant rows apiKey apiSecret with
  | inr merchant_id =>
      exists c, c ∈ rows /\ c_merchant_id c = merchant_id
                /\ apiKey = Some (c_api_key c) /\ apiSecret = Some (c_api_secret c)
                /\ c_api_key c <> "" /\ c_api_secret c <> ""
  | inl r => status_code r = 401
  end
  /\ (forall c,
        c ∈ rows -> c_api_key c <> "" -> c_api_secret c <> "" ->
        (forall c', c' ∈ rows -> c_api_key c' = c_api_key c -> c' = c) ->
        authenticateMerchant rows (Some (c_api_key c)) (Some (c_api_secret c))
        = inr (c_merchant_id c)).
Proof.
  split.
  - unfold authenticateMerchant.
    destruct (negb (truthy apiKey) || negb (truthy apiSecret)) eqn:Hmiss; [reflexivity|].
    apply orb_false_iff in Hmiss as [Hk Hs].
    apply negb_false_iff in Hk, Hs.
    destruct apiKey as [k|]; [|discriminate]. destruct apiSecret as [s|]; [|discriminate].
    simpl in Hk, Hs. apply negb_true_iff in Hk, Hs.
    simpl. destruct (List.find _ rows) as [c|] eqn:Hfind; [|reflexivity].
    apply find_some in Hfind as [Hin Hmatch].
    apply andb_true_iff in Hmatch as [Hck Hcs].
    apply String.eqb_eq in Hck, Hcs. subst k s.
    exists c. repeat split; try reflexivity.
    + by apply list_elem_of_In.
    + intros E. rewrite E in Hk. discriminate.
    + intros E. rewrite E in Hs. discriminate.
  - intros c Hin Hk Hs Huniq. unfold authenticateMerchant.
    rewrite (truthy_nonempty _ Hk), (truthy_nonempty _ Hs). simpl.
    destruct (List.find _ rows) as [c'|] eqn:Hfind.
    + apply find_some in Hfind as [Hin' Hmatch].
      apply andb_true_iff in Hmatch as [Hck _]. apply String.eqb_eq in Hck.
      rewrite (Huniq c' ltac:(by apply list_elem_of_In) Hck). reflexivity.
    + exfalso. apply list_elem_of_In in Hin.
      pose proof (find_none _ _ Hfind c Hin) as Hno. simpl in Hno.
      by rewrite !String.eqb_refl in Hno.
Qed.

Lemma authenticate_matches_credentials_witness :
  authenticateMerchant
    [{| c_merchant_id := Sample.merchant_a; c_api_key := "key_test_abc123";
        c_api_secret := "secret_test_xyz789" |}]
    (Some "key_test_abc123") (Some "secret_test_xyz789")
  = inr Sample.merchant_a.
Proof.
  apply (proj2 (authenticate_matches_credentials _ None None)
           {| c_merchant_id := Sample.merchant_a; c_api_key := "key_test_abc123";
              c_api_secret := "secret_test_xyz789" |}).
  - apply elem_of_cons. by left.
  - discriminate.
  - discriminate.
  - intros c' Hin _. by apply list_elem_of_singleton in Hin.
Defined.

(** ** Orders *)

Import Api.





(** ** Payments *)

(** What create-payment does to the store when it finds no cached answer:
    it answers 201 after inserting one pending payment of the order's amount
    and adding one processing job, or it answers 400 or 500 and inserts and
    enqueues nothing, or it answers 500 after inserting and enqueueing,
    when the idempotency record cannot be written. It touches the
    idempotency records and nothing else. *)
Lemma create_payment_effect st merchant_id key req env :
  idempotency_hit st merchant_id key (e_db_now env) = None ->
  let result := create_payment st merchant_id key req env in
  payment_frame st result.2
  /\ (payment_created st merchant_id req env result \/ payment_rejected st result
      \/ payment_unrecorded st merchant_id req env result).
Proof.
  intros Hhit result. subst result. unfold create_payment, delete_idempotency_key.
  rewrite Hhit. cbv zeta.
  set (st0 := if truthy key then _ else st).
  assert (Hst0 : payment_frame st st0
                 /\ payments st0 = payments st /\ paymentQueue st0 = paymentQueue st).
  { subst st0. unfold payment_frame.
    destruct (truthy key); simpl; repeat split; reflexivity. }
  destruct Hst0 as (Hframe & Hp & Hpq).
  clearbody st0.
  assert (Hfail : forall r, (status_code r = 400 \/ status_code r = 500) ->
            payment_frame st (r, st0).2
            /\ (payment_created st merchant_id req env (r, st0)
                \/ payment_rejected st (r, st0)
                \/ payment_unrecorded st merchant_id req env (r, st0))).
  { intros r Hr'. split; [exact Hframe|]. right. left. by split. }
  destruct (negb (truthy (order_id req)) || negb (truthy (method req))) eqn:Hreq;
    [apply Hfail; by left|].
  apply orb_false_iff in Hreq as [Hoid Hmeth]. apply negb_false_iff in Hoid, Hmeth.
  destruct (order_id req) as [oid|] eqn:Eoid; [|discriminate].
  destruct (method req) as [meth|] eqn:Emeth; [|discriminate].
  change (default "" (Some oid)) with oid. change (default "" (Some meth)) with meth.
  destruct Hframe as (Hm & Ho & Hr & Hw & Hq & Hrq).
  rewrite Ho.
  destruct (select_scoped o_merchant_id (orders st) oid merchant_id) as [o|] eqn:Hsel;
    [|apply Hfail; by left].
  destruct (negb (String.eqb meth "upi" || String.eqb meth "card")) eqn:Hvalid;
    [apply Hfail; by left|].
  destruct (String.eqb meth "upi" && negb (truthy (vpa req))) eqn:Hvpa;
    [apply Hfail; by left|].
  destruct (String.eqb meth "card" && _) eqn:Hcard; [apply Hfail; by left|].
  destruct (varchar_or_null 255 (vpa req)) as [stored_vpa|] eqn:Hstored;
    [|apply Hfail; by right].
  unfold pk_insert. rewrite Hp.
  destruct (payments st !! e_paymentId env) eqn:Hfresh; [apply Hfail; by right|].
  assert (Hkind : (meth = "upi" /\ truthy (vpa req) = true)
                  \/ (meth = "card" /\ truthy (card_number req) = true)).
  { apply negb_false_iff, orb_true_iff in Hvalid as [Hu | Hc].
    - left. rewrite Hu in Hvpa. simpl in Hvpa. apply negb_false_iff in Hvpa.
      by apply String.eqb_eq in Hu.
    - right. rewrite Hc in Hcard. simpl in Hcard.
      apply orb_false_iff in Hcard as [Hcard _]. apply orb_false_iff in Hcard as [Hcard _].
      apply negb_false_iff in Hcard. by apply String.eqb_eq in Hc. }
  assert (Hok : forall r st1,
            status_code r = 201 \/ status_code r = 500 ->
            merchants st1 = merchants st0 -> orders st1 = orders st0 ->
            refunds st1 = refunds st0 -> webhook_logs st1 = webhook_logs st0 ->
            webhookQueue st1 = webhookQueue st0 -> refundQueue st1 = refundQueue st0 ->
            payments st1
            = <[e_paymentId env := new_payment merchant_id oid o meth req env]> (payments st) ->
            paymentQueue st1 = (paymentQueue st0 ++ [e_paymentId env])%list ->
            payment_frame st (r, st1).2
            /\ (payment_created st merchant_id req env (r, st1)
                \/ payment_rejected st (r, st1)
                \/ payment_unrecorded st merchant_id req env (r, st1))).
  { intros r st1 Hcode E1 E2 E3 E4 E5 E6 E7 E8.
    split; [unfold payment_frame; simpl; repeat split; congruence|].
    assert (Hstored' : exists oid0 o0 meth0,
              order_id req = Some oid0 /\ method req = Some meth0
              /\ select_scoped o_merchant_id (orders st) oid0 merchant_id = Some o0
              /\ ((meth0 = "upi" /\ truthy (vpa req) = true)
                  \/ (meth0 = "card" /\ truthy (card_number req) = true))
              /\ payments st !! e_paymentId env = None
              /\ payments (r, st1).2
                 = <[e_paymentId env := new_payment merchant_id oid0 o0 meth0 req env]>
                     (payments st)
              /\ paymentQueue (r, st1).2 = (paymentQueue st ++ [e_paymentId env])%list).
    { exists oid, o, meth. repeat split; try reflexivity; try assumption.
      simpl. by rewrite E8, Hpq. }
    destruct Hcode as [H201 | H500]; [left | right; right]; split; assumption. }
  assert (Hrow : forall cl cn,
            {| p_order_id := oid; p_merchant_id := merchant_id; p_amount := o_amount o;
               p_currency := o_currency o; p_method := meth; p_vpa := stored_vpa;
               p_card_last4 := cl; p_card_network := cn; p_status := Pending;
               p_captured := false; p_error_code := None; p_error_description := None;
               p_created_at := e_now env; p_updated_at := e_now env |}
            = {| p_order_id := oid; p_merchant_id := merchant_id; p_amount := o_amount o;
                 p_currency := o_currency o; p_method := meth;
                 p_vpa := default None (varchar_or_null 255 (vpa req));
                 p_card_last4 := cl; p_card_network := cn; p_status := Pending;
                 p_captured := false; p_error_code := None; p_error_description := None;
                 p_created_at := e_now env; p_updated_at := e_now env |})
    by (intros; by rewrite Hstored).
  destruct (truthy key) eqn:Hkey.
  - cbn [idempotency_keys set_paymentQueue set_payments].
    destruct (varchar 255 (default "" key)) as [stored_key|];
      [|apply Hok; [by right | reflexivity..| |reflexivity]; simpl; by rewrite Hrow].
    destruct (idempotency_keys st0 !! (stored_key, merchant_id));
      (apply Hok; [(by left) || (by right) | reflexivity..| |reflexivity];
       simpl; by rewrite Hrow).
  - apply Hok; [by left | reflexivity..| |reflexivity]. simpl. by rewrite Hrow.
Qed.

(** Whatever it answers, create-payment has stored the payment and queued
    its job, or has left the payments and their queue as they were. *)
Lemma create_payment_stores st merchant_id key req env :
  idempotency_hit st merchant_id key (e_db_now env) = None ->
  let result := create_payment st merchant_id key req env in
  payment_frame st result.2
  /\ ((exists oid o meth,
         order_id req = Some oid /\ method req = Some meth
         /\ select_scoped o_merchant_id (orders st) oid merchant_id = Some o
         /\ ((meth = "upi" /\ truthy (vpa req) = true)
             \/ (meth = "card" /\ truthy (card_number req) = true))
         /\ payments st !! e_paymentId env = None
         /\ payments result.2
            = <[e_paymentId env := new_payment merchant_id oid o meth req env]> (payments st)
         /\ paymentQueue result.2 = (paymentQueue st ++ [e_paymentId env])%list)
      \/ (payments result.2 = payments st /\ paymentQueue result.2 = paymentQueue st)).
Proof.
  intros Hhit result.
  destruct (create_payment_effect st merchant_id key req env Hhit)
    as (Hframe & [(_ & H) | [(_ & H) | (_ & H)]]); (split; [exact Hframe|]);
    [left | right | left]; exact H.
Qed.

(** X5. When create-payment finds no cached answer and answers 201, the
    payment it stored is pending, not captured, of the named order of the
    calling merchant and of that order's amount and currency; its id was
    free; one processing job for it is queued behind the others; the
    merchant reads it back; no other payment changes. When it answers
    400, no payment is stored and no job is queued. *)
Theorem create_payment_stores_pending st merchant_id key req env :
  idempotency_hit st merchant_id key (e_db_now env) = None ->
  let result := create_payment st merchant_id key req env in
  (status_code result.1 = 201 ->
     exists oid o p,
       order_id req = Some oid /\ orders st !! oid = Some o
       /\ o_merchant_id o = merchant_id
       /\ payments st !! e_paymentId env = None
       /\ payments result.2 !! e_paymentId env = Some p
       /\ p_status p = Pending /\ p_captured p = false
       /\ p_order_id p = oid /\ p_merchant_id p = merchant_id
       /\ p_amount p = o_amount o /\ p_currency p = o_currency o
       /\ paymentQueue result.2 = (paymentQueue st ++ [e_paymentId env])%list
       /\ status_code (get_payment result.2 merchant_id (e_paymentId env)) = 200
       /\ (forall other, other <> e_paymentId env ->
             payments result.2 !! other = payments st !! other))
  /\ (status_code result.1 = 400 ->
        payments result.2 = payments st /\ paymentQueue result.2 = paymentQueue st).
Proof.
  intros Hhit result.
  destruct (create_payment_effect st merchant_id key req env Hhit)
    as (_ & [(H201 & oid & o & meth & Ho & Hmeth & Hsel & _ & Hfresh & Hpay & Hq)
            | [(Hst & Hpay & Hq) | (H500 & _)]]);
    [fold result in H201, Hpay, Hq | fold result in Hst, Hpay, Hq | fold result in H500].
  3:{ split; intros E; rewrite H500 in E; discriminate. }
  - split; [|intros H400; rewrite H201 in H400; discriminate].
    intros _. apply select_scoped_Some in Hsel as [Hord Hown].
    exists oid, o, (new_payment merchant_id oid o meth req env).
    rewrite Hpay, lookup_insert_eq.
    repeat split; try reflexivity; try assumption.
    + unfold get_payment, select_scoped. rewrite Hpay, lookup_insert_eq. simpl.
      by rewrite String.eqb_refl.
    + intros other Hne. by rewrite lookup_insert_ne.
  - split; [|intros _; by split].
    intros H201. destruct Hst as [E|E]; rewrite E in H201; discriminate.
Qed.

Lemma create_payment_stores_pending_witness :
  paymentQueue Sample.first_call.2 = ["pay_K1"].
Proof.
  destruct (proj1 (create_payment_stores_pending (Sample.shop Pending) Sample.merchant_a
                     (Some "k1") (Sample.pay_request "a@bank")
                     (Sample.at_time "pay_K1" "2024-01-15T10:05:00.000Z" 1705313100000)
                     ltac:(vm_compute; reflexivity))
              ltac:(vm_compute; reflexivity))
    as (oid & o & p & _ & _ & _ & _ & _ & _ & _ & _ & _ & _ & _ & Hq & _).
  exact Hq.
Defined.

(** [slice(-4)] keeps the last four characters, or the whole string when
    it is shorter. *)
Lemma substring_suffix s : forall n m,
  (String.length s <= n + m)%nat ->
  exists pre, s = pre +:+ String.substring n m s
              /\ String.length pre = Nat.min n (String.length s).
Proof.
  induction s as [|c s IH]; intros n m H.
  - exists "". destruct n, m; by simpl.
  - destruct n as [|n].
    + exists "". split; [|reflexivity]. simpl in H. destruct m as [|m]; [lia|].
      destruct (IH 0%nat m ltac:(simpl; lia)) as (pre & Hpre & Hlen).
      simpl in Hlen. destruct pre; [|discriminate].
      change (s = String.substring 0 m s) in Hpre.
      change (String c s = String c (String.substring 0 m s)). by rewrite <- Hpre.
    + simpl in H. destruct (IH n m ltac:(lia)) as (pre & Hpre & Hlen).
      exists (String c pre). split; [|simpl; by rewrite Hlen].
      change (String c s = String c (pre +:+ String.substring n m s)). by rewrite <- Hpre.
Qed.

Lemma slice_last4_suffix s :
  exists pre, s = pre +:+ slice_last4 s
              /\ String.length (slice_last4 s) = Nat.min 4 (String.length s).
Proof.
  unfold slice_last4.
  destruct (substring_suffix s (String.length s - 4) 4 ltac:(lia)) as (pre & Hpre & Hlen).
  exists pre. split; [exact Hpre|].
  apply (f_equal String.length) in Hpre. rewrite string_length_app in Hpre. lia.
Qed.

Lemma prefix_one_char c s :
  String.prefix (String c "") s = true <-> String.get 0 s = Some c.
Proof.
  destruct s as [|c' s]; simpl; [split; discriminate|].
  destruct (ascii_dec c c') as [->|Hne].
  - split; [reflexivity | intros _; by destruct s].
  - split; [discriminate | intros [= E]; congruence].
Qed.

(** X6. Of the card details of a request, a created card payment keeps the
    last four characters of the number (all of it when shorter) and a
    network read off its first character: visa for 4, mastercard for 5,
    unknown for any other; a created UPI payment keeps neither. *)
Theorem create_payment_card_details st merchant_id key req env :
  idempotency_hit st merchant_id key (e_db_now env) = None ->
  let result := create_payment st merchant_id key req env in
  status_code result.1 = 201 ->
  exists p,
    payments result.2 !! e_paymentId env = Some p
    /\ ((p_method p = "upi" /\ p_card_last4 p = None /\ p_card_network p = None)
        \/ (p_method p = "card"
            /\ exists number pre last4 network,
                 card_number req = Some number
                 /\ p_card_last4 p = Some last4 /\ number = pre +:+ last4
                 /\ String.length last4 = Nat.min 4 (String.length number)
                 /\ p_card_network p = Some network
                 /\ (network = "visa" <-> String.get 0 number = Some "4"%char)
                 /\ (network = "mastercard" <-> String.get 0 number = Some "5"%char)
                 /\ (network = "visa" \/ network = "mastercard" \/ network = "unknown"))).
Proof.
  intros Hhit result H201.
  destruct (create_payment_effect st merchant_id key req env Hhit)
    as (_ & [(_ & oid & o & meth & _ & _ & _ & Hkind & _ & Hpay & _)
            | [(Hst & _) | (H500 & _)]]);
    [fold result in Hpay | fold result in Hst | fold result in H500].
  3:{ rewrite H500 in H201. discriminate. }
  2:{ destruct Hst as [E|E]; rewrite E in H201; discriminate. }
  exists (new_payment merchant_id oid o meth req env).
  rewrite Hpay, lookup_insert_eq. split; [reflexivity|].
  destruct Hkind as [[-> _] | [-> Hnum]]; [left; by repeat split|].
  right. split; [reflexivity|].
  unfold new_payment. cbn [p_card_last4 p_card_network String.eqb Ascii.eqb Bool.eqb].
  destruct (card_number req) as [number|]; [|discriminate].
  change (default "" (Some number)) with number.
  destruct (slice_last4_suffix number) as (pre & Hpre & Hlen).
  exists number, pre, (slice_last4 number), (card_network_of number).
  split; [reflexivity|]. split; [reflexivity|]. split; [exact Hpre|].
  split; [exact Hlen|]. split; [reflexivity|].
  unfold card_network_of, startsWith.
  pose proof (prefix_one_char "4" number) as H4.
  pose proof (prefix_one_char "5" number) as H5.
  destruct (String.prefix "4" number) eqn:E4.
  { apply proj1 in H4. specialize (H4 eq_refl).
    split; [tauto|]. split; [|by left]. split; [discriminate | congruence]. }
  destruct (String.prefix "5" number) eqn:E5.
  { apply proj1 in H5. specialize (H5 eq_refl).
    split; [split; [discriminate | congruence]|]. split; [tauto | right; by left]. }
  split; [split; [discriminate | intros E; apply H4 in E; discriminate]|].
  split; [split; [discriminate | intros E; apply H5 in E; discriminate]|].
  right; by right.
Qed.

Lemma create_payment_card_details_witness :
  exists p,
    payments SampleMore.card_call.2 !! "pay_C1" = Some p
    /\ p_card_last4 p = Some "1111" /\ p_card_network p = Some "visa".
Proof.
  destruct (create_payment_card_details (Sample.shop Pending) Sample.merchant_a None
              SampleMore.card_request
              (Sample.at_time "pay_C1" "2024-01-15T10:06:00.000Z" 1705313160000)
              ltac:(reflexivity) ltac:(vm_compute; reflexivity))
    as (p & Hp & _).
  exists p. split; [exact Hp|].
  vm_compute in Hp. injection Hp as <-. split; reflexivity.
Defined.

(** X7. A request whose key has an expired record is handled exactly as if
    the record were not there: same answer, same resulting store. *)
Theorem expired_record_is_ignored st merchant_id key req env record :
  key <> "" ->
  idempotency_keys st !! (key, merchant_id) = Some record ->
  i_expires_at record <= e_db_now env ->
  create_payment st merchant_id (Some key) req env
  = create_payment
      (set_idempotency_keys (delete (key, merchant_id) (idempotency_keys st)) st)
      merchant_id (Some key) req env.
Proof.
  intros Hkey Hrec Hexp. unfold create_payment, delete_idempotency_key, idempotency_hit.
  rewrite (truthy_nonempty _ Hkey). change (default "" (Some key)) with key.
  rewrite Hrec. cbn [idempotency_keys set_idempotency_keys].
  rewrite lookup_delete_eq.
  destruct (Z.ltb_spec (e_db_now env) (i_expires_at record)); [lia|].
  rewrite delete_delete_eq. reflexivity.
Qed.

Lemma expired_record_is_ignored_witness :
  status_code (create_payment SampleMore.shop_expired_key Sample.merchant_a (Some "k1")
                 (Sample.pay_request "a@bank")
                 (Sample.at_time "pay_K1" "2024-01-15T10:05:00.000Z" 1705313100000)).1
  = 201.
Proof.
  rewrite (expired_record_is_ignored SampleMore.shop_expired_key Sample.merchant_a "k1"
             (Sample.pay_request "a@bank")
             (Sample.at_time "pay_K1" "2024-01-15T10:05:00.000Z" 1705313100000)
             {| i_response := JObj [("id", JStr "pay_old")]; i_expires_at := 1705000000000 |}
             ltac:(discriminate) ltac:(vm_compute; reflexivity) ltac:(vm_compute; discriminate)).
  vm_compute. reflexivity.
Defined.

(** ** Consistency of the store *)

Import WorkerMore.

Ltac tables_case :=
  simpl; repeat (split; [reflexivity|]);
  first [reflexivity | left; reflexivity | right; reflexivity
         | right; left; reflexivity | right; right; reflexivity
         | left; split; [reflexivity | discriminate]].

Lemma store_consistent_alter_payment st st' pid f :
  store_consistent st ->
  orders st' = orders st -> refunds st' = refunds st ->
  payments st' = alter f pid (payments st) ->
  (forall p, p_order_id (f p) = p_order_id p /\ p_merchant_id (f p) = p_merchant_id p
             /\ p_amount (f p) = p_amount p /\ p_currency (f p) = p_currency p) ->
  store_consistent st'.
Proof.
  intros (Ho & Hp & Hr) Eo Er Ep Hf. unfold store_consistent. rewrite Eo, Er, Ep.
  split; [exact Ho|]. split.
  - intros id p Hlk. destruct (decide (pid = id)) as [<-|Hne].
    + rewrite lookup_alter_eq in Hlk. destruct (payments st !! pid) as [p0|] eqn:E; [|discriminate].
      injection Hlk as <-. destruct (Hf p0) as (-> & -> & -> & ->). by apply (Hp pid).
    + rewrite lookup_alter_ne in Hlk by done. by apply (Hp id).
  - intros rid r Hlk. destruct (Hr rid r Hlk) as (Hpos & p & Hpl & Hm).
    split; [exact Hpos|]. destruct (decide (pid = r_payment_id r)) as [E|Hne].
    + exists (f p). rewrite <- E, lookup_alter_eq. rewrite <- E in Hpl. rewrite Hpl.
      split; [reflexivity|]. destruct (Hf p) as (_ & -> & _). exact Hm.
    + exists p. by rewrite lookup_alter_ne.
Qed.

Lemma store_consistent_same st st' :
  store_consistent st ->
  orders st' = orders st -> payments st' = payments st -> refunds st' = refunds st ->
  store_consistent st'.
Proof. intros H Eo Ep Er. unfold store_consistent. by rewrite Eo, Ep, Er. Qed.

Lemma paymentWorker_tables cfg st pid env :
  let st' := (paymentWorker cfg st pid env).2 in
  orders st' = orders st /\ refunds st' = refunds st /\ merchants st' = merchants st
  /\ (payments st' = payments st
      \/ payments st' = alter (mark_success (pw_now env)) pid (payments st)
      \/ payments st' = alter (mark_failed (pw_now env)) pid (payments st)).
Proof.
  unfold paymentWorker.
  destruct (payments st !! pid) as [p|]; [|tables_case].
  destruct (merchants st !! p_merchant_id p) as [m|]; [|tables_case].
  destruct (isSuccess cfg p (pw_random env)); destruct (truthy (m_webhook_url m));
    tables_case.
Qed.

Lemma refundWorker_tables st rid now date_now :
  let st' := (refundWorker st rid now date_now).2 in
  orders st' = orders st /\ payments st' = payments st /\ merchants st' = merchants st
  /\ (refunds st' = refunds st
      \/ refunds st' = alter (mark_processed now) rid (refunds st)).
Proof.
  unfold refundWorker.
  destruct (refunds st !! rid) as [r|]; [|tables_case].
  destruct (payments st !! r_payment_id r) as [p|]; [|tables_case].
  destruct (merchants st !! r_merchant_id r) as [m|]; [|tables_case].
  destruct (p_status p); try tables_case.
  destruct (truthy (m_webhook_url m)); tables_case.
Qed.

Lemma capture_payment_tables st merchant_id pid now :
  let st' := (capture_payment st merchant_id pid now).2 in
  orders st' = orders st /\ refunds st' = refunds st
  /\ (payments st' = payments st
      \/ payments st' = alter (set_captured now) pid (payments st)).
Proof.
  unfold capture_payment.
  destruct (select_scoped p_merchant_id (payments st) pid merchant_id) as [p|];
    [|tables_case].
  destruct (p_status p); try tables_case. destruct (p_captured p); tables_case.
Qed.

Lemma create_order_consistent st merchant_id req orderId now :
  store_consistent st -> store_consistent (create_order st merchant_id req orderId now).2.
Proof.
  intros Hc. pose proof Hc as (Ho & Hp & Hr). unfold create_order, pk_insert.
  destruct (oq_amount req) as [amount|]; [|exact Hc].
  destruct ((amount =? 0) || (amount <=? 0)) eqn:Hbad; [exact Hc|].
  destruct (int4_max <? amount); [exact Hc|].
  destruct (varchar 10 (default "INR" (oq_currency req))) as [c|]; [|exact Hc].
  destruct (varchar_or_null 255 (oq_receipt req)) as [r|]; [|exact Hc].
  destruct (orders st !! orderId) eqn:Hfresh; [exact Hc|].
  apply orb_false_iff in Hbad as [_ Hbad]. apply Z.leb_gt in Hbad.
  split; [|split]; simpl.
  - intros oid o H. destruct (decide (orderId = oid)) as [<-|Hne].
    + rewrite lookup_insert_eq in H. injection H as <-. simpl. lia.
    + rewrite lookup_insert_ne in H by done. by apply (Ho oid).
  - intros pid p H. destruct (Hp pid p H) as (o & Hol & Hrest).
    exists o. split; [|exact Hrest]. rewrite lookup_insert_ne; [exact Hol|].
    intros E. rewrite E in Hfresh. congruence.
  - exact Hr.
Qed.

Lemma create_payment_consistent st merchant_id key req env :
  store_consistent st -> store_consistent (create_payment st merchant_id key req env).2.
Proof.
  intros Hc. pose proof Hc as (Ho & Hp & Hr).
  destruct (idempotency_hit st merchant_id key (e_db_now env)) as [cached|] eqn:Hhit.
  { unfold create_payment, delete_idempotency_key. rewrite Hhit. exact Hc. }
  destruct (create_payment_stores st merchant_id key req env Hhit)
    as ((_ & Eo & Er & _) & [(oid & o & meth & _ & _ & Hsel & _ & Hfresh & Hpay & _)
                             | (Hpay & _)]).
  2:{ by apply (store_consistent_same st). }
  apply select_scoped_Some in Hsel as [Hord Hown].
  unfold store_consistent. rewrite Eo, Er, Hpay. split; [exact Ho|]. split.
  - intros pid p H. destruct (decide (e_paymentId env = pid)) as [<-|Hne].
    + rewrite lookup_insert_eq in H. injection H as <-. exists o. by repeat split.
    + rewrite lookup_insert_ne in H by done. by apply (Hp pid).
  - intros rid r H. destruct (Hr rid r H) as (Hpos & p & Hpl & Hm).
    split; [exact Hpos|]. exists p. split; [|exact Hm].
    rewrite lookup_insert_ne; [exact Hpl|]. intros E. rewrite E in Hfresh. congruence.
Qed.

Lemma capture_payment_consistent st merchant_id pid now :
  store_consistent st -> store_consistent (capture_payment st merchant_id pid now).2.
Proof.
  intros Hc.
  destruct (capture_payment_tables st merchant_id pid now) as (Eo & Er & [Ep | Ep]).
  - by apply (store_consistent_same st).
  - by apply (store_consistent_alter_payment st _ pid (set_captured now)).
Qed.

(** The refund row create-refund inserts is of the calling merchant. *)
Lemma create_refund_tables st merchant_id pid req refundId now :
  let st' := (create_refund st merchant_id pid req refundId now).2 in
  orders st' = orders st /\ payments st' = payments st /\ merchants st' = merchants st
  /\ ((st' = st /\ status_code (create_refund st merchant_id pid req refundId now).1 <> 201)
      \/ exists payment amount,
           select_scoped p_merchant_id (payments st) pid merchant_id = Some payment
           /\ p_status payment = Success
           /\ rq_amount req = Some amount /\ 0 < amount
           /\ amount <= p_amount payment - total_refunded (refunds st) pid
           /\ refunds st !! refundId = None
           /\ refunds st'
              = <[refundId := {| r_payment_id := pid; r_merchant_id := merchant_id;
                                 r_amount := amount; r_reason := rq_reason req;
                                 r_status := RefundPending; r_created_at := now;
                                 r_processed_at := None |}]> (refunds st)
           /\ refundQueue st' = (refundQueue st ++ [refundId])%list
           /\ status_code (create_refund st merchant_id pid req refundId now).1 = 201).
Proof.
  unfold create_refund, pk_insert.
  destruct (select_scoped p_merchant_id (payments st) pid merchant_id) as [payment|] eqn:Hsel;
    [|tables_case].
  destruct (p_status payment) eqn:Hs; try tables_case.
  destruct (rq_amount req) as [amount|]; [|tables_case].
  destruct ((amount =? 0) || (amount <=? 0)) eqn:Hbad; [tables_case|].
  destruct (_ <? amount) eqn:Hav; [tables_case|].
  destruct (refunds st !! refundId) eqn:Hfresh; [tables_case|].
  simpl. repeat (split; [reflexivity|]). right.
  apply orb_false_iff in Hbad as [_ Hbad]. apply Z.leb_gt in Hbad. apply Z.ltb_ge in Hav.
  exists payment, amount. by repeat split.
Qed.

Lemma create_refund_consistent st merchant_id pid req refundId now :
  store_consistent st ->
  store_consistent (create_refund st merchant_id pid req refundId now).2.
Proof.
  intros Hc. pose proof Hc as (Ho & Hp & Hr).
  destruct (create_refund_tables st merchant_id pid req refundId now)
    as (Eo & Ep & _ & [[Er _] | (payment & amount & Hsel & _ & _ & Hpos & _ & Hfresh & Er & _)]).
  - by rewrite Er.
  - apply select_scoped_Some in Hsel as [Hpl Hown].
    unfold store_consistent. rewrite Eo, Ep, Er. split; [exact Ho|]. split; [exact Hp|].
    intros rid r H. destruct (decide (refundId = rid)) as [<-|Hne].
    + rewrite lookup_insert_eq in H. injection H as <-. simpl. split; [exact Hpos|].
      by exists payment.
    + rewrite lookup_insert_ne in H by done. by apply (Hr rid).
Qed.

Lemma paymentWorker_consistent cfg st pid env :
  store_consistent st -> store_consistent (paymentWorker cfg st pid env).2.
Proof.
  intros Hc.
  destruct (paymentWorker_tables cfg st pid env) as (Eo & Er & _ & [Ep | [Ep | Ep]]).
  - by apply (store_consistent_same st).
  - by apply (store_consistent_alter_payment st _ pid (mark_success (pw_now env))).
  - by apply (store_consistent_alter_payment st _ pid (mark_failed (pw_now env))).
Qed.

Lemma refundWorker_consistent st rid now date_now :
  store_consistent st -> store_consistent (refundWorker st rid now date_now).2.
Proof.
  intros Hc. pose proof Hc as (Ho & Hp & Hr).
  destruct (refundWorker_tables st rid now date_now) as (Eo & Ep & _ & [Er | Er]).
  - by apply (store_consistent_same st).
  - unfold store_consistent. rewrite Eo, Ep, Er. split; [exact Ho|]. split; [exact Hp|].
    intros id r H. destruct (decide (rid = id)) as [<-|Hne].
    + rewrite lookup_alter_eq in H. destruct (refunds st !! rid) as [r0|] eqn:E; [|discriminate].
      injection H as <-. simpl. by apply (Hr rid).
    + rewrite lookup_alter_ne in H by done. by apply (Hr id).
Qed.

(** X8. Every write of the API and of the workers keeps the store
    consistent: orders have a positive amount, every payment carries the
    merchant, amount and currency of an existing order, every refund has a
    positive amount and names a payment of its own merchant. *)
Theorem writes_keep_store_consistent st :
  store_consistent st ->
  (forall merchant_id req orderId now,
     store_consistent (create_order st merchant_id req orderId now).2)
  /\ (forall merchant_id key req env,
        store_consistent (create_payment st merchant_id key req env).2)
  /\ (forall merchant_id pid now,
        store_consistent (capture_payment st merchant_id pid now).2)
  /\ (forall merchant_id pid req refundId now,
        store_consistent (create_refund st merchant_id pid req refundId now).2)
  /\ (forall cfg pid env, store_consistent (paymentWorker cfg st pid env).2)
  /\ (forall rid now date_now, store_consistent (refundWorker st rid now date_now).2).
Proof.
  intros Hc.
  split; [intros; by apply create_order_consistent|].
  split; [intros; by apply create_payment_consistent|].
  split; [intros; by apply capture_payment_consistent|].
  split; [intros; by apply create_refund_consistent|].
  split; [intros; by apply paymentWorker_consistent|].
  intros; by apply refundWorker_consistent.
Qed.

Lemma shop_is_consistent s : store_consistent (Sample.shop s).
Proof.
  split; [|split].
  - intros oid o H. change (orders (Sample.shop s))
      with ({[ "order_X" := Sample.order_x ]} : gmap string order) in H.
    apply lookup_singleton_Some in H as [_ <-]. reflexivity.
  - intros pid p H. change (payments (Sample.shop s))
      with ({[ "pay_X" := Sample.pay_x s ]} : gmap string payment) in H.
    apply lookup_singleton_Some in H as [_ <-]. exists Sample.order_x.
    split; [vm_compute; reflexivity | by repeat split].
  - intros rid r H. change (refunds (Sample.shop s)) with (∅ : gmap string refund) in H.
    by rewrite lookup_empty in H.
Defined.

Lemma writes_keep_store_consistent_witness :
  store_consistent (paymentWorker Sample.production (Sample.shop Pending) "pay_X"
                      (Sample.roll (1 # 2))).2.
Proof.
  apply (writes_keep_store_consistent (Sample.shop Pending) (shop_is_consistent Pending)).
Defined.

(** ** Capture *)

(** X9. Capturing a successful, uncaptured payment of the merchant answers
    200 and sets [captured], leaving the status, the amount and every other
    payment as they were; a second capture is answered 400
    [BAD_REQUEST_ERROR] and changes nothing. A payment that is not
    successful is answered 400 and is not touched. *)
Theorem capture_payment_once st merchant_id pid now p :
  select_scoped p_merchant_id (payments st) pid merchant_id = Some p ->
  let result := capture_payment st merchant_id pid now in
  (p_status p = Success -> p_captured p = false ->
     status_code result.1 = 200
     /\ payments result.2 !! pid = Some (set_captured now p)
     /\ p_captured (set_captured now p) = true
     /\ p_status (set_captured now p) = Success
     /\ p_amount (set_captured now p) = p_amount p
     /\ (forall other, other <> pid -> payments result.2 !! other = payments st !! other)
     /\ (forall now', capture_payment result.2 merchant_id pid now'
                      = (error_response 400 "BAD_REQUEST_ERROR" "Payment already captured",
                         result.2)))
  /\ (p_status p <> Success ->
        result = (error_response 400 "BAD_REQUEST_ERROR" "Payment not in capturable state", st))
  /\ (p_status p = Success -> p_captured p = true ->
        result = (error_response 400 "BAD_REQUEST_ERROR" "Payment already captured", st)).
Proof.
  intros Hsel result.
  pose proof (select_scoped_Some _ _ _ _ _ Hsel) as [Hp Hown].
  assert (Hunf : result
                 = match p_status p with
                   | Success =>
                       if p_captured p
                       then (error_response 400 "BAD_REQUEST_ERROR" "Payment already captured",
                             st)
                       else (result.1,
                             set_payments (alter (set_captured now) pid (payments st)) st)
                   | _ => (error_response 400 "BAD_REQUEST_ERROR"
                             "Payment not in capturable state", st)
                   end
                 /\ (p_status p = Success -> p_captured p = false ->
                     status_code result.1 = 200)).
  { subst result. unfold capture_payment. rewrite Hsel.
    destruct (p_status p); [by split| |by split].
    destruct (p_captured p); by split. }
  clearbody result. destruct Hunf as [Hunf H200].
  split; [|split].
  - intros Hs Hc. rewrite Hs, Hc in Hunf. rewrite Hunf. cbn [fst snd].
    split; [by apply H200|]. cbn [payments set_payments].
    rewrite lookup_alter_eq, Hp. simpl.
    split; [reflexivity|]. split; [reflexivity|]. split; [exact Hs|].
    split; [reflexivity|]. split.
    + intros other Hne. by rewrite lookup_alter_ne.
    + intros now'. unfold capture_payment, select_scoped. cbn [payments set_payments].
      rewrite lookup_alter_eq, Hp. simpl. rewrite Hown, String.eqb_refl. simpl.
      rewrite Hs. reflexivity.
  - intros Hs. rewrite Hunf. destruct (p_status p); [reflexivity | contradiction | reflexivity].
  - intros Hs Hc. rewrite Hunf. by rewrite Hs, Hc.
Qed.

Lemma capture_payment_once_witness :
  status_code (capture_payment (Sample.shop Success) Sample.merchant_a "pay_X"
                 "2024-01-15T10:09:00.000Z").1 = 200.
Proof.
  exact (proj1 (proj1 (capture_payment_once (Sample.shop Success) Sample.merchant_a "pay_X"
                         "2024-01-15T10:09:00.000Z" (Sample.pay_x Success)
                         ltac:(vm_compute; reflexivity)) eq_refl eq_refl)).
Defined.




(** ** Refunds *)

(** X11. Create-refund answers 201 exactly when it records a refund: the
    payment is a successful one of the calling merchant, the amount is
    positive and within the available amount, and the generated id is free.
    The refund is then pending, one refund job is queued behind the others,
    its merchant reads it back and any other merchant is answered 404 for
    it. Any other answer leaves the whole state as it was. *)
Theorem create_refund_records_pending st merchant_id pid req refundId now :
  let result := create_refund st merchant_id pid req refundId now in
  (status_code result.1 = 201 ->
     exists payment amount,
       select_scoped p_merchant_id (payments st) pid merchant_id = Some payment
       /\ p_status payment = Success
       /\ rq_amount req = Some amount
       /\ 0 < amount <= p_amount payment - total_refunded (refunds st) pid
       /\ refunds st !! refundId = None
       /\ refundQueue result.2 = (refundQueue st ++ [refundId])%list
       /\ get_refund result.2 merchant_id refundId
          = {| status_code := 200;
               body := JObj [("id", JStr refundId); ("payment_id", JStr pid);
                             ("amount", JNum amount); ("reason", opt_json (rq_reason req));
                             ("status", JStr "pending"); ("created_at", JStr now)] |}
       /\ (forall other, other <> merchant_id ->
             get_refund result.2 other refundId
             = error_response 404 "NOT_FOUND" "Refund not found"))
  /\ (status_code result.1 <> 201 -> result.2 = st).
Proof.
  intros result.
  destruct (create_refund_tables st merchant_id pid req refundId now)
    as (_ & _ & _ & [[Hsame Hne]
                    | (payment & amount & Hsel & Hs & Ha & Hpos & Hav & Hfresh & Er & Hq & H201)]);
    fold result in Hsame || fold result in Er; fold result in Hne || fold result in Hq.
  - split; [intros H; contradiction | intros _; exact Hsame].
  - fold result in H201. split; [|intros H; contradiction].
    intros _. exists payment, amount. repeat split; try assumption.
    + unfold get_refund, select_scoped. rewrite Er, lookup_insert_eq. simpl.
      by rewrite String.eqb_refl.
    + intros other Hne. unfold get_refund, select_scoped. rewrite Er, lookup_insert_eq.
      simpl. destruct (String.eqb_spec merchant_id other); [congruence | reflexivity].
Qed.

Lemma create_refund_records_pending_witness :
  refundQueue (create_refund Sample.shop_refunded Sample.merchant_a "pay_X"
                 {| rq_amount := Some 30000; rq_reason := None |} "rfnd_2"
                 "2024-01-15T10:02:00.000Z").2 = ["rfnd_2"].
Proof.
  destruct (proj1 (create_refund_records_pending Sample.shop_refunded Sample.merchant_a "pay_X"
                     {| rq_amount := Some 30000; rq_reason := None |} "rfnd_2"
                     "2024-01-15T10:02:00.000Z") ltac:(vm_compute; reflexivity))
    as (payment & amount & _ & _ & _ & _ & _ & Hq & _).
  exact Hq.
Defined.

(** The sum of the refunds of a payment does not see a change of another
    column of a refund. *)
Lemma total_refunded_alter t rid f pid :
  (forall r, r_payment_id (f r) = r_payment_id r /\ r_amount (f r) = r_amount r) ->
  total_refunded (alter f rid t) pid = total_refunded t pid.
Proof.
  intros Hf. destruct (t !! rid) as [r|] eqn:Hr.
  - rewrite <- (insert_delete_id t rid r Hr) at 2.
    assert (alter f rid t = <[rid := f r]> (delete rid t)) as ->.
    { apply map_eq. intros j. destruct (decide (rid = j)) as [<-|Hne].
      - by rewrite lookup_alter_eq, lookup_insert_eq, Hr.
      - by rewrite lookup_alter_ne, lookup_insert_ne, lookup_delete_ne. }
    rewrite !total_refunded_insert by apply lookup_delete_eq.
    by destruct (Hf r) as [-> ->].
  - f_equal. apply map_eq. intros j. destruct (decide (rid = j)) as [<-|Hne].
    + by rewrite lookup_alter_eq, Hr.
    + by rewrite lookup_alter_ne.
Qed.

(** A payment that no refund names has nothing refunded. *)
Lemma total_refunded_unnamed t pid :
  (forall rid r, t !! rid = Some r -> r_payment_id r <> pid) ->
  total_refunded t pid = 0.
Proof.
  induction t as [|rid r t Hfresh IH] using map_ind; intros H.
  - unfold total_refunded. apply map_fold_empty.
  - rewrite total_refunded_insert by exact Hfresh.
    destruct (String.eqb_spec (r_payment_id r) pid) as [E|_].
    + exfalso. apply (H rid r); [apply lookup_insert_eq | exact E].
    + apply IH. intros rid' r' Hlk. apply (H rid' r').
      rewrite lookup_insert_ne; [exact Hlk | intros <-; congruence].
Qed.

(** X12. The refund worker returns without a change for a job that names no
    refund and for a refund whose payment is not successful. Otherwise it
    marks the refund processed at the clock reading, keeps its amount and
    every other refund, and fans out one [refund.processed] event when the
    merchant has a webhook URL, none when it has not. *)
Theorem refund_worker_processes st rid now date_now :
  (refunds st !! rid = None -> refundWorker st rid now date_now = (Completed, st))
  /\ (forall r p m,
        refunds st !! rid = Some r ->
        payments st !! r_payment_id r = Some p ->
        merchants st !! r_merchant_id r = Some m ->
        (p_status p <> Success -> refundWorker st rid now date_now = (Completed, st))
        /\ (p_status p = Success ->
            let st' := (refundWorker st rid now date_now).2 in
            exists r',
              refunds st' !! rid = Some r'
              /\ r_status r' = RefundProcessed /\ r_processed_at r' = Some now
              /\ r_amount r' = r_amount r /\ r_payment_id r' = r_payment_id r
              /\ (forall other, other <> rid -> refunds st' !! other = refunds st !! other)
              /\ (truthy (m_webhook_url m) = false -> webhookQueue st' = webhookQueue st)
              /\ (truthy (m_webhook_url m) = true ->
                  exists job,
                    webhookQueue st' = (webhookQueue st ++ [(job, 0)])%list
                    /\ webhookLogId job = None /\ merchantId job = r_merchant_id r
                    /\ event job = "refund.processed"))).
Proof.
  split.
  - intros H. unfold refundWorker. by rewrite H.
  - intros r p m Hr Hp Hm. unfold refundWorker. rewrite Hr, Hp, Hm. split.
    + intros Hs. destruct (p_status p); [reflexivity | contradiction | reflexivity].
    + intros Hs. rewrite Hs. cbv zeta.
      exists (mark_processed now r).
      destruct (truthy (m_webhook_url m)); simpl; rewrite lookup_alter_eq, Hr; simpl;
        (split; [reflexivity|]); (split; [reflexivity|]); (split; [reflexivity|]);
        (split; [reflexivity|]); (split; [reflexivity|]);
        (split; [intros other Hne; by rewrite lookup_alter_ne|]);
        (split; [intros E; try discriminate E; reflexivity|]);
        intros E; try discriminate E.
      eexists. split; [reflexivity|]. by repeat split.
Qed.

Lemma refund_worker_processes_witness :
  refundWorker (Sample.shop Pending) "rfnd_none" "2024-01-15T10:03:00.000Z" 1705312980000
  = (Completed, Sample.shop Pending).
Proof.
  exact (proj1 (refund_worker_processes (Sample.shop Pending) "rfnd_none"
                  "2024-01-15T10:03:00.000Z" 1705312980000) eq_refl).
Defined.

(** X13. With the store consistent and the refunds of every payment
    summing to at most its amount, the bound still holds after
    create-order, create-payment, capture and a run of the payment or of
    the refund worker, and after the insert of a create-refund request
    whose sum query still holds: no refund of the payment was inserted
    since the request read the sum, as is the case when the request is
    served alone. *)
Theorem writes_keep_refunds_within_amount st :
  store_consistent st ->
  refunds_within_amount st ->
  (forall merchant_id req orderId now,
     refunds_within_amount (create_order st merchant_id req orderId now).2)
  /\ (forall merchant_id key req env,
        refunds_within_amount (create_payment st merchant_id key req env).2)
  /\ (forall merchant_id pid now,
        refunds_within_amount (capture_payment st merchant_id pid now).2)
  /\ (forall merchant_id pid req refundId now st_sum payment amount,
        (forall current, payments st !! pid = Some current ->
                         p_amount current = p_amount payment) ->
        create_refund_amount st_sum pid payment req = inr amount ->
        total_refunded (refunds st) pid = total_refunded (refunds st_sum) pid ->
        refunds_within_amount
          (create_refund_insert st merchant_id pid req amount refundId now).2)
  /\ (forall merchant_id pid req refundId now,
        refunds_within_amount (create_refund st merchant_id pid req refundId now).2)
  /\ (forall cfg pid env, refunds_within_amount (paymentWorker cfg st pid env).2)
  /\ (forall rid now date_now, refunds_within_amount (refundWorker st rid now date_now).2).
Proof.
  intros (Ho & Hp & Hr) Hinv.
  assert (Halter : forall st' pid f,
            refunds st' = refunds st -> payments st' = alter f pid (payments st) ->
            (forall p, p_amount (f p) = p_amount p) -> refunds_within_amount st').
  { intros st' pid f Er Ep Hf id q H. rewrite Er. rewrite Ep in H.
    destruct (decide (pid = id)) as [<-|Hne].
    - rewrite lookup_alter_eq in H. destruct (payments st !! pid) as [p0|] eqn:E; [|discriminate].
      injection H as <-. rewrite Hf. by apply Hinv.
    - rewrite lookup_alter_ne in H by done. by apply Hinv. }
  assert (Hsame : forall st', refunds st' = refunds st -> payments st' = payments st ->
            refunds_within_amount st').
  { intros st' Er Ep id q H. rewrite Er. rewrite Ep in H. by apply Hinv. }
  split; [|split; [|split; [|split; [|split; [|split]]]]].
  - intros merchant_id req orderId now. apply Hsame;
      unfold create_order, pk_insert;
      repeat match goal with
             | |- context [match ?x with _ => _ end] => destruct x; simpl; try reflexivity
             end.
  - intros merchant_id key req env.
    destruct (idempotency_hit st merchant_id key (e_db_now env)) as [cached|] eqn:Hhit.
    { unfold create_payment, delete_idempotency_key. rewrite Hhit. exact Hinv. }
    destruct (create_payment_stores st merchant_id key req env Hhit)
      as ((_ & _ & Er & _) & [(oid & o & meth & _ & _ & Hsel & _ & Hfresh & Hpay & _)
                              | (Hpay & _)]); [|by apply Hsame].
    apply select_scoped_Some in Hsel as [Hord _].
    intros id q H. rewrite Er. rewrite Hpay in H.
    destruct (decide (e_paymentId env = id)) as [<-|Hne].
    + rewrite lookup_insert_eq in H. injection H as <-. simpl.
      rewrite total_refunded_unnamed; [specialize (Ho _ _ Hord); lia|].
      intros rid r Hlk E. destruct (Hr rid r Hlk) as (_ & p & Hpl & _). congruence.
    + rewrite lookup_insert_ne in H by done. by apply Hinv.
  - intros merchant_id pid now.
    destruct (capture_payment_tables st merchant_id pid now) as (_ & Er & [Ep | Ep]).
    + by apply Hsame.
    + by apply (Halter _ pid (set_captured now)).
  - intros merchant_id pid req refundId now st_sum payment amount Hsame' Hcheck Hsum.
    by apply (create_refund_insert_within st st_sum _ _ payment).
  - intros merchant_id pid req refundId now id q H.
    destruct (create_refund_tables st merchant_id pid req refundId now)
      as (_ & Ep & _ & [[Er _] | (payment & amount & Hsel & _ & _ & _ & Hav & Hfresh & Er & _)]).
    + rewrite Er in H |- *. by apply Hinv.
    + apply select_scoped_Some in Hsel as [Hpl _]. rewrite Ep in H. rewrite Er.
      rewrite total_refunded_insert by exact Hfresh. simpl.
      destruct (String.eqb_spec pid id) as [<-|_]; [|by apply Hinv].
      rewrite Hpl in H. injection H as <-. lia.
  - intros cfg pid env.
    destruct (paymentWorker_tables cfg st pid env) as (_ & Er & _ & [Ep | [Ep | Ep]]).
    + by apply Hsame.
    + by apply (Halter _ pid (mark_success (pw_now env))).
    + by apply (Halter _ pid (mark_failed (pw_now env))).
  - intros rid now date_now id q H.
    destruct (refundWorker_tables st rid now date_now) as (_ & Ep & _ & [Er | Er]);
      rewrite Ep in H; rewrite Er; [by apply Hinv|].
    rewrite total_refunded_alter; [by apply Hinv | by intros r].
Qed.

Lemma shop_refunded_is_consistent : store_consistent Sample.shop_refunded.
Proof.
  split; [|split].
  - intros oid o H. change (orders Sample.shop_refunded)
      with ({[ "order_X" := Sample.order_x ]} : gmap string order) in H.
    apply lookup_singleton_Some in H as [_ <-]. reflexivity.
  - intros pid p H. change (payments Sample.shop_refunded)
      with ({[ "pay_X" := Sample.pay_x Success ]} : gmap string payment) in H.
    apply lookup_singleton_Some in H as [_ <-]. exists Sample.order_x. by repeat split.
  - intros rid r H. change (refunds Sample.shop_refunded)
      with ({[ "rfnd_1" := {| r_payment_id := "pay_X"; r_merchant_id := Sample.merchant_a;
                              r_amount := 20000; r_reason := None;
                              r_status := RefundProcessed;
                              r_created_at := "2024-01-15T10:01:00.000Z";
                              r_processed_at := Some "2024-01-15T10:01:01.000Z" |} ]}
            : gmap string refund) in H.
    apply lookup_singleton_Some in H as [_ <-]. split; [reflexivity|].
    exists (Sample.pay_x Success). by split.
Defined.

Lemma writes_keep_refunds_within_amount_witness :
  refunds_within_amount
    (create_refund_insert Sample.shop_refunded Sample.merchant_a "pay_X"
       {| rq_amount := Some 30000; rq_reason := None |} 30000 "rfnd_2"
       "2024-01-15T10:02:00.000Z").2.
Proof.
  refine (proj1 (proj2 (proj2 (proj2
            (writes_keep_refunds_within_amount Sample.shop_refunded
               shop_refunded_is_consistent shop_refunded_within_amount))))
            Sample.merchant_a "pay_X" {| rq_amount := Some 30000; rq_reason := None |}
            "rfnd_2" "2024-01-15T10:02:00.000Z" Sample.shop_refunded (Sample.pay_x Success)
            30000 _ ltac:(vm_compute; reflexivity) eq_refl).
  intros current H. change (payments Sample.shop_refunded)
    with ({[ "pay_X" := Sample.pay_x Success ]} : gmap string payment) in H.
  apply lookup_singleton_Some in H as [_ <-]. reflexivity.
Defined.

(** ** The workers and the webhooks they queue *)

(** X14. A run of the payment worker on an existing payment queues nothing
    when the merchant has no webhook URL; when it has one, it queues, with
    no delay, exactly one job with no log id whose event is
    [payment.success] or [payment.failed] as the outcome written to the
    payment, and whose payload carries that event, the time in seconds and
    the payment's id, amount and new status. The [vpa] is sent only with a
    success, the error code only with a failure. *)
Theorem payment_worker_fans_out cfg st pid env p m :
  payments st !! pid = Some p ->
  merchants st !! p_merchant_id p = Some m ->
  let st' := (paymentWorker cfg st pid env).2 in
  let outcome := if isSuccess cfg p (pw_random env) then Success else Failed in
  (truthy (m_webhook_url m) = false -> webhookQueue st' = webhookQueue st)
  /\ (truthy (m_webhook_url m) = true ->
      exists job data,
        webhookQueue st' = (webhookQueue st ++ [(job, 0)])%list
        /\ webhookLogId job = None
        /\ merchantId job = p_merchant_id p
        /\ event job = "payment." +:+ payment_status_string outcome
        /\ payload job
           = JObj [("event", JStr (event job));
                   ("timestamp", JNum (pw_date_now env / 1000));
                   ("data", JObj [("payment", JObj data)])]
        /\ Receiver.member "id" (JObj data) = Some (JStr pid)
        /\ Receiver.member "amount" (JObj data) = Some (JNum (p_amount p))
        /\ Receiver.member "status" (JObj data)
           = Some (JStr (payment_status_string outcome))
        /\ Receiver.member "vpa" (JObj data)
           = (if truthy (p_vpa p) && isSuccess cfg p (pw_random env)
              then JStr <$> p_vpa p else None)
        /\ Receiver.member "error_code" (JObj data)
           = (if isSuccess cfg p (pw_random env) then None
              else Some (JStr "PAYMENT_FAILED"))).
Proof.
  intros Hp Hm st' outcome. subst st' outcome. unfold paymentWorker. rewrite Hp, Hm.
  destruct (isSuccess cfg p (pw_random env)); destruct (truthy (m_webhook_url m));
    (split; [intros E; try discriminate E; reflexivity | intros E; try discriminate E]).
  - eexists. eexists. split; [reflexivity|]. split; [reflexivity|]. split; [reflexivity|].
    split; [reflexivity|]. split; [reflexivity|]. split; [reflexivity|].
    split; [reflexivity|]. unfold truthy_member.
    destruct (truthy (p_vpa p)) eqn:Hv; [destruct (p_vpa p); [|discriminate Hv]|];
      repeat split; reflexivity.
  - eexists. eexists. rewrite andb_false_r. repeat split; reflexivity.
Qed.

Lemma payment_worker_fans_out_witness :
  exists job,
    webhookQueue (paymentWorker Sample.test_mode (Sample.shop Pending) "pay_X"
                    (Sample.roll (1 # 2))).2 = [(job, 0)]
    /\ event job = "payment.success".
Proof.
  destruct (proj2 (payment_worker_fans_out Sample.test_mode (Sample.shop Pending) "pay_X"
                     (Sample.roll (1 # 2)) (Sample.pay_x Pending) Sample.with_url
                     ltac:(vm_compute; reflexivity) ltac:(vm_compute; reflexivity))
             eq_refl) as (job & data & Hq & _ & _ & He & _).
  exists job. split; [exact Hq | exact He].
Defined.

Section WorkerEdges.

Variable hmac : string -> string -> string.
Variable ax : json -> string.

(** X15. The ids of a job are read as UUIDs. The webhook worker throws,
    with nothing sent and nothing changed, when the id of the merchant has
    not the form of a UUID; it returns without sending and without a
    change when that id names no merchant, or a merchant with no webhook
    URL. With a URL, a job whose log id has not the form of a UUID makes
    the run throw before anything is sent, with nothing changed; a job
    whose log id names no row has its request sent and then throws, with
    nothing written; a merchant with no secret makes the run throw before
    anything is sent, and for a job with no log id (and an event name that
    fits its column of 50 characters) the pending log created just before
    stays in the table, with no attempt counted and no job queued. *)
Theorem webhook_worker_skips_or_throws cfg post st job env :
  let run := webhookWorker hmac ax cfg post st job env in
  (uuid_param (merchants st) (merchantId job) = None
   -> run = {| d_result := Thrown; d_state := st; d_sent := None |})
  /\ (forall key,
        uuid_param (merchants st) (merchantId job) = Some key ->
        (merchants st !! key = None
         -> run = {| d_result := Completed; d_state := st; d_sent := None |})
        /\ (forall m,
              merchants st !! key = Some m ->
              (truthy (m_webhook_url m) = false
               -> run = {| d_result := Completed; d_state := st; d_sent := None |})
              /\ (truthy (m_webhook_url m) = true ->
                  (forall id,
                     webhookLogId job = Some id -> id <> "" ->
                     uuid_param (webhook_logs st) id = None ->
                     run = {| d_result := Thrown; d_state := st; d_sent := None |})
                  /\ (forall id log_id secret,
                        webhookLogId job = Some id -> id <> "" ->
                        uuid_param (webhook_logs st) id = Some log_id ->
                        webhook_logs st !! log_id = None ->
                        m_webhook_secret m = Some secret ->
                        run = {| d_result := Thrown; d_state := st;
                                 d_sent := Some (webhook_request hmac ax m secret job) |})
                  /\ (m_webhook_secret m = None ->
                      d_result run = Thrown /\ d_sent run = None
                      /\ webhookQueue (d_state run) = webhookQueue st
                      /\ (truthy (webhookLogId job) = false ->
                          (String.length (event job) <= 50)%nat ->
                          webhook_logs st !! ww_uuid env = None ->
                          exists w,
                            webhook_logs (d_state run)
                            = <[ww_uuid env := w]> (webhook_logs st)
                            /\ w_status w = WPending /\ w_attempts w = 0
                            /\ w_event w = event job))))).
Proof.
  intros run. subst run. unfold webhookWorker, webhookWorker_start. split.
  - intros ->. reflexivity.
  - intros key ->. split; [intros ->; reflexivity|].
    intros m ->. split; [intros ->; reflexivity|]. intros ->. simpl. split; [|split].
    + intros id Hid Hne Hlog. unfold get_or_create_log. rewrite Hid.
      assert (Ht : truthy (Some id) = true) by (by apply truthy_nonempty).
      rewrite Ht. simpl. rewrite Hlog. reflexivity.
    + intros id log_id secret Hid Hne Hkey Hlog Hs. unfold get_or_create_log. rewrite Hid.
      assert (Ht : truthy (Some id) = true) by (by apply truthy_nonempty).
      rewrite Ht. simpl. rewrite Hkey, Hlog, Hs. reflexivity.
    + intros Hs. unfold get_or_create_log, pk_insert.
      destruct (truthy (webhookLogId job)) eqn:Ht.
      * destruct (uuid_param (webhook_logs st) (default "" (webhookLogId job)));
          [rewrite Hs|]; repeat split; try reflexivity; intros E; discriminate E.
      * destruct (varchar 50 (event job)) as [stored_event|] eqn:Hev.
        2:{ repeat split; try reflexivity. intros _ Hlen.
            rewrite (varchar_fits _ _ Hlen) in Hev. discriminate. }
        destruct (webhook_logs st !! ww_uuid env) eqn:Hu.
        -- repeat split; try reflexivity. intros _ _ E; discriminate E.
        -- rewrite Hs. repeat split; try reflexivity. intros _ Hlen _.
           rewrite (varchar_fits _ _ Hlen) in Hev. injection Hev as <-. eexists.
           split; [reflexivity|]. repeat split; reflexivity.
Qed.

(** X16. A delivery that the endpoint accepts sets the log to [success],
    and a delivery that fails for the fifth time or more sets it to
    [failed]; both count the attempt, record the time, the status code (0
    when there was no response) and the body, and queue no further job. No
    other log changes. *)
Theorem webhook_terminal_outcomes cfg post st job env m secret st1 id log :
  merchants st !! merchantId job = Some m ->
  truthy (m_webhook_url m) = true ->
  m_webhook_secret m = Some secret ->
  get_or_create_log st job (ww_uuid env) = Some (st1, Some (id, log)) ->
  let run := webhookWorker hmac ax cfg post st job env in
  (forall other, other <> id ->
     webhook_logs (d_state run) !! other = webhook_logs st !! other)
  /\ (forall status data,
        post (webhook_request hmac ax m secret job) = Resolved status data ->
        d_result run = Completed
        /\ webhookQueue (d_state run) = webhookQueue st
        /\ exists w,
             webhook_logs (d_state run) !! id = Some w
             /\ w_status w = WSuccess
             /\ w_attempts w = w_attempts log + 1
             /\ w_last_attempt_at w = Some (ww_now env)
             /\ w_response_code w = Some status
             /\ w_response_body w = Some (String.substring 0 1000 (JSON_stringify data))
             /\ w_payload w = w_payload log)
  /\ (forall rs message,
        post (webhook_request hmac ax m secret job) = Rejected rs message ->
        4 <= w_attempts log ->
        d_result run = Completed
        /\ webhookQueue (d_state run) = webhookQueue st
        /\ exists w,
             webhook_logs (d_state run) !! id = Some w
             /\ w_status w = WFailed
             /\ w_attempts w = w_attempts log + 1
             /\ w_last_attempt_at w = Some (ww_now env)
             /\ w_response_code w = Some (default 0 rs)
             /\ w_response_body w = Some message
             /\ w_next_retry_at w = w_next_retry_at log).
Proof.
  intros Hm Hu Hs Hl run. subst run.
  rewrite (webhookWorker_ready hmac ax cfg post st job env m secret st1 id log Hm Hu Hs Hl).
  cbv zeta.
  destruct (get_or_create_log_found _ _ _ _ _ _ Hl) as (Hlog & Hq & _ & Hcase).
  assert (Hother : forall other, other <> id ->
            webhook_logs st1 !! other = webhook_logs st !! other).
  { intros other Hne.
    destruct Hcase as [(named & _ & _ & ->) | (_ & -> & _ & -> & _)]; [reflexivity|].
    by rewrite lookup_insert_ne. }
  split; [|split].
  - intros other Hne.
    destruct (post (webhook_request hmac ax m secret job)) as [status data | rs message];
      [|destruct (5 <=? w_attempts log + 1)]; simpl;
      (rewrite lookup_alter_ne by done); by apply Hother.
  - intros status data ->. simpl. split; [reflexivity|]. split; [exact Hq|].
    rewrite lookup_alter_eq, Hlog. simpl. eexists. repeat split; reflexivity.
  - intros rs message -> H4.
    destruct (5 <=? w_attempts log + 1) eqn:Hle; [|apply Z.leb_gt in Hle; lia]. simpl.
    split; [reflexivity|]. split; [exact Hq|].
    rewrite lookup_alter_eq, Hlog. simpl. eexists.
    split; [reflexivity|]. split; [reflexivity|]. split; [reflexivity|].
    split; [reflexivity|]. split; [by destruct rs|]. split; reflexivity.
Qed.

End WorkerEdges.

Lemma webhook_worker_skips_or_throws_witness :
  webhookWorker Sample.sample_hmac Sample.sample_scalar Sample.test_mode Sample.always_500
    (Sample.shop Success)
    {| webhookLogId := None; merchantId := "nobody"; event := "payment.success";
       payload := JObj [] |} (Sample.tick Sample.log_id)
  = {| d_result := Thrown; d_state := Sample.shop Success; d_sent := None |}
  /\ webhookWorker Sample.sample_hmac Sample.sample_scalar Sample.test_mode Sample.always_500
       (Sample.shop Success)
       {| webhookLogId := None; merchantId := "C2FFCD00-1D2C-4AF9-8C7E-7CC0CE491B33";
          event := "payment.success"; payload := JObj [] |}
       (Sample.tick Sample.log_id)
     = {| d_result := Completed; d_state := Sample.shop Success; d_sent := None |}
  /\ webhookWorker Sample.sample_hmac Sample.sample_scalar Sample.test_mode Sample.always_500
       (Sample.shop Success)
       {| webhookLogId := Some "log-9"; merchantId := Sample.merchant_a;
          event := "payment.success"; payload := JObj [] |}
       (Sample.tick Sample.log_id)
     = {| d_result := Thrown; d_state := Sample.shop Success; d_sent := None |}.
Proof.
  split; [|split].
  - exact (proj1 (webhook_worker_skips_or_throws Sample.sample_hmac Sample.sample_scalar
                    Sample.test_mode Sample.always_500 (Sample.shop Success)
                    {| webhookLogId := None; merchantId := "nobody";
                       event := "payment.success"; payload := JObj [] |}
                    (Sample.tick Sample.log_id))
             ltac:(vm_compute; reflexivity)).
  - exact (proj1 (proj2 (webhook_worker_skips_or_throws Sample.sample_hmac
                           Sample.sample_scalar Sample.test_mode Sample.always_500
                           (Sample.shop Success)
                           {| webhookLogId := None;
                              merchantId := "C2FFCD00-1D2C-4AF9-8C7E-7CC0CE491B33";
                              event := "payment.success"; payload := JObj [] |}
                           (Sample.tick Sample.log_id))
                    "c2ffcd00-1d2c-4af9-8c7e-7cc0ce491b33" ltac:(vm_compute; reflexivity))
             ltac:(vm_compute; reflexivity)).
  - exact (proj1 (proj2 (proj2 (proj2 (webhook_worker_skips_or_throws Sample.sample_hmac
                           Sample.sample_scalar Sample.test_mode Sample.always_500
                           (Sample.shop Success)
                           {| webhookLogId := Some "log-9"; merchantId := Sample.merchant_a;
                              event := "payment.success"; payload := JObj [] |}
                           (Sample.tick Sample.log_id))
                    Sample.merchant_a ltac:(vm_compute; reflexivity))
                    Sample.with_url ltac:(vm_compute; reflexivity))
                    ltac:(vm_compute; reflexivity))
             "log-9" eq_refl ltac:(discriminate) ltac:(vm_compute; reflexivity)).
Defined.

Lemma webhook_terminal_outcomes_witness :
  webhookQueue
    (d_state (webhookWorker Sample.sample_hmac Sample.sample_scalar Sample.test_mode
                (fun _ => Resolved 200 (JObj [("received", JBool true)]))
                (Sample.shop Success) Sample.event_job (Sample.tick Sample.log_id)))
  = [].
Proof.
  refine (proj1 (proj2 (proj1 (proj2
            (webhook_terminal_outcomes Sample.sample_hmac Sample.sample_scalar
               Sample.test_mode (fun _ => Resolved 200 (JObj [("received", JBool true)]))
               (Sample.shop Success) Sample.event_job (Sample.tick Sample.log_id)
               Sample.with_url "whsec_test_abc123" _ Sample.log_id _
               ltac:(vm_compute; reflexivity) ltac:(vm_compute; reflexivity)
               ltac:(vm_compute; reflexivity) ltac:(vm_compute; reflexivity)))
            200 (JObj [("received", JBool true)]) eq_refl))).
Defined.

(** ** The worker and the test merchant's receiver *)

Section ReceiverFacts.

Variable hmac : string -> string -> string.
Variable ax : json -> string.
Variable parse : string -> json.

(** X17. The receiver accepts what the gateway sends. For a payload that is
    an object, the request of the worker reaches [POST /webhook] with a
    signature the receiver verifies exactly when its own secret gives the
    same HMAC of the body as the merchant's [webhook_secret]: it then
    answers 200, records the webhook as valid, and the worker closes the
    log as [success] with code 200 and queues nothing. With a secret that
    gives another HMAC the receiver answers 401 and records the webhook as
    invalid, and the worker counts a failed attempt with code 401. A
    request with no signature header is answered 401. *)
Theorem receiver_accepts_gateway_signature cfg st job env m secret st1 id log members
    wsecret received ts :
  merchants st !! merchantId job = Some m ->
  truthy (m_webhook_url m) = true ->
  m_webhook_secret m = Some secret ->
  get_or_create_log st job (ww_uuid env) = Some (st1, Some (id, log)) ->
  payload job = JObj members ->
  let body := JSON_stringify (payload job) in
  let rq := webhook_request hmac ax m secret job in
  let answer := Receiver.post_webhook hmac parse wsecret received
                  (Some (rq_signature rq)) (rq_body rq) ts in
  let run := webhookWorker hmac ax cfg (Receiver.endpoint hmac parse wsecret received ts)
               st job env in
  d_sent run = Some rq
  /\ (hmac wsecret body = hmac secret body ->
      answer.1.1 = 200
      /\ (exists entry, answer.2 = (received ++ [JObj entry])%list
                        /\ Receiver.member "valid" (JObj entry) = Some (JBool true))
      /\ webhookQueue (d_state run) = webhookQueue st
      /\ exists w, webhook_logs (d_state run) !! id = Some w
                   /\ w_status w = WSuccess /\ w_response_code w = Some 200
                   /\ w_attempts w = w_attempts log + 1)
  /\ (hmac wsecret body <> hmac secret body ->
      answer.1.1 = 401
      /\ (exists entry, answer.2 = (received ++ [JObj entry])%list
                        /\ Receiver.member "valid" (JObj entry) = Some (JBool false))
      /\ exists w, webhook_logs (d_state run) !! id = Some w
                   /\ w_status w <> WSuccess /\ w_response_code w = Some 401
                   /\ w_response_body w = Some "Request failed with status code 401"
                   /\ w_attempts w = w_attempts log + 1)
  /\ (Receiver.post_webhook hmac parse wsecret received None (rq_body rq) ts).1.1 = 401.
Proof.
  intros Hm Hu Hs Hl Hobj body rq answer run.
  assert (Hbody : rq_body rq = body).
  { subst rq body. unfold webhook_request, axios_body. rewrite Hobj. reflexivity. }
  assert (Hsig : rq_signature rq = hmac secret body) by reflexivity.
  destruct (get_or_create_log_found _ _ _ _ _ _ Hl) as (Hlog & Hq & _).
  assert (Hrun : run = webhookWorker hmac ax cfg
                         (Receiver.endpoint hmac parse wsecret received ts) st job env)
    by reflexivity.
  rewrite (webhookWorker_ready hmac ax cfg _ st job env m secret st1 id log Hm Hu Hs Hl)
    in Hrun.
  cbv zeta in Hrun. fold rq in Hrun.
  assert (Hend : Receiver.endpoint hmac parse wsecret received ts rq
                 = Receiver.axios_settle answer.1) by reflexivity.
  rewrite Hend in Hrun. clearbody run.
  assert (Hans : answer
                 = Receiver.post_webhook hmac parse wsecret received
                     (Some (hmac secret body)) body ts).
  { subst answer. by rewrite Hbody, Hsig. }
  clearbody answer. unfold Receiver.post_webhook, Receiver.verifyWebhookSignature in Hans.
  split; [|split; [|split]].
  - rewrite Hrun. destruct (Receiver.axios_settle answer.1); [reflexivity|].
    by destruct (5 <=? w_attempts log + 1).
  - intros E. rewrite <- E, String.eqb_refl in Hans. rewrite Hans in Hrun |- *.
    cbn [fst snd]. split; [reflexivity|].
    split. { eexists. split; [reflexivity|].
             destruct (Receiver.member "event" (parse body));
               destruct (Receiver.member "data" (parse body)); reflexivity. }
    rewrite Hrun. unfold Receiver.axios_settle. cbn [fst snd]. simpl.
    split; [exact Hq|]. rewrite lookup_alter_eq, Hlog. simpl. eexists.
    repeat split; reflexivity.
  - intros E.
    destruct (String.eqb_spec (hmac secret body) (hmac wsecret body)) as [E'|_];
      [congruence|].
    rewrite Hans in Hrun |- *. cbn [fst snd]. split; [reflexivity|].
    split. { eexists. split; [reflexivity|].
             destruct (Receiver.member "event" (parse body)); reflexivity. }
    rewrite Hrun. unfold Receiver.axios_settle. cbn [fst snd].
    change ((200 <=? 401) && (401 <? 300)) with false. cbv iota.
    destruct (5 <=? w_attempts log + 1); simpl; rewrite lookup_alter_eq, Hlog; simpl;
      eexists; (split; [reflexivity|]); (split; [discriminate|]); repeat split; reflexivity.
  - reflexivity.
Qed.

End ReceiverFacts.

Lemma receiver_accepts_gateway_signature_witness :
  d_sent (webhookWorker Sample.sample_hmac Sample.sample_scalar Sample.test_mode
            (Receiver.endpoint Sample.sample_hmac (fun _ => JObj []) "whsec_test_abc123" []
               "2024-01-15T10:00:09.100Z")
            (Sample.shop Success) Sample.event_job (Sample.tick Sample.log_id))
  = Some (webhook_request Sample.sample_hmac Sample.sample_scalar Sample.with_url
            "whsec_test_abc123" Sample.event_job).
Proof.
  refine (proj1 (receiver_accepts_gateway_signature Sample.sample_hmac Sample.sample_scalar
                   (fun _ => JObj []) Sample.test_mode (Sample.shop Success) Sample.event_job
                   (Sample.tick Sample.log_id) Sample.with_url "whsec_test_abc123" _
                   Sample.log_id _ _
                   "whsec_test_abc123" [] "2024-01-15T10:00:09.100Z"
                   ltac:(vm_compute; reflexivity) ltac:(vm_compute; reflexivity)
                   ltac:(vm_compute; reflexivity) ltac:(vm_compute; reflexivity)
                   ltac:(reflexivity))).
Defined.

Section FailEndpoint.

Variable hmac : string -> string -> string.
Variable ax : json -> string.
Variable cfg : config.

(** The worker taking the last job of the queue. *)
Lemma deliver_last q job d post env st :
  webhookQueue st = (q ++ [(job, d)])%list ->
  deliver hmac ax cfg (length q) post env st
  = d_state (webhookWorker hmac ax cfg post (set_webhookQueue q st) job env).
Proof.
  intros H. unfold deliver, take_job. rewrite H.
  rewrite lookup_app_r by lia. rewrite Nat.sub_diag. simpl.
  by rewrite delete_middle, app_nil_r.
Qed.

(** The log of a job with no log id, and of a job that names a log. *)
Lemma get_or_create_log_fresh st job uuid :
  webhookLogId job = None ->
  (String.length (event job) <= 50)%nat ->
  webhook_logs st !! uuid = None ->
  exists row,
    get_or_create_log st job uuid
    = Some (set_webhook_logs (<[uuid := row]> (webhook_logs st)) st, Some (uuid, row))
    /\ w_attempts row = 0 /\ w_status row = WPending
    /\ (w_event row = event job
        /\ w_merchant_id row
           = default (merchantId job) (uuid_param (merchants st) (merchantId job))
        /\ w_payload row = jsonb (payload job)).
Proof.
  intros Hid Hlen Hfresh. unfold get_or_create_log, pk_insert.
  rewrite Hid, (varchar_fits _ _ Hlen), Hfresh. simpl.
  eexists. split; [reflexivity|]. repeat split; reflexivity.
Qed.

Lemma get_or_create_log_named st job uuid id w :
  webhookLogId job = Some id -> id <> "" ->
  webhook_logs st !! id = Some w ->
  get_or_create_log st job uuid = Some (st, Some (id, w)).
Proof.
  intros Hid Hne Hw. unfold get_or_create_log. rewrite Hid.
  assert (Ht : truthy (Some id) = true) by (by apply truthy_nonempty).
  rewrite Ht. simpl. by rewrite (uuid_param_found _ _ _ Hw), Hw.
Qed.

(** X18. An endpoint that fails twice and then accepts, as [POST
    /webhook/fail] of the receiver does from a counter at zero, gets an
    event (of a name that fits its column of 50 characters) on the third
    attempt. The first two runs leave one retry job for
    the log, delayed by the second and then the third interval; the third
    run closes the log as [success] with three attempts and code 200,
    leaves the queue as it was before the event, and the counter of the
    endpoint is back at zero. *)
Theorem fail_endpoint_third_attempt_succeeds st job m secret env1 env2 env3 :
  merchants st !! merchantId job = Some m ->
  truthy (m_webhook_url m) = true ->
  m_webhook_secret m = Some secret ->
  webhookLogId job = None ->
  (String.length (event job) <= 50)%nat ->
  ww_uuid env1 <> "" ->
  webhook_logs st !! ww_uuid env1 = None ->
  let id := ww_uuid env1 in
  let n := length (webhookQueue st) in
  let count1 := (Receiver.fail_endpoint 0).2 in
  let count2 := (Receiver.fail_endpoint count1).2 in
  let count3 := (Receiver.fail_endpoint count2).2 in
  let st1 := d_state (webhookWorker hmac ax cfg (fun _ => (Receiver.fail_endpoint 0).1)
                        st job env1) in
  let st2 := deliver hmac ax cfg n (fun _ => (Receiver.fail_endpoint count1).1) env2 st1 in
  let st3 := deliver hmac ax cfg n (fun _ => (Receiver.fail_endpoint count2).1) env3 st2 in
  let retry := {| webhookLogId := Some id; merchantId := merchantId job;
                  event := event job; payload := payload job |} in
  webhookQueue st1
  = (webhookQueue st ++ [(retry, nextRetryDelay (getRetryIntervals cfg) 1)])%list
  /\ webhookQueue st2
     = (webhookQueue st ++ [(retry, nextRetryDelay (getRetryIntervals cfg) 2)])%list
  /\ webhookQueue st3 = webhookQueue st
  /\ count3 = 0
  /\ exists w, webhook_logs st3 !! id = Some w
               /\ w_status w = WSuccess /\ w_attempts w = 3
               /\ w_response_code w = Some 200
               /\ w_event w = event job.
Proof.
  intros Hm Hu Hs Hid Hlen Hne Hfresh id n count1 count2 count3 st1 st2 st3 retry.
  change count1 with 1 in *. change count2 with 2 in *. change count3 with 0.
  clear count1 count2 count3.
  destruct (get_or_create_log_fresh st job id Hid Hlen Hfresh)
    as (row & Hl1 & Hatt & Hst & Hev & _).
  pose proof (webhookWorker_ready hmac ax cfg (fun _ => (Receiver.fail_endpoint 0).1)
                st job env1 m secret _ id row Hm Hu Hs Hl1) as H1.
  cbv zeta in H1.
  change (Receiver.fail_endpoint 0).1
    with (Rejected (Some 500) "Request failed with status code 500") in H1.
  cbv iota in H1. rewrite Hatt in H1. change (5 <=? 0 + 1) with false in H1. cbv iota in H1.
  change (0 + 1) with 1 in H1. apply (f_equal d_state) in H1.
  change (d_state (webhookWorker hmac ax cfg
                     (fun _ => Rejected (Some 500) "Request failed with status code 500")
                     st job env1)) with st1 in H1.
  cbn [d_state] in H1.
  assert (Hq1 : webhookQueue st1
                = (webhookQueue st ++ [(retry, nextRetryDelay (getRetryIntervals cfg) 1)])%list)
    by (rewrite H1; reflexivity).
  set (w1 := log_retry 1 (ww_now env1)
               (ww_date_now env1 + nextRetryDelay (getRetryIntervals cfg) 1) 500
               "Request failed with status code 500" row).
  assert (Hw1 : webhook_logs (set_webhookQueue (webhookQueue st) st1) !! id = Some w1).
  { rewrite H1. simpl. by rewrite lookup_alter_eq, lookup_insert_eq. }
  assert (Hm1 : merchants (set_webhookQueue (webhookQueue st) st1) !! merchantId retry
                = Some m) by (rewrite H1; exact Hm).
  assert (H2 : st2 = d_state (webhookWorker hmac ax cfg
                                (fun _ => (Receiver.fail_endpoint 1).1)
                                (set_webhookQueue (webhookQueue st) st1) retry env2))
    by exact (deliver_last _ _ _ (fun _ => (Receiver.fail_endpoint 1).1) env2 st1 Hq1).
  rewrite (webhookWorker_ready hmac ax cfg _ _ retry env2 m secret _ id w1 Hm1 Hu Hs
             (get_or_create_log_named _ retry _ id w1 eq_refl Hne Hw1)) in H2.
  cbv zeta in H2.
  change (Receiver.fail_endpoint 1).1
    with (Rejected (Some 500) "Request failed with status code 500") in H2.
  cbv iota in H2. change (w_attempts w1 + 1) with 2 in H2.
  change (5 <=? 2) with false in H2. cbv iota in H2. cbn [d_state] in H2.
  assert (Hq2 : webhookQueue st2
                = (webhookQueue st ++ [(retry, nextRetryDelay (getRetryIntervals cfg) 2)])%list)
    by (rewrite H2; reflexivity).
  set (w2 := log_retry 2 (ww_now env2)
               (ww_date_now env2 + nextRetryDelay (getRetryIntervals cfg) 2) 500
               "Request failed with status code 500" w1).
  assert (Hw2 : webhook_logs (set_webhookQueue (webhookQueue st) st2) !! id = Some w2).
  { rewrite H2. simpl. simpl in Hw1. by rewrite lookup_alter_eq, Hw1. }
  assert (Hm2 : merchants (set_webhookQueue (webhookQueue st) st2) !! merchantId retry
                = Some m) by (rewrite H2, H1; exact Hm).
  assert (H3 : st3 = d_state (webhookWorker hmac ax cfg
                                (fun _ => (Receiver.fail_endpoint 2).1)
                                (set_webhookQueue (webhookQueue st) st2) retry env3))
    by exact (deliver_last _ _ _ (fun _ => (Receiver.fail_endpoint 2).1) env3 st2 Hq2).
  rewrite (webhookWorker_ready hmac ax cfg _ _ retry env3 m secret _ id w2 Hm2 Hu Hs
             (get_or_create_log_named _ retry _ id w2 eq_refl Hne Hw2)) in H3.
  cbv zeta in H3.
  change (Receiver.fail_endpoint 2).1 with (Resolved 200 (JObj [("received", JBool true)]))
    in H3.
  cbv iota in H3. cbn [d_state] in H3.
  split; [exact Hq1|]. split; [exact Hq2|]. split; [rewrite H3; reflexivity|].
  split; [reflexivity|].
  rewrite H3. cbn [webhook_logs set_webhook_logs]. rewrite lookup_alter_eq, Hw2. simpl.
  eexists. split; [reflexivity|]. split; [reflexivity|]. split; [reflexivity|].
  split; [reflexivity|]. exact Hev.
Qed.

End FailEndpoint.

Lemma fail_endpoint_third_attempt_succeeds_witness :
  webhookQueue
    (deliver Sample.sample_hmac Sample.sample_scalar Sample.test_mode 0
       (fun _ => (Receiver.fail_endpoint 2).1) (Sample.tick "")
       (deliver Sample.sample_hmac Sample.sample_scalar Sample.test_mode 0
          (fun _ => (Receiver.fail_endpoint 1).1) (Sample.tick "")
          (d_state (webhookWorker Sample.sample_hmac Sample.sample_scalar Sample.test_mode
                      (fun _ => (Receiver.fail_endpoint 0).1) (Sample.shop Success)
                      Sample.event_job (Sample.tick Sample.log_id)))))
  = [].
Proof.
  exact (proj1 (proj2 (proj2
           (fail_endpoint_third_attempt_succeeds Sample.sample_hmac Sample.sample_scalar
              Sample.test_mode (Sample.shop Success) Sample.event_job Sample.with_url
              "whsec_test_abc123" (Sample.tick Sample.log_id) (Sample.tick "") (Sample.tick "")
              ltac:(vm_compute; reflexivity) ltac:(vm_compute; reflexivity)
              ltac:(vm_compute; reflexivity) ltac:(reflexivity) ltac:(vm_compute; lia)
              ltac:(discriminate) ltac:(vm_compute; reflexivity))))).
Defined.

(** ** Manual retry and the merchant's webhook settings *)

Section Settings.

Variable hmac : string -> string -> string.
Variable ax : json -> string.
Variable cfg : config.

(** X19. Retrying a log of the merchant answers 200, sets the log back to
    [pending] with no attempts, keeps its event, payload and last response,
    touches no other log and queues one job for it with no delay. Whatever
    the count was before, the delivery of that job is counted as attempt 1:
    it closes the log as [success], or leaves it [pending] with a retry
    queued after the second interval. *)
Theorem retry_webhook_restarts_log st merchant_id webhookId db_now w :
  select_scoped w_merchant_id (webhook_logs st) webhookId merchant_id = Some w ->
  let result := retry_webhook st merchant_id webhookId db_now in
  let job := {| webhookLogId := Some webhookId; merchantId := merchant_id;
                event := w_event w; payload := w_payload w |} in
  status_code result.1 = 200
  /\ (exists w0, webhook_logs result.2 !! webhookId = Some w0
                 /\ w_status w0 = WPending /\ w_attempts w0 = 0
                 /\ w_next_retry_at w0 = Some db_now
                 /\ w_event w0 = w_event w /\ w_payload w0 = w_payload w
                 /\ w_response_code w0 = w_response_code w)
  /\ (forall other, other <> webhookId ->
        webhook_logs result.2 !! other = webhook_logs st !! other)
  /\ webhookQueue result.2 = (webhookQueue st ++ [(job, 0)])%list
  /\ (forall post env m secret,
        webhookId <> "" ->
        merchants st !! merchant_id = Some m ->
        truthy (m_webhook_url m) = true ->
        m_webhook_secret m = Some secret ->
        let st' := deliver hmac ax cfg (length (webhookQueue st)) post env result.2 in
        exists w1,
          webhook_logs st' !! webhookId = Some w1 /\ w_attempts w1 = 1
          /\ ((w_status w1 = WSuccess /\ webhookQueue st' = webhookQueue st)
              \/ (w_status w1 = WPending
                  /\ webhookQueue st'
                     = (webhookQueue st
                        ++ [(job, nextRetryDelay (getRetryIntervals cfg) 1)])%list))).
Proof.
  intros Hsel result job.
  pose proof (select_scoped_Some _ _ _ _ _ Hsel) as [Hw Hown].
  assert (Hres : result
                 = (result.1,
                    webhookQueue_add job 0
                      (set_webhook_logs (alter (reset_log db_now) webhookId (webhook_logs st))
                         st))
                   /\ status_code result.1 = 200).
  { subst result. unfold retry_webhook, retry_webhook_update.
    rewrite (uuid_param_found _ _ _ Hw), Hsel. split; reflexivity. }
  clearbody result. destruct Hres as [Hres H200]. rewrite Hres. cbn [snd].
  split; [exact H200|]. split.
  { simpl. rewrite lookup_alter_eq, Hw. simpl. eexists. repeat split; reflexivity. }
  split. { intros other Hne. simpl. by rewrite lookup_alter_ne. }
  split; [reflexivity|].
  intros post env m secret Hne Hm Hu Hs.
  rewrite (deliver_last hmac ax cfg (webhookQueue st) job 0 post env
             (webhookQueue_add job 0
                (set_webhook_logs (alter (reset_log db_now) webhookId (webhook_logs st)) st))
             eq_refl).
  set (st0 := set_webhookQueue (webhookQueue st) _).
  assert (Hw0 : webhook_logs st0 !! webhookId = Some (reset_log db_now w)).
  { subst st0. simpl. by rewrite lookup_alter_eq, Hw. }
  rewrite (webhookWorker_ready hmac ax cfg post st0 job env m secret st0 webhookId
             (reset_log db_now w) Hm Hu Hs
             (get_or_create_log_named st0 job _ webhookId _ eq_refl Hne Hw0)).
  cbv zeta. destruct (post _) as [status data | rs message].
  - simpl. rewrite lookup_alter_eq. simpl in Hw0. rewrite Hw0. simpl. eexists.
    split; [reflexivity|]. split; [reflexivity|]. left. split; reflexivity.
  - change (w_attempts (reset_log db_now w) + 1) with 1.
    change (5 <=? 1) with false. cbv iota. simpl. rewrite lookup_alter_eq.
    simpl in Hw0. rewrite Hw0. simpl. eexists.
    split; [reflexivity|]. split; [reflexivity|]. right. split; reflexivity.
Qed.

(** X20. A retried webhook carries the payload as the log stores it. For an
    event (of a name that fits its column of 50 characters) fanned out by
    [enqueueWebhook] and delivered once, with any outcome, the job of a manual retry has the payload in the order of the
    JSONB column, [data], [event], [timestamp], where the first delivery
    had [event], [timestamp], [data]. *)
Theorem retry_sends_stored_payload st mid ev data date_now post env db_now m secret :
  merchants st !! mid = Some m ->
  truthy (m_webhook_url m) = true ->
  m_webhook_secret m = Some secret ->
  (String.length ev <= 50)%nat ->
  webhook_logs st !! ww_uuid env = None ->
  let n := length (webhookQueue st) in
  let st0 := enqueueWebhook mid ev data date_now st in
  let st1 := deliver hmac ax cfg n post env st0 in
  let result := retry_webhook st1 mid (ww_uuid env) db_now in
  (exists first, webhookQueue st0 = (webhookQueue st ++ [(first, 0)])%list
                 /\ payload first
                    = JObj [("event", JStr ev); ("timestamp", JNum (date_now / 1000));
                            ("data", data)])
  /\ status_code result.1 = 200
  /\ exists again,
       last (webhookQueue result.2) = Some (again, 0)
       /\ webhookLogId again = Some (ww_uuid env)
       /\ event again = ev
       /\ payload again
          = JObj [("data", jsonb data); ("event", JStr ev);
                  ("timestamp", JNum (date_now / 1000))].
Proof.
  intros Hm Hu Hs Hlen Hfresh n st0 st1 result.
  split. { eexists. split; reflexivity. }
  set (first := {| webhookLogId := None; merchantId := mid; event := ev;
                   payload := JObj [("event", JStr ev);
                                    ("timestamp", JNum (date_now / 1000));
                                    ("data", data)] |}).
  assert (H1 : st1 = d_state (webhookWorker hmac ax cfg post
                                (set_webhookQueue (webhookQueue st) st0) first env))
    by exact (deliver_last hmac ax cfg (webhookQueue st) first 0 post env st0 eq_refl).
  destruct (get_or_create_log_fresh (set_webhookQueue (webhookQueue st) st0) first
              (ww_uuid env) eq_refl Hlen Hfresh) as (row & Hl & _ & _ & Hev & Hown & Hpay).
  change (w_event row = ev) in Hev.
  change (w_merchant_id row = default mid (uuid_param (merchants st) mid)) in Hown.
  rewrite (uuid_param_found _ _ _ Hm) in Hown. simpl in Hown.
  change (w_payload row
          = JObj [("data", jsonb data); ("event", JStr ev);
                  ("timestamp", JNum (date_now / 1000))]) in Hpay.
  rewrite (webhookWorker_ready hmac ax cfg post (set_webhookQueue (webhookQueue st) st0)
             first env m secret _ (ww_uuid env) row Hm Hu Hs Hl) in H1.
  cbv zeta in H1.
  assert (Hlog : exists w, webhook_logs st1 !! ww_uuid env = Some w
                           /\ w_merchant_id w = mid /\ w_event w = ev
                           /\ w_payload w = w_payload row).
  { rewrite H1. destruct (post _) as [status data' | rs message];
      [|destruct (5 <=? w_attempts row + 1)]; simpl;
      rewrite lookup_alter_eq, lookup_insert_eq; simpl; eexists;
      (split; [reflexivity|]); repeat split; assumption. }
  clearbody st1. destruct Hlog as (w & Hw & Hwown & Hwev & Hwpay).
  subst result. unfold retry_webhook, retry_webhook_update, select_scoped.
  rewrite (uuid_param_found _ _ _ Hw), Hw, Hwown, String.eqb_refl.
  split; [reflexivity|]. cbn [snd]. eexists. split.
  { unfold webhookQueue_add. cbn [webhookQueue set_webhookQueue]. apply last_snoc. }
  cbn [webhookLogId event payload]. by rewrite Hwev, Hwpay, Hpay.
Qed.


(** X22. Regenerating the secret stores the secret it answers with, keeps
    the URL and every other merchant, and the next requests for the
    merchant are signed with the new secret; a merchant that had no secret
    gets its deliveries sent from then on (for a job with no log id and an
    event name that fits its column of 50 characters). *)
Theorem regenerate_secret_signs_next st merchant_id rand m :
  merchants st !! merchant_id = Some m ->
  let result := regenerate_secret st merchant_id rand in
  exists newSecret,
    body result.1 = JObj [("webhook_secret", JStr newSecret)]
    /\ merchants result.2 !! merchant_id
       = Some {| m_webhook_url := m_webhook_url m; m_webhook_secret := Some newSecret |}
    /\ (forall other, other <> merchant_id ->
          merchants result.2 !! other = merchants st !! other)
    /\ (forall post job env rq,
          merchantId job = merchant_id ->
          d_sent (webhookWorker hmac ax cfg post result.2 job env) = Some rq ->
          rq_signature rq = hmac newSecret (JSON_stringify (payload job)))
    /\ (forall post job env,
          merchantId job = merchant_id ->
          truthy (m_webhook_url m) = true ->
          webhookLogId job = None ->
          (String.length (event job) <= 50)%nat ->
          webhook_logs st !! ww_uuid env = None ->
          is_Some (d_sent (webhookWorker hmac ax cfg post result.2 job env))).
Proof.
  intros Hm result. exists (Ids.generateWebhookSecret rand).
  set (newSecret := Ids.generateWebhookSecret rand).
  set (m' := {| m_webhook_url := m_webhook_url m; m_webhook_secret := Some newSecret |}).
  assert (Hm' : merchants result.2 !! merchant_id = Some m').
  { subst result. simpl. by rewrite lookup_alter_eq, Hm. }
  assert (Hl' : webhook_logs result.2 = webhook_logs st) by reflexivity.
  split; [reflexivity|]. split; [exact Hm'|].
  split. { intros other Hne. subst result. simpl. by rewrite lookup_alter_ne. }
  clearbody result newSecret. split.
  - intros post job env rq Hj. unfold webhookWorker, webhookWorker_start.
    rewrite Hj, (uuid_param_found _ _ _ Hm'), Hm'.
    destruct (negb (truthy (m_webhook_url m'))); [discriminate|].
    destruct (get_or_create_log result.2 job (ww_uuid env)) as [[st1 log]|];
      [|discriminate]; cbn [m_webhook_secret m'].
    destruct (webhookWorker_settle _ _ _ _ _) as [[res st2] next].
    by intros [= <-].
  - intros post job env Hj Hu Hid Hlen Hfresh. rewrite <- Hl' in Hfresh.
    destruct (get_or_create_log_fresh result.2 job (ww_uuid env) Hid Hlen Hfresh)
      as (row & Hl & _).
    rewrite <- Hj in Hm'.
    rewrite (webhookWorker_ready hmac ax cfg post result.2 job env m' newSecret _ _ row
               Hm' Hu eq_refl Hl).
    cbv zeta. destruct (post _); [|destruct (5 <=? w_attempts row + 1)]; by eexists.
Qed.

End Settings.

Lemma retry_webhook_restarts_log_witness :
  status_code (retry_webhook Sample.first_failure Sample.merchant_a Sample.log_id
                 1705312810000).1 = 200.
Proof.
  refine (proj1 (retry_webhook_restarts_log Sample.sample_hmac Sample.sample_scalar
                   Sample.test_mode Sample.first_failure Sample.merchant_a Sample.log_id
                   1705312810000 _ ltac:(vm_compute; reflexivity))).
Defined.

Lemma retry_sends_stored_payload_witness :
  status_code
    (retry_webhook
       (deliver Sample.sample_hmac Sample.sample_scalar Sample.test_mode 0 Sample.always_500
          (Sample.tick Sample.log_id)
          (enqueueWebhook Sample.merchant_a "payment.success" (JObj []) 1705312808000
             (Sample.shop Success)))
       Sample.merchant_a Sample.log_id 1705312810000).1 = 200.
Proof.
  exact (proj1 (proj2
           (retry_sends_stored_payload Sample.sample_hmac Sample.sample_scalar
              Sample.test_mode (Sample.shop Success) Sample.merchant_a "payment.success"
              (JObj []) 1705312808000 Sample.always_500 (Sample.tick Sample.log_id) 1705312810000
              Sample.with_url "whsec_test_abc123"
              ltac:(vm_compute; reflexivity) ltac:(vm_compute; reflexivity)
              ltac:(vm_compute; reflexivity) ltac:(vm_compute; lia)
              ltac:(vm_compute; reflexivity)))).
Defined.


Lemma regenerate_secret_signs_next_witness :
  exists newSecret,
    body (regenerate_secret (Sample.shop Success) Sample.merchant_a
            (fun _ => (1 # 2)%Q)).1
    = JObj [("webhook_secret", JStr newSecret)].
Proof.
  destruct (regenerate_secret_signs_next Sample.sample_hmac Sample.sample_scalar
              Sample.test_mode (Sample.shop Success) Sample.merchant_a
              (fun _ => (1 # 2)%Q) Sample.with_url ltac:(vm_compute; reflexivity))
    as (newSecret & Hb & _).
  exists newSecret. exact Hb.
Defined.

(** ** The listings *)

Lemma insert_desc_perm {A} (created : A -> string) x l :
  Permutation (insert_desc created x l) (x :: l).
Proof.
  induction l as [|y r IH]; [reflexivity|]. simpl.
  destruct (String.leb (created y.2) (created x.2)); [reflexivity|].
  rewrite IH. apply perm_swap.
Qed.

Lemma order_by_desc_perm {A} (created : A -> string) l :
  Permutation (order_by_desc created l) l.
Proof.
  induction l as [|x l IH]; [reflexivity|].
  change (order_by_desc created (x :: l))
    with (insert_desc created x (order_by_desc created l)).
  by rewrite insert_desc_perm, IH.
Qed.

Lemma insert_desc_sorted {A} (created : A -> string) x l :
  Sorted (newest_first created) l -> Sorted (newest_first created) (insert_desc created x l).
Proof.
  induction l as [|y r IH]; intros Hs; simpl.
  - repeat constructor.
  - destruct (String.leb (created y.2) (created x.2)) eqn:E.
    + constructor; [exact Hs|]. constructor. exact E.
    + apply Sorted_inv in Hs as [Hr Hhd]. constructor; [by apply IH|].
      destruct r as [|z r']; simpl.
      * constructor. unfold newest_first.
        destruct (String.leb_total (created x.2) (created y.2)) as [H|H]; [exact H|congruence].
      * destruct (String.leb (created z.2) (created x.2)).
        -- constructor. unfold newest_first.
           destruct (String.leb_total (created x.2) (created y.2)) as [H|H];
             [exact H|congruence].
        -- constructor. by apply HdRel_inv in Hhd.
Qed.

Lemma order_by_desc_sorted {A} (created : A -> string) l :
  Sorted (newest_first created) (order_by_desc created l).
Proof.
  induction l as [|x l IH]; [constructor|].
  change (order_by_desc created (x :: l))
    with (insert_desc created x (order_by_desc created l)).
  by apply insert_desc_sorted.
Qed.

Lemma Sorted_drop {A} (R : relation A) n l : Sorted R l -> Sorted R (drop n l).
Proof.
  revert l. induction n as [|n IH]; intros [|x l] Hs; simpl; try done.
  apply IH. by apply Sorted_inv in Hs as [? _].
Qed.

Lemma Sorted_take {A} (R : relation A) n l : Sorted R l -> Sorted R (take n l).
Proof.
  revert l. induction n as [|n IH]; intros [|x l] Hs; simpl; try constructor.
  - apply IH. by apply Sorted_inv in Hs as [? _].
  - apply Sorted_inv in Hs as [_ Hhd]. destruct l as [|y l], n as [|n]; simpl; constructor.
    by apply HdRel_inv in Hhd.
Qed.

(** The answer of the common shape of the listings. *)
Lemma listing_spec {A} (owner created : A -> string) item failure
    (table : gmap string A) merchant_id pg :
  listing_answer owner created item table merchant_id pg
    (listing owner created item failure table merchant_id pg).
Proof.
  unfold listing_answer, listing, select_page. cbv zeta.
  destruct ((Pagination.limit pg <? 0) || (Pagination.offset pg <? 0)) eqn:Hneg;
    [reflexivity|].
  intros Hlmax Homax. unfold MAX_SAFE_INTEGER in Hlmax, Homax.
  destruct (Z.ltb_spec int8_max (Pagination.limit pg)) as [H|_];
    [unfold int8_max in H; lia|].
  destruct (Z.ltb_spec int8_max (Pagination.offset pg)) as [H|_];
    [unfold int8_max in H; lia|].
  cbn [orb].
  apply orb_false_iff in Hneg as [Hl Ho]. apply Z.ltb_ge in Hl, Ho.
  set (all := rows_of owner table merchant_id).
  set (sorted := order_by_desc created all).
  set (rows := take (Z.to_nat (Pagination.limit pg))
                 (drop (Z.to_nat (Pagination.offset pg)) sorted)).
  assert (Hperm : Permutation sorted all) by apply order_by_desc_perm.
  assert (Hsorted : Sorted (newest_first created) sorted) by apply order_by_desc_sorted.
  assert (Hsub : rows `sublist_of` sorted).
  { subst rows. etrans; [apply sublist_take | apply sublist_drop]. }
  assert (Hall : forall id row,
            (id, row) ∈ all <-> table !! id = Some row /\ owner row = merchant_id).
  { intros id row. subst all. unfold rows_of. rewrite list_elem_of_filter.
    rewrite elem_of_map_to_list. simpl. tauto. }
  assert (Hnd : NoDup all.*1).
  { subst all. unfold rows_of.
    apply (sublist_NoDup _ ((map_to_list table).*1));
      [apply NoDup_fst_map_to_list | apply fmap_sublist, sublist_filter]. }
  assert (Htotal : count_rows owner table merchant_id = Z.of_nat (length sorted)).
  { unfold count_rows. fold all. by rewrite Hperm. }
  rewrite Htotal. clearbody sorted. clearbody all.
  exists rows. split; [reflexivity|]. split; [|split; [|split; [|split]]].
  - intros id row Hin. apply Hall. rewrite <- Hperm. eapply elem_of_sublist; eassumption.
  - apply (sublist_NoDup (rows.*1) (sorted.*1)); [|by apply fmap_sublist]. by rewrite Hperm.
  - subst rows. by apply Sorted_take, Sorted_drop.
  - subst rows. rewrite length_take, length_drop. lia.
  - intros Ho0 Htot id row Hrow Hown. subst rows. rewrite Ho0.
    change (Z.to_nat 0) with 0%nat. rewrite drop_0, take_ge by lia.
    rewrite Hperm. apply Hall. by split.
Qed.

(** X23. The three listings answer for the calling merchant only. A page
    with a negative [limit] or [offset] is answered 500. Otherwise, for
    numbers up to [Number.MAX_SAFE_INTEGER], [data]
    holds orders (payments, refunds) of the merchant that are in the table,
    none twice, newest first, [total] is the number of the merchant's rows,
    the length of [data] is what [limit], [offset] and [total] allow, and a
    first page with [limit] at least [total] shows every row of the
    merchant. *)
Theorem listings_answer_own_rows st merchant_id ql qo :
  listing_answer o_merchant_id o_created_at order_item (orders st) merchant_id
    (Pagination.list_orders_page ql qo) (list_orders st merchant_id ql qo)
  /\ listing_answer p_merchant_id p_created_at payment_item (payments st) merchant_id
       (Pagination.list_payments_page ql qo) (list_payments st merchant_id ql qo)
  /\ listing_answer r_merchant_id r_created_at refund_item (refunds st) merchant_id
       (Pagination.list_refunds_page ql qo) (list_refunds st merchant_id ql qo).
Proof. split; [|split]; apply listing_spec. Qed.

Lemma count_rows_insert {A} (owner : A -> string) (table : gmap string A) id row merchant_id :
  table !! id = None ->
  count_rows owner (<[id := row]> table) merchant_id
  = count_rows owner table merchant_id
    + (if String.eqb (owner row) merchant_id then 1 else 0).
Proof.
  intros Hfresh. unfold count_rows, rows_of.
  rewrite (map_to_list_insert table id row Hfresh), filter_cons. simpl.
  destruct (String.eqb_spec (owner row) merchant_id) as [E|E].
  - rewrite decide_True by done. simpl. lia.
  - rewrite decide_False by done. lia.
Qed.

(** X24. An order that create-order has answered 201 for is counted in the
    listing of its merchant, whose [total] grows by one, and in no other
    merchant's; on a first page with room for all the orders of the
    merchant it is among the rows shown. *)
Theorem created_order_is_listed st merchant_id req orderId now :
  let result := create_order st merchant_id req orderId now in
  status_code result.1 = 201 ->
  count_rows o_merchant_id (orders result.2) merchant_id
  = count_rows o_merchant_id (orders st) merchant_id + 1
  /\ (forall other, other <> merchant_id ->
        count_rows o_merchant_id (orders result.2) other
        = count_rows o_merchant_id (orders st) other)
  /\ (forall ql qo,
        let pg := Pagination.list_orders_page ql qo in
        Pagination.offset pg = 0 ->
        count_rows o_merchant_id (orders st) merchant_id + 1 <= Pagination.limit pg ->
        Pagination.limit pg <= MAX_SAFE_INTEGER ->
        exists rows o,
          body (list_orders result.2 merchant_id ql qo)
          = JObj [("data", JArr (map order_item rows));
                  ("total", JNum (count_rows o_merchant_id (orders st) merchant_id + 1));
                  ("limit", JNum (Pagination.limit pg)); ("offset", JNum 0)]
          /\ (orderId, o) ∈ rows /\ o_amount o > 0 /\ oq_amount req = Some (o_amount o)).
Proof.
  intros result H201.
  assert (Hres : exists o,
            orders st !! orderId = None
            /\ orders result.2 = <[orderId := o]> (orders st)
            /\ o_merchant_id o = merchant_id /\ o_amount o > 0
            /\ oq_amount req = Some (o_amount o)).
  { subst result. revert H201. unfold create_order, pk_insert.
    destruct (oq_amount req) as [amount|]; [|discriminate].
    destruct ((amount =? 0) || (amount <=? 0)) eqn:Hbad; [discriminate|].
    destruct (int4_max <? amount); [discriminate|].
    destruct (varchar 10 (default "INR" (oq_currency req))) as [c|]; [|discriminate].
    destruct (varchar_or_null 255 (oq_receipt req)) as [r|]; [|discriminate].
    destruct (orders st !! orderId) eqn:Hfresh; [discriminate|]. intros _.
    apply orb_false_iff in Hbad as [_ Hbad]. apply Z.leb_gt in Hbad.
    eexists. split; [reflexivity|]. split; [reflexivity|]. simpl.
    split; [reflexivity|]. split; [lia | reflexivity]. }
  clearbody result. destruct Hres as (o & Hfresh & Ho & Hown & Hpos & Hamt).
  assert (Hcount : count_rows o_merchant_id (orders result.2) merchant_id
                   = count_rows o_merchant_id (orders st) merchant_id + 1).
  { rewrite Ho, count_rows_insert by exact Hfresh. by rewrite Hown, String.eqb_refl. }
  split; [exact Hcount|]. split.
  - intros other Hne. rewrite Ho, count_rows_insert by exact Hfresh.
    destruct (String.eqb_spec (o_merchant_id o) other); [congruence | lia].
  - intros ql qo pg Hoff Hroom Hsafe.
    pose proof (listing_spec o_merchant_id o_created_at order_item "Failed to list orders"
                  (orders result.2) merchant_id pg) as Hans.
    unfold listing_answer in Hans. cbv zeta in Hans. rewrite Hoff, Hcount in Hans.
    destruct (Pagination.limit pg <? 0) eqn:Hneg.
    { apply Z.ltb_lt in Hneg. unfold count_rows in Hroom. lia. }
    simpl in Hans.
    destruct (Hans Hsafe ltac:(discriminate)) as (rows & Hr & _ & _ & _ & _ & Hall).
    exists rows, o. split.
    { unfold list_orders. fold pg. rewrite Hr. reflexivity. }
    split; [|split; assumption].
    apply Hall; [reflexivity | exact Hroom | | exact Hown].
    by rewrite Ho, lookup_insert_eq.
Qed.

Lemma created_order_is_listed_witness :
  count_rows o_merchant_id
    (orders (create_order (Sample.shop Pending) Sample.merchant_a
               {| oq_amount := Some 1200; oq_currency := None; oq_receipt := None |}
               "order_Y" "2024-01-15T10:07:00.000Z").2) Sample.merchant_a
  = count_rows o_merchant_id (orders (Sample.shop Pending)) Sample.merchant_a + 1.
Proof.
  exact (proj1 (created_order_is_listed (Sample.shop Pending) Sample.merchant_a
                  {| oq_amount := Some 1200; oq_currency := None; oq_receipt := None |}
                  "order_Y" "2024-01-15T10:07:00.000Z" ltac:(vm_compute; reflexivity))).
Defined.

(** ** Retry delays *)

(** X25. Whatever the count of attempts, the delay the worker reads from
    either table is positive and at most the last entry: the entry 0 at
    index 0 and an index outside the table both give the last entry. From
    one failed attempt to four the delay grows with the count. *)
Theorem retry_delay_positive_and_growing cfg :
  let delay := nextRetryDelay (getRetryIntervals cfg) in
  (forall attempts, 0 < delay attempts <= delay 4)
  /\ (forall attempts, attempts <= 0 \/ 5 <= attempts -> delay attempts = delay 4)
  /\ (forall a b, 1 <= a -> a < b -> b <= 4 -> delay a < delay b).
Proof.
  intros delay.
  assert (Hout : forall attempts, attempts <= 0 \/ 5 <= attempts -> delay attempts = delay 4).
  { intros attempts H. subst delay. unfold nextRetryDelay, getRetryIntervals.
    destruct (0 <=? attempts) eqn:H0.
    - apply Z.leb_le in H0.
      destruct (decide (attempts = 0)) as [->|Hne].
      + by destruct (WEBHOOK_RETRY_INTERVALS_TEST cfg).
      + assert (H5 : (5 <= Z.to_nat attempts)%nat) by lia.
        destruct (Z.to_nat attempts) as [|[|[|[|[|k]]]]]; try lia.
        by destruct (WEBHOOK_RETRY_INTERVALS_TEST cfg).
    - by destruct (WEBHOOK_RETRY_INTERVALS_TEST cfg). }
  assert (Hin : forall attempts, 1 <= attempts <= 4 ->
            attempts = 1 \/ attempts = 2 \/ attempts = 3 \/ attempts = 4) by (intros; lia).
  assert (Hval : delay 1 = (if WEBHOOK_RETRY_INTERVALS_TEST cfg then 5000 else 60000)
                 /\ delay 2 = (if WEBHOOK_RETRY_INTERVALS_TEST cfg then 10000 else 300000)
                 /\ delay 3 = (if WEBHOOK_RETRY_INTERVALS_TEST cfg then 15000 else 1800000)
                 /\ delay 4 = (if WEBHOOK_RETRY_INTERVALS_TEST cfg then 20000 else 7200000)).
  { subst delay. unfold getRetryIntervals.
    destruct (WEBHOOK_RETRY_INTERVALS_TEST cfg); repeat split; reflexivity. }
  destruct Hval as (H1 & H2 & H3 & H4).
  split; [|split; [exact Hout|]].
  - intros attempts.
    destruct (decide (1 <= attempts <= 4)) as [Hr|Hr].
    + destruct (Hin attempts Hr) as [-> | [-> | [-> | ->]]];
        rewrite ?H1, ?H2, ?H3, ?H4; destruct (WEBHOOK_RETRY_INTERVALS_TEST cfg); lia.
    + rewrite (Hout attempts) by lia. rewrite H4.
      destruct (WEBHOOK_RETRY_INTERVALS_TEST cfg); lia.
  - intros a b Ha Hab Hb.
    destruct (Hin a ltac:(lia)) as [-> | [-> | [-> | ->]]];
      destruct (Hin b ltac:(lia)) as [-> | [-> | [-> | ->]]]; try lia;
      rewrite ?H1, ?H2, ?H3, ?H4; destruct (WEBHOOK_RETRY_INTERVALS_TEST cfg); lia.
Qed.

(** ** Refunds carry their processing time *)

(** X26. A refund has [processed_at] exactly when its status is
    [processed]: create-refund records a pending refund with none, the
    refund worker sets both, and no other write touches the refunds. *)
Theorem refunds_stay_stamped st :
  refunds_stamped st ->
  (forall merchant_id pid req refundId now,
     refunds_stamped (create_refund st merchant_id pid req refundId now).2)
  /\ (forall rid now date_now, refunds_stamped (refundWorker st rid now date_now).2)
  /\ (forall merchant_id key req env,
        refunds (create_payment st merchant_id key req env).2 = refunds st)
  /\ (forall merchant_id pid now,
        refunds (capture_payment st merchant_id pid now).2 = refunds st)
  /\ (forall pcfg pid env, refunds (paymentWorker pcfg st pid env).2 = refunds st).
Proof.
  intros Hinv. split; [|split; [|split; [|split]]].
  - intros merchant_id pid req refundId now rid r H.
    destruct (create_refund_tables st merchant_id pid req refundId now)
      as (_ & _ & _ & [[Hsame _]
                      | (payment & amount & _ & _ & _ & _ & _ & Hfresh & Er & _)]).
    + rewrite Hsame in H. by apply (Hinv rid).
    + rewrite Er in H. destruct (decide (refundId = rid)) as [<-|Hne].
      * rewrite lookup_insert_eq in H. injection H as <-. simpl.
        split; [discriminate | intros [? E]; discriminate E].
      * rewrite lookup_insert_ne in H by done. by apply (Hinv rid).
  - intros rid now date_now id r H.
    destruct (refundWorker_tables st rid now date_now) as (_ & _ & _ & [Er | Er]);
      rewrite Er in H; [by apply (Hinv id)|].
    destruct (decide (rid = id)) as [<-|Hne].
    + rewrite lookup_alter_eq in H. destruct (refunds st !! rid); [|discriminate].
      injection H as <-. simpl. split; [by eexists | reflexivity].
    + rewrite lookup_alter_ne in H by done. by apply (Hinv id).
  - intros merchant_id key req env.
    destruct (idempotency_hit st merchant_id key (e_db_now env)) as [cached|] eqn:Hhit.
    { unfold create_payment, delete_idempotency_key. by rewrite Hhit. }
    by destruct (create_payment_effect st merchant_id key req env Hhit)
      as ((_ & _ & Er & _) & _).
  - intros merchant_id pid now.
    by destruct (capture_payment_tables st merchant_id pid now) as (_ & Er & _).
  - intros pcfg pid env.
    by destruct (paymentWorker_tables pcfg st pid env) as (_ & Er & _).
Qed.

Lemma refunds_stay_stamped_witness :
  refunds_stamped
    (create_refund Sample.shop_refunded Sample.merchant_a "pay_X"
       {| rq_amount := Some 30000; rq_reason := None |} "rfnd_2"
       "2024-01-15T10:02:00.000Z").2.
Proof.
  apply (refunds_stay_stamped Sample.shop_refunded).
  intros rid r H. change (refunds Sample.shop_refunded)
    with ({[ "rfnd_1" := {| r_payment_id := "pay_X"; r_merchant_id := Sample.merchant_a;
                            r_amount := 20000; r_reason := None;
                            r_status := RefundProcessed;
                            r_created_at := "2024-01-15T10:01:00.000Z";
                            r_processed_at := Some "2024-01-15T10:01:01.000Z" |} ]}
          : gmap string refund) in H.
  apply lookup_singleton_Some in H as [_ <-]. simpl. split; [by eexists | reflexivity].
Defined.

(** ** Payloads are objects *)

Section Payloads.

Variable hmac : string -> string -> string.
Variable ax : json -> string.
Variable cfg : config.

Lemma payloads_add_job st job delay :
  payloads_are_objects st -> is_object (payload job) ->
  payloads_are_objects (webhookQueue_add job delay st).
Proof.
  intros [Hlogs Hjobs] Hobj. split; [exact Hlogs|].
  intros jd Hin. simpl in Hin. apply elem_of_app in Hin as [Hin|Hin]; [by apply Hjobs|].
  apply list_elem_of_singleton in Hin. by subst jd.
Qed.

Lemma payloads_alter_log st id f :
  (forall w, w_payload (f w) = w_payload w) ->
  payloads_are_objects st ->
  payloads_are_objects (set_webhook_logs (alter f id (webhook_logs st)) st).
Proof.
  intros Hf [Hlogs Hjobs]. split; [|exact Hjobs].
  intros id' w H. simpl in H. destruct (decide (id = id')) as [<-|Hne].
  - rewrite lookup_alter_eq in H. destruct (webhook_logs st !! id) as [w0|] eqn:E;
      [|discriminate].
    injection H as <-. rewrite Hf. by apply (Hlogs id).
  - rewrite lookup_alter_ne in H by done. by apply (Hlogs id').
Qed.

Lemma payloads_get_or_create_log st job uuid st1 wl :
  get_or_create_log st job uuid = Some (st1, wl) ->
  payloads_are_objects st -> is_object (payload job) ->
  payloads_are_objects st1.
Proof.
  unfold get_or_create_log, pk_insert. intros H [Hlogs Hjobs] [members Hobj].
  destruct (truthy (webhookLogId job)).
  - destruct (uuid_param (webhook_logs st) (default "" (webhookLogId job)));
      [|discriminate].
    by injection H as <- _.
  - destruct (varchar 50 (event job)) as [stored_event|]; [|discriminate].
    destruct (webhook_logs st !! uuid) eqn:Hfresh; [discriminate|].
    injection H as <- _. split; [|exact Hjobs].
    intros id w H. simpl in H. destruct (decide (uuid = id)) as [<-|Hne].
    + rewrite lookup_insert_eq in H. injection H as <-. simpl. rewrite Hobj.
      by eexists.
    + rewrite lookup_insert_ne in H by done. by apply (Hlogs id).
Qed.

Lemma payloads_webhookWorker post st job env :
  payloads_are_objects st -> is_object (payload job) ->
  payloads_are_objects (d_state (webhookWorker hmac ax cfg post st job env)).
Proof.
  intros Hinv Hobj. unfold webhookWorker, webhookWorker_start.
  destruct (uuid_param (merchants st) (merchantId job)) as [key|]; [|exact Hinv].
  destruct (merchants st !! key) as [m|]; [|exact Hinv].
  destruct (negb (truthy (m_webhook_url m))); [exact Hinv|].
  destruct (get_or_create_log st job (ww_uuid env)) as [[st1 wl]|] eqn:Hl; [|exact Hinv].
  pose proof (payloads_get_or_create_log _ _ _ _ _ Hl Hinv Hobj) as Hinv1.
  destruct (m_webhook_secret m); [|exact Hinv1].
  unfold webhookWorker_settle. cbn [fl_log fl_job fl_now fl_request].
  destruct wl as [[id log]|]; [|exact Hinv1].
  destruct (post _) as [status data | rs message]; simpl.
  - by apply payloads_alter_log.
  - destruct (5 <=? w_attempts log + 1); simpl.
    + by apply payloads_alter_log.
    + apply payloads_add_job; [by apply payloads_alter_log | exact Hobj].
Qed.

(** X27. When every stored and every queued payload is a JSON object, it
    stays so under everything that writes a log or queues a delivery: the
    fan-out of an event, the test webhook, a manual retry, a run of the
    webhook worker on a queued job, and the payment and refund workers.
    The body the worker transmits for a queued job is therefore always
    [JSON.stringify] of the payload. *)
Theorem payloads_stay_objects st :
  payloads_are_objects st ->
  (forall mid ev data date_now,
     payloads_are_objects (enqueueWebhook mid ev data date_now st))
  /\ (forall mid url date_now, payloads_are_objects (test_webhook st mid url date_now).2)
  /\ (forall mid id db_now, payloads_are_objects (retry_webhook st mid id db_now).2)
  /\ (forall i post env, payloads_are_objects (deliver hmac ax cfg i post env st))
  /\ (forall pcfg pid env, payloads_are_objects (paymentWorker pcfg st pid env).2)
  /\ (forall rid now date_now, payloads_are_objects (refundWorker st rid now date_now).2)
  /\ (forall i post env job st1 rq,
        take_job i st = Some (job, st1) ->
        d_sent (webhookWorker hmac ax cfg post st1 job env) = Some rq ->
        rq_body rq = JSON_stringify (payload job)).
Proof.
  intros Hinv. pose proof Hinv as [Hlogs Hjobs].
  assert (Htake : forall i job st1, take_job i st = Some (job, st1) ->
            is_object (payload job) /\ payloads_are_objects st1).
  { intros i job st1. unfold take_job.
    destruct (webhookQueue st !! i) as [[job' d]|] eqn:Hi; [|discriminate].
    intros [= <- <-]. split.
    - apply (Hjobs (job', d)). by eapply list_elem_of_lookup_2.
    - split; [exact Hlogs|]. intros jd Hin. apply Hjobs. simpl in Hin.
      eapply elem_of_sublist; [exact Hin | apply sublist_delete]. }
  split; [|split; [|split; [|split; [|split; [|split]]]]].
  - intros mid ev data date_now. apply payloads_add_job; [exact Hinv | by eexists].
  - intros mid url date_now. unfold test_webhook.
    destruct (negb (truthy url)); [exact Hinv|].
    apply payloads_add_job; [exact Hinv | by eexists].
  - intros mid id db_now. unfold retry_webhook, retry_webhook_update.
    destruct (uuid_param (webhook_logs st) id) as [key|]; [|exact Hinv].
    destruct (select_scoped w_merchant_id (webhook_logs st) key mid) as [w|] eqn:Hsel;
      [|exact Hinv].
    apply select_scoped_Some in Hsel as [Hw _]. cbn [snd].
    apply payloads_add_job; [by apply payloads_alter_log | by apply (Hlogs key)].
  - intros i post env. unfold deliver.
    destruct (take_job i st) as [[job st1]|] eqn:Hi; [|exact Hinv].
    destruct (Htake i job st1 Hi). by apply payloads_webhookWorker.
  - intros pcfg pid env. unfold paymentWorker.
    destruct (payments st !! pid) as [p|]; [|exact Hinv].
    destruct (merchants st !! p_merchant_id p) as [m|]; [|exact Hinv].
    destruct (isSuccess pcfg p (pw_random env)); destruct (truthy (m_webhook_url m));
      try exact Hinv; (apply payloads_add_job; [exact Hinv | by eexists]).
  - intros rid now date_now. unfold refundWorker.
    destruct (refunds st !! rid) as [r|]; [|exact Hinv].
    destruct (payments st !! r_payment_id r) as [p|]; [|exact Hinv].
    destruct (merchants st !! r_merchant_id r) as [m|]; [|exact Hinv].
    destruct (p_status p); try exact Hinv.
    destruct (truthy (m_webhook_url m)); [|exact Hinv].
    apply payloads_add_job; [exact Hinv | by eexists].
  - intros i post env job st1 rq Hi. destruct (Htake i job st1 Hi) as [[members Hobj] _].
    unfold webhookWorker, webhookWorker_start.
    destruct (uuid_param (merchants st1) (merchantId job)) as [key|]; [|discriminate].
    destruct (merchants st1 !! key) as [m|]; [|discriminate].
    destruct (negb (truthy (m_webhook_url m))); [discriminate|].
    destruct (get_or_create_log st1 job (ww_uuid env)) as [[st2 wl]|]; [|discriminate].
    destruct (m_webhook_secret m) as [secret|]; [|discriminate].
    destruct (webhookWorker_settle _ _ _ _ _) as [[result st3] next].
    intros [= <-]. unfold webhook_request, axios_body. cbn [rq_body fl_request].
    by rewrite Hobj.
Qed.

End Payloads.

Lemma payloads_stay_objects_witness :
  payloads_are_objects
    (enqueueWebhook Sample.merchant_a "payment.success" (JObj []) 1705312808000
       (Sample.shop Success)).
Proof.
  apply (payloads_stay_objects Sample.sample_hmac Sample.sample_scalar Sample.test_mode
           (Sample.shop Success)).
  split.
  - intros id w H. change (webhook_logs (Sample.shop Success))
      with (∅ : gmap string webhook_log) in H. by rewrite lookup_empty in H.
  - intros jd H. change (webhookQueue (Sample.shop Success))
      with ([] : list (webhook_job * Z)) in H. by apply elem_of_nil in H.
Defined.
